(** * Ghouenzen debt ledger

    A shallow embedding of the Express/PostgreSQL server of the repository,
    in its two variants ([server.js] and the compact variant kept beside it),
    and of the statement title selection of the dashboard script.

    The relational store is a record of tables, each table a list of rows in
    insertion order; every SQL statement of the handlers is a function on that
    record.  A handler is a computation in a small state-and-exception monad:
    [await pool.query(...)] is a monadic step, a failed statement throws, and
    the [try { ... } catch (err) { res.status(500) ... }] around each handler
    is [handle].  The handlers run their statements outside any transaction,
    so the writes made before a throw stay in the store. *)

From Stdlib Require Import ZArith List String Bool Lia.
From Stdlib Require Import Sorting.Sorted Sorting.Permutation.
Import ListNotations.

Local Open Scope string_scope.
Local Open Scope list_scope.
Local Open Scope Z_scope.

(** ** JavaScript values *)

Module Js.

(** A JavaScript string is kept as a [string] with one character for each of
    its code units, so that [String.length] is its [length].  An absent
    property ([undefined]) or [null] is [None]. *)

(** [x || d] where [x] is a string or absent: [undefined], [null] and the
    empty string are falsy. *)
Definition or_string (x : option string) (d : string) : string :=
  match x with
  | Some s => if (s =? "")%string then d else s
  | None => d
  end.

(** [x || 0] where [x] is a number or absent: [undefined], [null] and [0] are
    falsy, and all of them give [0]. *)
Definition or_zero (x : option Z) : Z :=
  match x with
  | Some a => a
  | None => 0
  end.

(** [a.reduce(f, init)] *)
Definition reduce {A B : Type} (f : B -> A -> B) (init : B) (a : list A) : B :=
  fold_left f a init.

End Js.

(** ** Numbers

    A [DECIMAL(15,2)] column holds an exact decimal; it is kept here as the
    integer number of hundredths.  The driver hands the column to the handler
    as text, and the handler turns it into a JavaScript number with
    [parseFloat] and computes with [+] and [-].  The development is stated
    over any such number type, so that what is proved of the sums does not
    depend on how the additions round. *)

Definition decimal := Z.

Class JsNumber := {
  num : Type;
  nzero : num;
  nadd : num -> num -> num;
  nsub : num -> num -> num;
  (** [parseFloat] of the text of a decimal *)
  parseFloat : decimal -> num;
  (** truthiness of a number: [0], [-0] and [NaN] are falsy *)
  truthy : num -> bool;
  parseFloat_zero : parseFloat 0 = nzero
}.

(** [x || 0] on a JavaScript number. *)
Definition num_or_zero `{JsNumber} (x : num) : num :=
  if truthy x then x else nzero.

(** Exact decimal arithmetic in hundredths: the instance used to evaluate the
    handlers on concrete stores. *)
#[export] Instance ExactNumber : JsNumber := {|
  num := Z;
  nzero := 0;
  nadd := Z.add;
  nsub := Z.sub;
  parseFloat := fun d => d;
  truthy := fun x => negb (x =? 0);
  parseFloat_zero := eq_refl
|}.

(** ** The store *)

Module Store.

Record UserRow := mkUser {
  user_id : Z;
  username : string;
  email : string;
  password_hash : string;
  user_full_name : string;
  phone : option string;
  address : option string;
  is_admin : bool;
  must_change_password : bool;
  user_created_at : Z;
  last_login : option Z
}.

(** A row of [creditors] or of [debtors]: the two tables have the same
    columns. *)
Record PartyRow := mkParty {
  party_id : Z;
  party_user_id : Z;
  full_name : string;
  contact : string;
  gender : string;
  language : string;
  party_created_at : Z
}.

(** A row of [creditor_items] or of [debtor_items]; [parent_id] is the
    [creditor_id] or [debtor_id] column. *)
Record ItemRow := mkItem {
  item_id : Z;
  parent_id : Z;
  reason : string;
  amount : decimal;
  date_incurred : option Z;
  due_date : option Z;
  status : string;
  notes : string;
  item_created_at : Z
}.

Record PaymentRow := mkPayment {
  payment_id : Z;
  payment_user_id : Z;
  payment_type : string;
  related_id : option Z;
  payment_amount : decimal;
  payment_date : Z;
  payment_method : string;
  reference : string;
  payment_notes : string;
  payment_created_at : Z
}.

(** The tables and the [SERIAL] sequences behind their [id] columns.  The
    values a request carries are taken to fit their columns: a text its
    [VARCHAR], an amount [DECIMAL(15,2)]; what the store then checks is
    [NOT NULL] and the foreign keys. *)
Record DB := mkDB {
  users : list UserRow;
  creditors : list PartyRow;
  creditor_items : list ItemRow;
  debtors : list PartyRow;
  debtor_items : list ItemRow;
  payments : list PaymentRow;
  seq_users : Z;
  seq_creditors : Z;
  seq_creditor_items : Z;
  seq_debtors : Z;
  seq_debtor_items : Z;
  seq_payments : Z
}.

(** The creditor routes and the debtor routes are the same code over the two
    pairs of tables. *)
Inductive side := Creditor | Debtor.

Definition parties (sd : side) (db : DB) : list PartyRow :=
  match sd with Creditor => creditors db | Debtor => debtors db end.

Definition items (sd : side) (db : DB) : list ItemRow :=
  match sd with Creditor => creditor_items db | Debtor => debtor_items db end.

Definition seq_parties (sd : side) (db : DB) : Z :=
  match sd with Creditor => seq_creditors db | Debtor => seq_debtors db end.

Definition seq_items (sd : side) (db : DB) : Z :=
  match sd with Creditor => seq_creditor_items db | Debtor => seq_debtor_items db end.

Definition set_users (l : list UserRow) (db : DB) : DB :=
  mkDB l (creditors db) (creditor_items db) (debtors db) (debtor_items db)
    (payments db) (seq_users db) (seq_creditors db) (seq_creditor_items db)
    (seq_debtors db) (seq_debtor_items db) (seq_payments db).

Definition set_parties (sd : side) (l : list PartyRow) (db : DB) : DB :=
  match sd with
  | Creditor =>
      mkDB (users db) l (creditor_items db) (debtors db) (debtor_items db)
        (payments db) (seq_users db) (seq_creditors db) (seq_creditor_items db)
        (seq_debtors db) (seq_debtor_items db) (seq_payments db)
  | Debtor =>
      mkDB (users db) (creditors db) (creditor_items db) l (debtor_items db)
        (payments db) (seq_users db) (seq_creditors db) (seq_creditor_items db)
        (seq_debtors db) (seq_debtor_items db) (seq_payments db)
  end.

Definition set_items (sd : side) (l : list ItemRow) (db : DB) : DB :=
  match sd with
  | Creditor =>
      mkDB (users db) (creditors db) l (debtors db) (debtor_items db)
        (payments db) (seq_users db) (seq_creditors db) (seq_creditor_items db)
        (seq_debtors db) (seq_debtor_items db) (seq_payments db)
  | Debtor =>
      mkDB (users db) (creditors db) (creditor_items db) (debtors db) l
        (payments db) (seq_users db) (seq_creditors db) (seq_creditor_items db)
        (seq_debtors db) (seq_debtor_items db) (seq_payments db)
  end.

Definition set_payments (l : list PaymentRow) (db : DB) : DB :=
  mkDB (users db) (creditors db) (creditor_items db) (debtors db)
    (debtor_items db) l (seq_users db) (seq_creditors db)
    (seq_creditor_items db) (seq_debtors db) (seq_debtor_items db)
    (seq_payments db).

(** [nextval] of the sequence of a party table, of an item table, of
    [payments]. *)
Definition bump_seq_parties (sd : side) (db : DB) : DB :=
  match sd with
  | Creditor =>
      mkDB (users db) (creditors db) (creditor_items db) (debtors db)
        (debtor_items db) (payments db) (seq_users db) (seq_creditors db + 1)
        (seq_creditor_items db) (seq_debtors db) (seq_debtor_items db)
        (seq_payments db)
  | Debtor =>
      mkDB (users db) (creditors db) (creditor_items db) (debtors db)
        (debtor_items db) (payments db) (seq_users db) (seq_creditors db)
        (seq_creditor_items db) (seq_debtors db + 1) (seq_debtor_items db)
        (seq_payments db)
  end.

Definition bump_seq_items (sd : side) (db : DB) : DB :=
  match sd with
  | Creditor =>
      mkDB (users db) (creditors db) (creditor_items db) (debtors db)
        (debtor_items db) (payments db) (seq_users db) (seq_creditors db)
        (seq_creditor_items db + 1) (seq_debtors db) (seq_debtor_items db)
        (seq_payments db)
  | Debtor =>
      mkDB (users db) (creditors db) (creditor_items db) (debtors db)
        (debtor_items db) (payments db) (seq_users db) (seq_creditors db)
        (seq_creditor_items db) (seq_debtors db) (seq_debtor_items db + 1)
        (seq_payments db)
  end.

Definition bump_seq_payments (db : DB) : DB :=
  mkDB (users db) (creditors db) (creditor_items db) (debtors db)
    (debtor_items db) (payments db) (seq_users db) (seq_creditors db)
    (seq_creditor_items db) (seq_debtors db) (seq_debtor_items db)
    (seq_payments db + 1).

(** *** Statements as computations

    A statement runs against the store and either returns or raises; what it
    wrote before raising stays written. *)

Inductive outcome (A : Type) : Type :=
| Ok (a : A)
| Throw (msg : string).

Arguments Ok {A} a.
Arguments Throw {A} msg.

Definition Q (A : Type) : Type := DB -> outcome A * DB.

Definition ret {A : Type} (a : A) : Q A := fun db => (Ok a, db).

Definition throw {A : Type} (msg : string) : Q A := fun db => (Throw msg, db).

Definition bind {A B : Type} (c : Q A) (k : A -> Q B) : Q B :=
  fun db =>
    match c db with
    | (Ok a, db1) => k a db1
    | (Throw m, db1) => (Throw m, db1)
    end.

(** A [SELECT]. *)
Definition query {A : Type} (f : DB -> A) : Q A := fun db => (Ok (f db), db).

(** A statement that cannot be refused. *)
Definition exec (f : DB -> DB) : Q unit := fun db => (Ok tt, f db).

Definition not_null_violation : string := "null value violates not-null constraint".
Definition foreign_key_violation : string := "insert or update violates foreign key constraint".

(** *** ORDER BY

    The rows selected are sorted by a stable insertion sort: rows that tie on
    the listed keys stay in the order of the scan, which is the order of
    insertion. *)

Fixpoint insert_by {A : Type} (le : A -> A -> bool) (x : A) (l : list A) : list A :=
  match l with
  | [] => [x]
  | y :: l' => if le x y then x :: l else y :: insert_by le x l'
  end.

Definition order_by {A : Type} (le : A -> A -> bool) (l : list A) : list A :=
  fold_right (insert_by le) [] l.

(** *** Statements *)

Definition exists_user (uid : Z) (db : DB) : bool :=
  existsb (fun u => user_id u =? uid) (users db).

Definition exists_party (sd : side) (id : Z) (db : DB) : bool :=
  existsb (fun p => party_id p =? id) (parties sd db).

(** [SELECT * FROM creditors WHERE user_id = $1 ORDER BY full_name] *)
Definition select_parties_of_user (sd : side) (uid : Z) (db : DB) : list PartyRow :=
  order_by (fun p q => String.leb (full_name p) (full_name q))
    (filter (fun p => party_user_id p =? uid) (parties sd db)).

(** [SELECT * FROM creditor_items WHERE creditor_id = $1 ORDER BY id] *)
Definition select_items_of (sd : side) (pid : Z) (db : DB) : list ItemRow :=
  order_by (fun i j => item_id i <=? item_id j)
    (filter (fun i => parent_id i =? pid) (items sd db)).

(** [SELECT id FROM creditors WHERE id = $1 AND user_id = $2] *)
Definition select_party_owned (sd : side) (id uid : Z) (db : DB) : list Z :=
  map party_id
    (filter (fun p => (party_id p =? id) && (party_user_id p =? uid)) (parties sd db)).

(** [UPDATE creditors SET full_name = $1, contact = $2, gender = $3,
    language = $4 WHERE cond].  [full_name] is [NOT NULL]: the statement is
    refused when a row matches and the name is [NULL]. *)
Definition update_parties (sd : side) (cond : PartyRow -> bool)
    (fn : option string) (ct g l : string) : Q unit :=
  fun db =>
    match fn with
    | Some n =>
        (Ok tt,
         set_parties sd
           (map (fun p => if cond p
                          then mkParty (party_id p) (party_user_id p) n ct g l
                                 (party_created_at p)
                          else p)
              (parties sd db)) db)
    | None =>
        if existsb cond (parties sd db)
        then (Throw not_null_violation, db)
        else (Ok tt, db)
    end.

(** [DELETE FROM creditor_items WHERE creditor_id = $1] *)
Definition delete_items_of (sd : side) (pid : Z) : Q unit :=
  exec (fun db =>
          set_items sd (filter (fun i => negb (parent_id i =? pid)) (items sd db)) db).

(** [INSERT INTO creditor_items (creditor_id, reason, amount, date_incurred,
    due_date, status, notes) VALUES (...)]: the id comes from the sequence,
    [created_at] from the clock, and [creditor_id] must reference a row of
    [creditors].  The sequence advances even when the row is refused. *)
Definition insert_item (sd : side) (now pid : Z) (r : string) (a : decimal)
    (di du : option Z) (st nt : string) : Q unit :=
  fun db =>
    let id := seq_items sd db in
    let db1 := bump_seq_items sd db in
    if exists_party sd pid db
    then (Ok tt, set_items sd (items sd db ++ [mkItem id pid r a di du st nt now]) db1)
    else (Throw foreign_key_violation, db1).

(** [INSERT INTO creditors (user_id, full_name, contact, gender, language)
    VALUES (...) RETURNING id] *)
Definition insert_party (sd : side) (now uid : Z) (fn : option string)
    (ct g l : string) : Q Z :=
  fun db =>
    let id := seq_parties sd db in
    let db1 := bump_seq_parties sd db in
    match fn with
    | Some n =>
        if exists_user uid db
        then (Ok id, set_parties sd (parties sd db ++ [mkParty id uid n ct g l now]) db1)
        else (Throw foreign_key_violation, db1)
    | None => (Throw not_null_violation, db1)
    end.

(** [DELETE FROM creditors WHERE cond]; the items of a deleted row go with it
    ([ON DELETE CASCADE]). *)
Definition cascade_parties (sd : side) (cond : PartyRow -> bool) (db : DB) : DB :=
  let gone := map party_id (filter cond (parties sd db)) in
  set_items sd
    (filter (fun i => negb (existsb (Z.eqb (parent_id i)) gone)) (items sd db))
    (set_parties sd (filter (fun p => negb (cond p)) (parties sd db)) db).

Definition delete_parties (sd : side) (cond : PartyRow -> bool) : Q unit :=
  exec (cascade_parties sd cond).

(** [SELECT * FROM payments WHERE user_id = $1 ORDER BY ...] *)
Definition select_payments_of_user (le : PaymentRow -> PaymentRow -> bool)
    (uid : Z) (db : DB) : list PaymentRow :=
  order_by le (filter (fun p => payment_user_id p =? uid) (payments db)).

(** [ORDER BY payment_date DESC, created_at DESC] *)
Definition by_date_then_created_desc (p q : PaymentRow) : bool :=
  (payment_date q <? payment_date p)
  || ((payment_date q =? payment_date p)
      && (payment_created_at q <=? payment_created_at p)).

(** [ORDER BY payment_date DESC] *)
Definition by_date_desc (p q : PaymentRow) : bool :=
  payment_date q <=? payment_date p.

(** [SELECT id FROM payments WHERE id = $1 AND user_id = $2] *)
Definition select_payment_owned (id uid : Z) (db : DB) : list Z :=
  map payment_id
    (filter (fun p => (payment_id p =? id) && (payment_user_id p =? uid)) (payments db)).

(** [INSERT INTO payments (user_id, type, related_id, amount, payment_date,
    payment_method, reference, notes) VALUES (...) RETURNING id]; [type] and
    [amount] are [NOT NULL], [user_id] references [users]. *)
Definition insert_payment (now uid : Z) (ty : option string) (rel : option Z)
    (a : option decimal) (d : Z) (m rf nt : string) : Q Z :=
  fun db =>
    let id := seq_payments db in
    let db1 := bump_seq_payments db in
    match ty, a with
    | Some t, Some amt =>
        if exists_user uid db
        then (Ok id,
              set_payments (payments db ++ [mkPayment id uid t rel amt d m rf nt now]) db1)
        else (Throw foreign_key_violation, db1)
    | _, _ => (Throw not_null_violation, db1)
    end.

(** [DELETE FROM payments WHERE cond] *)
Definition cascade_payments (cond : PaymentRow -> bool) (db : DB) : DB :=
  set_payments (filter (fun p => negb (cond p)) (payments db)) db.

Definition delete_payments (cond : PaymentRow -> bool) : Q unit :=
  exec (cascade_payments cond).

(** [SELECT COALESCE(SUM(i.amount), 0) FROM creditor_items i JOIN creditors c
    ON i.creditor_id = c.id WHERE c.user_id = $1 AND i.status = 'pending']:
    the joined rows, their [SUM] ([NULL] over no row) and the [COALESCE]. *)
Definition pending_join (sd : side) (uid : Z) (db : DB) : list ItemRow :=
  flat_map
    (fun i =>
       map (fun _ => i)
         (filter (fun c => (parent_id i =? party_id c) && (party_user_id c =? uid)
                           && (status i =? "pending")%string)
            (parties sd db)))
    (items sd db).

Definition sql_sum (l : list decimal) : option decimal :=
  match l with
  | [] => None
  | _ => Some (fold_left Z.add l 0)
  end.

Definition coalesce (x : option decimal) (d : decimal) : decimal :=
  match x with Some v => v | None => d end.

Definition select_pending_total (sd : side) (uid : Z) (db : DB) : decimal :=
  coalesce (sql_sum (map amount (pending_join sd uid db))) 0.

(** [SELECT COUNT( * ) FROM creditors WHERE user_id = $1] *)
Definition count_parties_of_user (sd : side) (uid : Z) (db : DB) : Z :=
  Z.of_nat (List.length (filter (fun p => party_user_id p =? uid) (parties sd db))).

(** [SELECT * FROM payments WHERE user_id = $1 ORDER BY payment_date DESC
    LIMIT 5] *)
Definition select_recent_payments (uid : Z) (db : DB) : list PaymentRow :=
  firstn 5 (select_payments_of_user by_date_desc uid db).

(** [SELECT password_hash FROM users WHERE id = $1] *)
Definition select_password_hash (uid : Z) (db : DB) : list string :=
  map password_hash (filter (fun u => user_id u =? uid) (users db)).

(** [UPDATE users SET password_hash = $1, must_change_password = FALSE
    WHERE id = $2] *)
Definition update_password (uid : Z) (h : string) : Q unit :=
  exec (fun db =>
          set_users
            (map (fun u => if user_id u =? uid
                           then mkUser (user_id u) (username u) (email u) h
                                  (user_full_name u) (phone u) (address u)
                                  (is_admin u) false (user_created_at u)
                                  (last_login u)
                           else u)
               (users db)) db).

(** [DELETE FROM users WHERE id = $1]; creditors, debtors and payments of the
    user go with the row, and so do the items of those creditors and debtors
    ([ON DELETE CASCADE] on every foreign key). *)
Definition delete_user (uid : Z) : Q unit :=
  exec (fun db =>
          let db1 := set_users (filter (fun u => negb (user_id u =? uid)) (users db)) db in
          let db2 := cascade_parties Creditor (fun p => party_user_id p =? uid) db1 in
          let db3 := cascade_parties Debtor (fun p => party_user_id p =? uid) db2 in
          cascade_payments (fun p => payment_user_id p =? uid) db3).

End Store.

(** ** The HTTP layer shared by the two servers *)

Module Http.
Export Store.

Notation "x <- c ;; k" := (bind c (fun x => k))
  (at level 61, c at next level, right associativity).

(** [for (const x of l) await f(x)] *)
Fixpoint for_each {A : Type} (f : A -> Q unit) (l : list A) : Q unit :=
  match l with
  | [] => ret tt
  | x :: l' => _ <- f x ;; for_each f l'
  end.

(** [await Promise.all(l.map(async x => f(x)))] *)
Fixpoint map_all {A B : Type} (f : A -> Q B) (l : list A) : Q (list B) :=
  match l with
  | [] => ret []
  | x :: l' => y <- f x ;; ys <- map_all f l' ;; ret (y :: ys)
  end.

(** What a handler reads of [req.session]. *)
Record Session := mkSession {
  userId : option Z;
  session_username : option string;
  isAdmin : bool;
  mustChangePassword : bool
}.

(** Truthiness of [req.session.userId]. *)
Definition session_user (s : Session) : option Z :=
  match userId s with
  | Some n => if n =? 0 then None else Some n
  | None => None
  end.

(** An element of [req.body.items]. *)
Record ItemInput := mkItemInput {
  in_reason : option string;
  in_amount : option decimal;
  in_date_incurred : option Z;
  in_due_date : option Z;
  in_status : option string;
  in_notes : option string
}.

(** [req.body] of the creditor and debtor routes. *)
Record PartyBody := mkPartyBody {
  b_full_name : option string;
  b_contact : option string;
  b_gender : option string;
  b_language : option string;
  b_items : option (list ItemInput)
}.

(** [req.body] of [POST /api/payments]. *)
Record PaymentBody := mkPaymentBody {
  b_type : option string;
  b_related_id : option Z;
  b_amount : option decimal;
  b_payment_date : option Z;
  b_payment_method : option string;
  b_reference : option string;
  b_notes : option string
}.

(** The [DATE] of a timestamp in seconds. *)
Definition date_of (now : Z) : Z := now / 86400.

Definition side_name (sd : side) : string :=
  match sd with Creditor => "Creditor" | Debtor => "Debtor" end.

(** The values bound to [$2 .. $7] of the item insert. *)
Definition item_reason (item : ItemInput) : string := Js.or_string (in_reason item) "".
Definition item_amount (item : ItemInput) : decimal := Js.or_zero (in_amount item).
Definition item_status (item : ItemInput) : string := Js.or_string (in_status item) "pending".
Definition item_notes (item : ItemInput) : string := Js.or_string (in_notes item) "".

Definition insert_item_of (sd : side) (now pid : Z) (item : ItemInput) : Q unit :=
  insert_item sd now pid (item_reason item) (item_amount item)
    (in_date_incurred item) (in_due_date item) (item_status item) (item_notes item).

(** [if (items && items.length > 0) for (const item of items) ...] *)
Definition insert_items (sd : side) (now pid : Z) (its : option (list ItemInput)) : Q unit :=
  match its with
  | Some (item :: rest) => for_each (insert_item_of sd now pid) (item :: rest)
  | _ => ret tt
  end.

Section Responses.
Context `{JsNumber}.

(** [{ ...item, amount: parseFloat(item.amount) || 0 }] *)
Record ItemView := mkItemView {
  iv_row : ItemRow;
  iv_amount : num
}.

(** [{ ...creditor, items, total_amount, pending_amount }] *)
Record PartyView := mkPartyView {
  pv_row : PartyRow;
  pv_items : list ItemView;
  total_amount : num;
  pending_amount : num
}.

Record PaymentView := mkPaymentView {
  pay_row : PaymentRow;
  pay_amount : num
}.

Record Stats := mkStats {
  total_owed_to_creditors : num;
  total_owed_by_debtors : num;
  net_position : num;
  creditor_count : Z;
  debtor_count : Z;
  recent_payments : option (list PaymentView)
}.

Inductive body :=
| JError (error : string)
| JMessage (message : string)
| JIdMessage (id : Z) (message : string)
| JSuccess
| JSuccessId (id : Z)
| JSuccessRedirect (redirect : string)
| JParties (rows : list PartyView)
| JPayments (rows : list PaymentView)
| JStats (stats : Stats).

Record response := mkResp {
  code : Z;
  payload : body
}.

(** [res.json(...)] *)
Definition json (b : body) : Q response := ret (mkResp 200 b).

(** [return res.status(c).json({ error })] *)
Definition fail (c : Z) (error : string) : Q response := ret (mkResp c (JError error)).

(** [try { ... } catch (err) { res.status(500).json({ error: err.message }) }] *)
Definition handle (h : Q response) (db : DB) : response * DB :=
  match h db with
  | (Ok r, db1) => (r, db1)
  | (Throw m, db1) => (mkResp 500 (JError m), db1)
  end.

Definition item_view (i : ItemRow) : ItemView :=
  mkItemView i (num_or_zero (parseFloat (amount i))).

Definition payment_view (r : PaymentRow) : PaymentView :=
  mkPaymentView r (num_or_zero (parseFloat (payment_amount r))).

(** The body of the [map] callback of [GET /api/creditors]. *)
Definition party_view (sd : side) (c : PartyRow) : Q PartyView :=
  rows <- query (select_items_of sd (party_id c)) ;;
  let items := map item_view rows in
  let totalAmount := Js.reduce (fun sum item => nadd sum (iv_amount item)) nzero items in
  let pendingAmount :=
    Js.reduce (fun sum item => nadd sum (iv_amount item)) nzero
      (filter (fun i => (status (iv_row i) =? "pending")%string) items) in
  ret (mkPartyView c items totalAmount pendingAmount).

(** [GET /api/creditors] and [GET /api/debtors] after the authentication
    check: the two servers have the same code here. *)
Definition list_parties (sd : side) (uid : Z) : Q response :=
  rows <- query (select_parties_of_user sd uid) ;;
  views <- map_all (party_view sd) rows ;;
  json (JParties views).

(** The numbers of [GET /api/dashboard/stats]: the two servers have the same
    code for them. *)
Definition stats_of (ct dt : decimal) (cc dc : Z) (recent : option (list PaymentView)) : Stats :=
  mkStats (num_or_zero (parseFloat ct))
    (num_or_zero (parseFloat dt))
    (nsub (num_or_zero (parseFloat dt)) (num_or_zero (parseFloat ct)))
    cc dc recent.

End Responses.

(** [bcrypt]: the hash of a password under a salt, and the comparison of a
    password with a hash. *)
Class Bcrypt := {
  bcrypt_hash : string -> string -> string;
  bcrypt_compare : string -> string -> bool
}.

(** [!newPassword || newPassword.length < 5] *)
Definition weak_password (newPassword : option string) : bool :=
  match newPassword with
  | Some p => ((p =? "")%string || (Z.of_nat (String.length p) <? 5))
  | None => true
  end.

End Http.

(** ** server.js *)

Module ServerJs.
Import Http.

Section Handlers.
Context `{JsNumber} `{Bcrypt}.

Definition requireAuth (s : Session) (next : Z -> DB -> response * DB) (db : DB)
    : response * DB :=
  match session_user s with
  | Some uid => next uid db
  | None => (mkResp 401 (JError "Authentication required"), db)
  end.

Definition requireAdmin (s : Session) (next : Z -> DB -> response * DB) (db : DB)
    : response * DB :=
  match session_user s with
  | Some uid =>
      if isAdmin s then next uid db
      else (mkResp 403 (JError "Admin access required"), db)
  | None => (mkResp 403 (JError "Admin access required"), db)
  end.

(** [PUT /api/auth/password] *)
Definition changePassword (s : Session) (salt : string)
    (currentPassword newPassword : option string) : DB -> response * DB :=
  requireAuth s (fun uid => handle (
    if weak_password newPassword
    then fail 400 "New password must be at least 5 characters"
    else
      rows <- query (select_password_hash uid) ;;
      match rows, currentPassword with
      | [], _ => throw "Cannot read properties of undefined (reading 'password_hash')"
      | _ :: _, None => throw "Illegal arguments: undefined, string"
      | h :: _, Some cur =>
          if bcrypt_compare cur h
          then
            _ <- update_password uid (bcrypt_hash (Js.or_string newPassword "") salt) ;;
            json (JMessage "Password changed successfully")
          else fail 400 "Current password is incorrect"
      end)).

(** [PUT /api/auth/force-password-change] *)
Definition forceChangePassword (s : Session) (salt : string)
    (newPassword : option string) : DB -> response * DB :=
  requireAuth s (fun uid => handle (
    if weak_password newPassword
    then fail 400 "New password must be at least 5 characters"
    else
      _ <- update_password uid (bcrypt_hash (Js.or_string newPassword "") salt) ;;
      json (JMessage "Password changed successfully"))).

(** [DELETE /api/admin/users/:id]; the route parameter is the integer it
    spells. *)
Definition deleteUser (s : Session) (id : Z) : DB -> response * DB :=
  requireAdmin s (fun uid => handle (
    if id =? uid
    then fail 400 "Cannot delete your own account"
    else
      _ <- delete_user id ;;
      json (JMessage "User deleted successfully"))).

(** [GET /api/creditors], [GET /api/debtors] *)
Definition listParties (sd : side) (s : Session) : DB -> response * DB :=
  requireAuth s (fun uid => handle (list_parties sd uid)).

(** [POST /api/creditors], [POST /api/debtors] *)
Definition createParty (sd : side) (s : Session) (now : Z) (b : PartyBody)
    : DB -> response * DB :=
  requireAuth s (fun uid => handle (
    id <- insert_party sd now uid (b_full_name b) (Js.or_string (b_contact b) "")
            (Js.or_string (b_gender b) "male") (Js.or_string (b_language b) "english") ;;
    _ <- insert_items sd now id (b_items b) ;;
    json (JIdMessage id (side_name sd ++ " added successfully")%string))).

(** [PUT /api/creditors/:id], [PUT /api/debtors/:id] *)
Definition updateParty (sd : side) (s : Session) (now id : Z) (b : PartyBody)
    : DB -> response * DB :=
  requireAuth s (fun uid => handle (
    check <- query (select_party_owned sd id uid) ;;
    match check with
    | [] => fail 404 (side_name sd ++ " not found")%string
    | _ :: _ =>
        _ <- update_parties sd (fun p => party_id p =? id) (b_full_name b)
               (Js.or_string (b_contact b) "") (Js.or_string (b_gender b) "male")
               (Js.or_string (b_language b) "english") ;;
        _ <- delete_items_of sd id ;;
        _ <- insert_items sd now id (b_items b) ;;
        json (JMessage (side_name sd ++ " updated successfully")%string)
    end)).

(** [DELETE /api/creditors/:id], [DELETE /api/debtors/:id] *)
Definition deleteParty (sd : side) (s : Session) (id : Z) : DB -> response * DB :=
  requireAuth s (fun uid => handle (
    check <- query (select_party_owned sd id uid) ;;
    match check with
    | [] => fail 404 (side_name sd ++ " not found")%string
    | _ :: _ =>
        _ <- delete_items_of sd id ;;
        _ <- delete_parties sd (fun p => party_id p =? id) ;;
        json (JMessage (side_name sd ++ " deleted successfully")%string)
    end)).

Definition listCreditors := listParties Creditor.
Definition listDebtors := listParties Debtor.
Definition updateCreditor := updateParty Creditor.
Definition updateDebtor := updateParty Debtor.
Definition deleteCreditor := deleteParty Creditor.
Definition deleteDebtor := deleteParty Debtor.

(** [GET /api/payments] *)
Definition listPayments (s : Session) : DB -> response * DB :=
  requireAuth s (fun uid => handle (
    rows <- query (select_payments_of_user by_date_then_created_desc uid) ;;
    json (JPayments (map payment_view rows)))).

(** [POST /api/payments] *)
Definition recordPayment (s : Session) (now : Z) (b : PaymentBody) : DB -> response * DB :=
  requireAuth s (fun uid => handle (
    id <- insert_payment now uid (b_type b)
            (match b_related_id b with Some 0 => None | r => r end)
            (b_amount b)
            (match b_payment_date b with Some d => d | None => date_of now end)
            (Js.or_string (b_payment_method b) "") (Js.or_string (b_reference b) "")
            (Js.or_string (b_notes b) "") ;;
    json (JIdMessage id "Payment recorded successfully"))).

(** [DELETE /api/payments/:id] *)
Definition deletePayment (s : Session) (id : Z) : DB -> response * DB :=
  requireAuth s (fun uid => handle (
    check <- query (select_payment_owned id uid) ;;
    match check with
    | [] => fail 404 "Payment not found"
    | _ :: _ =>
        _ <- delete_payments (fun p => payment_id p =? id) ;;
        json (JMessage "Payment deleted successfully")
    end)).

(** [GET /api/dashboard/stats] *)
Definition dashboardStats (s : Session) : DB -> response * DB :=
  requireAuth s (fun uid => handle (
    creditorTotal <- query (select_pending_total Creditor uid) ;;
    debtorTotal <- query (select_pending_total Debtor uid) ;;
    creditorCount <- query (count_parties_of_user Creditor uid) ;;
    debtorCount <- query (count_parties_of_user Debtor uid) ;;
    recentPayments <- query (select_recent_payments uid) ;;
    json (JStats (stats_of creditorTotal debtorTotal creditorCount debtorCount
                    (Some (map payment_view recentPayments)))))).

End Handlers.

End ServerJs.

(** ** The second server file

    The compact variant of the server: the same routes, with the ownership
    test written into the [WHERE] clause of the statement on the parent
    table instead of a [SELECT] before it. *)

Module Compact.
Import Http.

Section Handlers.
Context `{JsNumber} `{Bcrypt}.

(** Every route modelled here is under [/api/], so a request without a
    session is answered with 401.  [R] is what the handler gives back beside
    the store: the response, or the response and the session it leaves. *)
Definition requireAuth {R : Type} (s : Session) (deny : response -> R)
    (next : Z -> DB -> R * DB) (db : DB) : R * DB :=
  match session_user s with
  | Some uid => next uid db
  | None => (deny (mkResp 401 (JError "Not authenticated")), db)
  end.

Definition requireAdmin (s : Session) (next : Z -> DB -> response * DB) (db : DB)
    : response * DB :=
  match session_user s with
  | Some uid =>
      if isAdmin s then next uid db
      else (mkResp 403 (JError "Admin required"), db)
  | None => (mkResp 403 (JError "Admin required"), db)
  end.

(** The [try]/[catch] of a handler that may write to [req.session]: a throw
    leaves the session as the request found it. *)
Definition handle_session (s : Session) (h : Q (response * Session)) (db : DB)
    : (response * Session) * DB :=
  match h db with
  | (Ok rs, db1) => (rs, db1)
  | (Throw m, db1) => ((mkResp 500 (JError m), s), db1)
  end.

(** [req.session.mustChangePassword = false] *)
Definition clear_must_change (s : Session) : Session :=
  mkSession (userId s) (session_username s) (isAdmin s) false.

(** [PUT /api/auth/password] *)
Definition changePassword (s : Session) (salt : string)
    (currentPassword newPassword : option string) : DB -> (response * Session) * DB :=
  requireAuth s (fun r => (r, s)) (fun uid => handle_session s (
    if weak_password newPassword
    then ret (mkResp 400 (JError "Password must be at least 5 characters"), s)
    else
      rows <- query (select_password_hash uid) ;;
      match rows, currentPassword with
      | [], _ => throw "Cannot read properties of undefined (reading 'password_hash')"
      | _ :: _, None => throw "Illegal arguments: undefined, string"
      | h :: _, Some cur =>
          if bcrypt_compare cur h
          then
            _ <- update_password uid (bcrypt_hash (Js.or_string newPassword "") salt) ;;
            ret (mkResp 200 JSuccess, clear_must_change s)
          else ret (mkResp 400 (JError "Current password incorrect"), s)
      end)).

(** [PUT /api/auth/force-password-change] *)
Definition forceChangePassword (s : Session) (salt : string)
    (newPassword : option string) : DB -> (response * Session) * DB :=
  requireAuth s (fun r => (r, s)) (fun uid => handle_session s (
    if weak_password newPassword
    then ret (mkResp 400 (JError "Password must be at least 5 characters"), s)
    else
      _ <- update_password uid (bcrypt_hash (Js.or_string newPassword "") salt) ;;
      ret (mkResp 200 (JSuccessRedirect (if isAdmin s then "/admin" else "/dashboard")),
           clear_must_change s))).

(** [DELETE /api/admin/users/:id]; the route parameter is the integer it
    spells. *)
Definition deleteUser (s : Session) (id : Z) : DB -> response * DB :=
  requireAdmin s (fun uid => handle (
    if id =? uid
    then fail 400 "Cannot delete yourself"
    else
      _ <- delete_user id ;;
      json JSuccess)).

(** [GET /api/creditors], [GET /api/debtors] *)
Definition listParties (sd : side) (s : Session) : DB -> response * DB :=
  requireAuth s (fun r => r) (fun uid => handle (list_parties sd uid)).

(** [POST /api/creditors], [POST /api/debtors] *)
Definition createParty (sd : side) (s : Session) (now : Z) (b : PartyBody)
    : DB -> response * DB :=
  requireAuth s (fun r => r) (fun uid => handle (
    id <- insert_party sd now uid (b_full_name b) (Js.or_string (b_contact b) "")
            (Js.or_string (b_gender b) "male") (Js.or_string (b_language b) "english") ;;
    _ <- insert_items sd now id (b_items b) ;;
    json (JSuccessId id))).

(** [PUT /api/creditors/:id], [PUT /api/debtors/:id] *)
Definition updateParty (sd : side) (s : Session) (now id : Z) (b : PartyBody)
    : DB -> response * DB :=
  requireAuth s (fun r => r) (fun uid => handle (
    _ <- update_parties sd (fun p => (party_id p =? id) && (party_user_id p =? uid))
           (b_full_name b) (Js.or_string (b_contact b) "")
           (Js.or_string (b_gender b) "male") (Js.or_string (b_language b) "english") ;;
    _ <- delete_items_of sd id ;;
    _ <- insert_items sd now id (b_items b) ;;
    json JSuccess)).

(** [DELETE /api/creditors/:id], [DELETE /api/debtors/:id] *)
Definition deleteParty (sd : side) (s : Session) (id : Z) : DB -> response * DB :=
  requireAuth s (fun r => r) (fun uid => handle (
    _ <- delete_items_of sd id ;;
    _ <- delete_parties sd (fun p => (party_id p =? id) && (party_user_id p =? uid)) ;;
    json JSuccess)).

Definition listCreditors := listParties Creditor.
Definition listDebtors := listParties Debtor.
Definition updateCreditor := updateParty Creditor.
Definition updateDebtor := updateParty Debtor.
Definition deleteCreditor := deleteParty Creditor.
Definition deleteDebtor := deleteParty Debtor.

(** [GET /api/payments] *)
Definition listPayments (s : Session) : DB -> response * DB :=
  requireAuth s (fun r => r) (fun uid => handle (
    rows <- query (select_payments_of_user by_date_desc uid) ;;
    json (JPayments (map payment_view rows)))).

(** [POST /api/payments]; the statement names no [related_id]. *)
Definition recordPayment (s : Session) (now : Z) (b : PaymentBody) : DB -> response * DB :=
  requireAuth s (fun r => r) (fun uid => handle (
    id <- insert_payment now uid (b_type b) None (b_amount b)
            (match b_payment_date b with Some d => d | None => date_of now end)
            (Js.or_string (b_payment_method b) "") (Js.or_string (b_reference b) "")
            (Js.or_string (b_notes b) "") ;;
    json (JSuccessId id))).

(** [DELETE /api/payments/:id] *)
Definition deletePayment (s : Session) (id : Z) : DB -> response * DB :=
  requireAuth s (fun r => r) (fun uid => handle (
    _ <- delete_payments (fun p => (payment_id p =? id) && (payment_user_id p =? uid)) ;;
    json JSuccess)).

(** [GET /api/dashboard/stats] *)
Definition dashboardStats (s : Session) : DB -> response * DB :=
  requireAuth s (fun r => r) (fun uid => handle (
    ct <- query (select_pending_total Creditor uid) ;;
    dt <- query (select_pending_total Debtor uid) ;;
    cc <- query (count_parties_of_user Creditor uid) ;;
    dc <- query (count_parties_of_user Debtor uid) ;;
    json (JStats (stats_of ct dt cc dc None)))).

End Handlers.

End Compact.

(** ** The dashboard script: statements

    [generateCreditorStatement] and [generateDebtorStatement] build a letter
    from a record of the list routes.  The letter is kept here as its parts:
    the markup around them is fixed text. *)

Module Dashboard.
Import Http.

(** [const title = r.gender === 'female' ? (lang === 'french' ? 'Mme' : 'Mrs.')
    : (lang === 'french' ? 'M.' : 'Mr.')] *)
Definition salutation (gender lang : string) : string :=
  if (gender =? "female")%string
  then (if (lang =? "french")%string then "Mme" else "Mrs.")
  else (if (lang =? "french")%string then "M." else "Mr.").

(** [new Date().toLocaleDateString(lang === 'french' ? 'fr-FR' : 'en-GB', ...)]:
    the locale asked for. *)
Definition date_locale (lang : string) : string :=
  if (lang =? "french")%string then "fr-FR" else "en-GB".

Section Statements.
Context `{JsNumber}.

(** A row of the items table: [idx + 1], [item.reason || '-'], the amount
    and the status. *)
Record StatementRow := mkStatementRow {
  row_number : Z;
  row_reason : string;
  row_amount : num;
  row_status : string
}.

Record Statement := mkStatement {
  letterhead : string;
  locale : string;
  recipient_label : string;
  recipient_title : string;
  recipient_name : string;
  greeting : string;
  author : string;
  rows : list StatementRow;
  total_label : string;
  total : num;
  signature_label : string
}.

Fixpoint statement_rows (idx : Z) (l : list ItemView) : list StatementRow :=
  match l with
  | [] => []
  | item :: l' =>
      mkStatementRow (idx + 1) (Js.or_string (Some (reason (iv_row item))) "-")
        (iv_amount item) (status (iv_row item))
      :: statement_rows (idx + 1) l'
  end.

(** [currentUser] is the profile the page loaded, if any. *)
Definition generateCreditorStatement (currentUser : option string) (creditor : PartyView)
    : Statement :=
  let lang := Js.or_string (Some (language (pv_row creditor))) "english" in
  let title := salutation (gender (pv_row creditor)) lang in
  if (lang =? "french")%string
  then mkStatement "RELEVÉ DE CONFIRMATION DE DETTE" (date_locale lang) "À:" title
         (full_name (pv_row creditor)) "Cher/Chère" (Js.or_string currentUser "")
         (statement_rows 0 (pv_items creditor)) "Montant total dû:"
         (total_amount creditor) "Signature:"
  else mkStatement "DEBT CONFIRMATION STATEMENT" (date_locale lang) "To:" title
         (full_name (pv_row creditor)) "Dear" (Js.or_string currentUser "")
         (statement_rows 0 (pv_items creditor)) "Total Amount Owed:"
         (total_amount creditor) "Signature:".

Definition generateDebtorStatement (currentUser : option string) (debtor : PartyView)
    : Statement :=
  let lang := Js.or_string (Some (language (pv_row debtor))) "english" in
  let title := salutation (gender (pv_row debtor)) lang in
  if (lang =? "french")%string
  then mkStatement "RELEVÉ DE CRÉANCE" (date_locale lang) "À:" title
         (full_name (pv_row debtor)) "Cher/Chère" (Js.or_string currentUser "")
         (statement_rows 0 (pv_items debtor)) "Montant total dû:"
         (total_amount debtor) "Signature du débiteur:"
  else mkStatement "OUTSTANDING DEBT STATEMENT" (date_locale lang) "To:" title
         (full_name (pv_row debtor)) "Dear" (Js.or_string currentUser "")
         (statement_rows 0 (pv_items debtor)) "Total Amount Owed:"
         (total_amount debtor) "Debtor's Signature:".

End Statements.

End Dashboard.

(** ** What the properties are stated with *)

Module Spec.
Import Http.

(** The sum of a list of numbers, taken from the left starting at zero. *)
Definition sum_amounts `{JsNumber} (l : list num) : num := fold_left nadd l nzero.

(** The columns of an item row that come from the request. *)
Record ItemContent := mkItemContent {
  c_reason : string;
  c_amount : decimal;
  c_date_incurred : option Z;
  c_due_date : option Z;
  c_status : string;
  c_notes : string
}.


(** An item of the request, with the defaults the handler binds for the
    fields left out. *)
Definition submitted_content (item : ItemInput) : ItemContent :=
  mkItemContent (item_reason item) (item_amount item) (in_date_incurred item)
    (in_due_date item) (item_status item) (item_notes item).

(** [req.body.items], an absent list being no item. *)
Definition submitted_items (b : PartyBody) : list ItemInput :=
  match b_items b with Some l => l | None => [] end.

(** The rows of an item table under one parent, in table order. *)
Definition items_under (sd : side) (pid : Z) (db : DB) : list ItemRow :=
  filter (fun i => parent_id i =? pid) (items sd db).


(** The order of [ORDER BY payment_date DESC, created_at DESC]. *)
Definition later_first (p q : PaymentRow) : Prop :=
  payment_date q < payment_date p
  \/ (payment_date q = payment_date p /\ payment_created_at q <= payment_created_at p).

(** The rows of the parent tables that a user does not own, and the item rows
    under them. *)
Definition foreign_parties (sd : side) (uid : Z) (db : DB) : list PartyRow :=
  filter (fun p => negb (party_user_id p =? uid)) (parties sd db).

Definition foreign_items (sd : side) (uid : Z) (db : DB) : list ItemRow :=
  filter
    (fun i => existsb (fun p => (party_id p =? parent_id i) && negb (party_user_id p =? uid))
                (parties sd db))
    (items sd db).

Definition foreign_payments (uid : Z) (db : DB) : list PaymentRow :=
  filter (fun p => negb (payment_user_id p =? uid)) (payments db).

(** The record the [map] callback of the list routes builds for a row, as a
    function of the store. *)
Definition view_of `{JsNumber} (sd : side) (db : DB) (c : PartyRow) : PartyView :=
  let its := map item_view (select_items_of sd (party_id c) db) in
  mkPartyView c its
    (Js.reduce (fun sum item => nadd sum (iv_amount item)) nzero its)
    (Js.reduce (fun sum item => nadd sum (iv_amount item)) nzero
       (filter (fun i => (status (iv_row i) =? "pending")%string) its)).

(** Whether an item of a listed record is pending. *)
Definition is_pending `{JsNumber} (i : ItemView) : bool :=
  (status (iv_row i) =? "pending")%string.

(** The title the statement is to carry, for the genders and languages a
    record can have. *)
Definition title_for (gender language : string) : option string :=
  if (gender =? "male")%string then
    if (language =? "english")%string then Some "Mr."
    else if (language =? "french")%string then Some "M."
    else None
  else if (gender =? "female")%string then
    if (language =? "english")%string then Some "Mrs."
    else if (language =? "french")%string then Some "Mme"
    else None
  else None.

(** Neither the parent tables nor the item tables differ. *)
Definition same_ledger (db db' : DB) : Prop :=
  forall sd, parties sd db' = parties sd db /\ items sd db' = items sd db.

(** The rows the item inserts of one request write: ids from [next] on, in
    the order of the request. *)
Fixpoint new_rows (now pid next : Z) (l : list ItemInput) : list ItemRow :=
  match l with
  | [] => []
  | item :: l' =>
      mkItem next pid (item_reason item) (item_amount item) (in_date_incurred item)
        (in_due_date item) (item_status item) (item_notes item) now
      :: new_rows now pid (next + 1) l'
  end.

(** Apart from the item table of one side and its sequence, nothing
    differs. *)
Definition only_items_differ (sd : side) (db db' : DB) : Prop :=
  users db' = users db
  /\ (forall sd', parties sd' db' = parties sd' db)
  /\ (forall sd', sd' <> sd -> items sd' db' = items sd' db)
  /\ payments db' = payments db.

(** What an update that gets past its first statement leaves behind. *)
Definition replaced (sd : side) (now id : Z) (b : PartyBody) (db db' : DB) : Prop :=
  items sd db'
  = filter (fun i => negb (parent_id i =? id)) (items sd db)
    ++ new_rows now id (seq_items sd db) (submitted_items b)
  /\ users db' = users db
  /\ payments db' = payments db
  /\ (forall sd', sd' <> sd -> parties sd' db' = parties sd' db /\ items sd' db' = items sd' db).

End Spec.

(** ** A small store to evaluate the handlers on *)

Module Fixture.
Import Http.

(** A stand-in for [bcrypt] that keeps the password as its hash. *)
#[export] Instance PlainBcrypt : Bcrypt := {|
  bcrypt_hash := fun password salt => password;
  bcrypt_compare := fun password h => (password =? h)%string
|}.

Definition alice : Session := mkSession (Some 1) (Some "alice") true false.
Definition bob : Session := mkSession (Some 2) (Some "bob") false false.

Definition db0 : DB :=
  mkDB
    [ mkUser 1 "alice" "alice@example.org" "secret-a" "Alice" None None true false 100 None;
      mkUser 2 "bob" "bob@example.org" "secret-b" "Bob" None None false true 200 None ]
    [ mkParty 1 1 "Amina" "" "female" "french" 300;
      mkParty 2 2 "Zed" "" "male" "english" 310 ]
    [ mkItem 1 1 "loan" 500000 None None "pending" "" 300;
      mkItem 2 1 "rent" 20000 None None "paid" "" 300;
      mkItem 3 2 "car" 70000 None None "partial" "" 310 ]
    [ mkParty 1 1 "Chidi" "" "male" "english" 320 ]
    [ mkItem 1 1 "lunch" 1500 None None "pending" "" 320 ]
    [ mkPayment 1 1 "paid" None 1000 20 "cash" "" "" 1728000;
      mkPayment 2 1 "received" None 2500 20 "cash" "" "" 1728600;
      mkPayment 3 2 "paid" None 400 21 "cash" "" "" 1814400 ]
    3 3 4 2 2 4.

Definition one_item : ItemInput :=
  mkItemInput (Some "books") (Some 4200) None None (Some "pending") (Some "").

Definition new_body : PartyBody :=
  mkPartyBody (Some "Amina B.") (Some "") (Some "female") (Some "french") (Some [one_item]).

End Fixture.

(** ** The users table *)

Module Users.
Export Store.

(** Lower-casing, as the handler does it ([toLowerCase]) and as the store
    does it ([LOWER]). *)
Class Casing := {
  toLowerCase : string -> string;
  LOWER : string -> string
}.

Definition unique_violation : string := "duplicate key value violates unique constraint".

Definition bump_seq_users (db : DB) : DB :=
  mkDB (users db) (creditors db) (creditor_items db) (debtors db)
    (debtor_items db) (payments db) (seq_users db + 1) (seq_creditors db)
    (seq_creditor_items db) (seq_debtors db) (seq_debtor_items db)
    (seq_payments db).

(** [INSERT INTO users (username, email, password_hash, full_name, phone,
    address, is_admin, must_change_password) VALUES (..., TRUE) RETURNING id]:
    [username], [email] and [full_name] are [NOT NULL], [username] and
    [email] are [UNIQUE]. *)
Definition insert_user (now : Z) (un em : option string) (h : string)
    (fn ph ad : option string) (adm : bool) : Q Z :=
  fun db =>
    let id := seq_users db in
    let db1 := bump_seq_users db in
    match un, em, fn with
    | Some u, Some e, Some n =>
        if existsb (fun r => (username r =? u)%string || (email r =? e)%string) (users db)
        then (Throw unique_violation, db1)
        else (Ok id, set_users (users db ++ [mkUser id u e h n ph ad adm true now None]) db1)
    | _, _, _ => (Throw not_null_violation, db1)
    end.

(** [SELECT ... FROM users WHERE id = $1] *)
Definition select_user (uid : Z) (db : DB) : list UserRow :=
  filter (fun u => user_id u =? uid) (users db).

(** [SELECT * FROM users WHERE username = $1 OR email = $1] *)
Definition select_user_by_name (x : string) (db : DB) : list UserRow :=
  filter (fun u => (username u =? x)%string || (email u =? x)%string) (users db).

(** [SELECT * FROM users WHERE LOWER(username) = LOWER($1) OR LOWER(email) =
    LOWER($1)] *)
Definition select_user_by_lower_name `{Casing} (x : string) (db : DB) : list UserRow :=
  filter (fun u => (LOWER (username u) =? LOWER x)%string
                   || (LOWER (email u) =? LOWER x)%string) (users db).

(** [SELECT id FROM users WHERE username = $1 OR email = $2] *)
Definition select_user_taken (u e : string) (db : DB) : list Z :=
  map user_id
    (filter (fun r => (username r =? u)%string || (email r =? e)%string) (users db)).

(** [UPDATE users SET last_login = CURRENT_TIMESTAMP WHERE id = $1] *)
Definition update_last_login (now uid : Z) : Q unit :=
  exec (fun db =>
          set_users
            (map (fun u => if user_id u =? uid
                           then mkUser (user_id u) (username u) (email u)
                                  (password_hash u) (user_full_name u) (phone u)
                                  (address u) (is_admin u) (must_change_password u)
                                  (user_created_at u) (Some now)
                           else u)
               (users db)) db).

(** [UPDATE users SET full_name = $1, phone = $2, address = $3 WHERE id = $4] *)
Definition update_profile (uid : Z) (fn : option string) (ph ad : string) : Q unit :=
  fun db =>
    match fn with
    | Some n =>
        (Ok tt,
         set_users
           (map (fun u => if user_id u =? uid
                          then mkUser (user_id u) (username u) (email u)
                                 (password_hash u) n (Some ph) (Some ad) (is_admin u)
                                 (must_change_password u) (user_created_at u)
                                 (last_login u)
                          else u)
              (users db)) db)
    | None =>
        if existsb (fun u => user_id u =? uid) (users db)
        then (Throw not_null_violation, db)
        else (Ok tt, db)
    end.

(** [UPDATE users SET full_name = $1, email = $2, phone = $3, address = $4,
    is_admin = $5 WHERE id = $6]; the new email must not be the email of
    another row. *)
Definition update_user (id : Z) (fn em : option string) (ph ad : string) (adm : bool)
    : Q unit :=
  fun db =>
    match filter (fun u => user_id u =? id) (users db) with
    | [] => (Ok tt, db)
    | hit :: more =>
        match fn, em with
        | Some n, Some e =>
            if existsb (fun u => negb (user_id u =? id) && (email u =? e)%string) (users db)
               || negb (Nat.eqb (List.length more) 0)
            then (Throw unique_violation, db)
            else
              (Ok tt,
               set_users
                 (map (fun u => if user_id u =? id
                                then mkUser (user_id u) (username u) e (password_hash u)
                                       n (Some ph) (Some ad) adm
                                       (must_change_password u) (user_created_at u)
                                       (last_login u)
                                else u)
                    (users db)) db)
        | _, _ => (Throw not_null_violation, db)
        end
    end.

(** [UPDATE users SET password_hash = $1, must_change_password = TRUE
    WHERE id = $2] *)
Definition reset_password (id : Z) (h : string) : Q unit :=
  exec (fun db =>
          set_users
            (map (fun u => if user_id u =? id
                           then mkUser (user_id u) (username u) (email u) h
                                  (user_full_name u) (phone u) (address u)
                                  (is_admin u) true (user_created_at u)
                                  (last_login u)
                           else u)
               (users db)) db).

(** [UPDATE users SET must_change_password = TRUE WHERE username = 'admin'] *)
Definition flag_admin : Q unit :=
  exec (fun db =>
          set_users
            (map (fun u => if (username u =? "admin")%string
                           then mkUser (user_id u) (username u) (email u)
                                  (password_hash u) (user_full_name u) (phone u)
                                  (address u) (is_admin u) true (user_created_at u)
                                  (last_login u)
                           else u)
               (users db)) db).

(** [SELECT id, password_hash FROM users WHERE username = 'admin'] *)
Definition select_admin (db : DB) : list UserRow :=
  filter (fun u => (username u =? "admin")%string) (users db).

(** [DELETE FROM creditor_items a USING creditor_items b WHERE a.id > b.id
    AND a.creditor_id = b.creditor_id AND a.amount = b.amount AND
    COALESCE(a.reason, '') = COALESCE(b.reason, '')] *)
Definition duplicates (a b : ItemRow) : bool :=
  (item_id b <? item_id a) && (parent_id a =? parent_id b) && (amount a =? amount b)
  && (reason a =? reason b)%string.

Definition delete_duplicate_items (sd : side) : Q unit :=
  exec (fun db =>
          set_items sd
            (filter (fun a => negb (existsb (duplicates a) (items sd db))) (items sd db))
            db).

End Users.

(** ** Accounts, sessions and pages *)

Module Account.
Export Users.
Import Http.

Record LoginUser := mkLoginUser {
  lu_id : Z;
  lu_username : string;
  lu_full_name : string;
  lu_email : option string;
  lu_is_admin : bool;
  lu_must_change_password : bool
}.

Record StatusInfo := mkStatusInfo {
  st_userId : Z;
  st_username : option string;
  st_isAdmin : bool;
  st_mustChangePassword : bool
}.

(** The columns the profile and user-list queries select: every column but
    [password_hash]. *)
Record UserView := mkUserView {
  uv_id : Z;
  uv_username : string;
  uv_email : string;
  uv_full_name : string;
  uv_phone : option string;
  uv_address : option string;
  uv_is_admin : bool;
  uv_must_change_password : bool;
  uv_created_at : option Z;
  uv_last_login : option Z
}.

Inductive reply_body :=
| AError (error : string)
| AMessage (message : string)
| ASuccess
| ASuccessId (id : Z)
| ASuccessRedirect (redirect : string)
| ALogin (user : LoginUser) (redirect : option string)
| AStatus (info : option StatusInfo)
| AProfile (row : option UserView)
| AUsers (rows : list UserView)
| ACreated (message : string) (id : Z) (username email full_name : string).

Record reply := mkReply {
  rcode : Z;
  rbody : reply_body
}.

(** A page route either sends a file of [public/] or redirects. *)
Inductive page :=
| SendFile (name : string)
| Redirect (url : string).

(** [req.session.destroy()], and the session of a request that carries no
    cookie. *)
Definition no_session : Session := mkSession None None false false.

(** [try { ... } catch (err) { res.status(500).json({ error: err.message }) }] *)
Definition handle (h : Q reply) (db : DB) : reply * DB :=
  match h db with
  | (Ok r, db1) => (r, db1)
  | (Throw m, db1) => (mkReply 500 (AError m), db1)
  end.

(** The same around a handler that writes to [req.session] as its last
    step. *)
Definition handle_session (s : Session) (h : Q (reply * Session)) (db : DB)
    : (reply * Session) * DB :=
  match h db with
  | (Ok rs, db1) => (rs, db1)
  | (Throw m, db1) => ((mkReply 500 (AError m), s), db1)
  end.

Definition login_user (u : UserRow) (with_email : bool) : LoginUser :=
  mkLoginUser (user_id u) (username u) (user_full_name u)
    (if with_email then Some (email u) else None) (is_admin u) (must_change_password u).

Definition user_view (u : UserRow) (with_address with_times : bool) : UserView :=
  mkUserView (user_id u) (username u) (email u) (user_full_name u) (phone u)
    (if with_address then address u else None) (is_admin u) (must_change_password u)
    (if with_times then Some (user_created_at u) else None)
    (if with_times then last_login u else None).

End Account.

(** ** server.js: accounts *)

Module ServerJsAccount.
Import Http Account.

Section Handlers.
Context `{Bcrypt} `{Casing}.

Definition requireAuth (s : Session) (next : Z -> DB -> reply * DB) (db : DB)
    : reply * DB :=
  match session_user s with
  | Some uid => next uid db
  | None => (mkReply 401 (AError "Authentication required"), db)
  end.

Definition requireAdmin (s : Session) (next : Z -> DB -> reply * DB) (db : DB)
    : reply * DB :=
  match session_user s with
  | Some uid =>
      if isAdmin s then next uid db
      else (mkReply 403 (AError "Admin access required"), db)
  | None => (mkReply 403 (AError "Admin access required"), db)
  end.

(** [POST /api/auth/login] *)
Definition login (s : Session) (now : Z) (username password : option string)
    : DB -> (reply * Session) * DB :=
  handle_session s (
    match username, password with
    | Some name, Some pw =>
        if (name =? "")%string || (pw =? "")%string
        then ret (mkReply 400 (AError "Username and password are required"), s)
        else
          rows <- query (select_user_by_name (toLowerCase name)) ;;
          match rows with
          | [] => ret (mkReply 401 (AError "Invalid credentials"), s)
          | user :: _ =>
              if bcrypt_compare pw (password_hash user)
              then
                _ <- update_last_login now (user_id user) ;;
                ret (mkReply 200 (ALogin (login_user user true) None),
                     mkSession (Some (user_id user)) (Some (Store.username user))
                       (is_admin user) (mustChangePassword s))
              else ret (mkReply 401 (AError "Invalid credentials"), s)
          end
    | _, _ => ret (mkReply 400 (AError "Username and password are required"), s)
    end).

(** [POST /api/auth/logout] *)
Definition logout (s : Session) : reply * Session :=
  (mkReply 200 (AMessage "Logged out successfully"), no_session).

(** [GET /api/auth/status] *)
Definition status (s : Session) (db : DB) : reply :=
  match session_user s with
  | Some uid =>
      match select_user uid db with
      | row :: _ =>
          mkReply 200 (AStatus (Some (mkStatusInfo uid (session_username s)
                                        (is_admin row) (must_change_password row))))
      | [] => mkReply 200 (AStatus None)
      end
  | None => mkReply 200 (AStatus None)
  end.

(** [GET /api/auth/profile] *)
Definition getProfile (s : Session) : DB -> reply * DB :=
  requireAuth s (fun uid => handle (
    rows <- query (select_user uid) ;;
    match rows with
    | [] => ret (mkReply 404 (AError "User not found"))
    | row :: _ => ret (mkReply 200 (AProfile (Some (user_view row true true))))
    end)).

(** [PUT /api/auth/profile] *)
Definition updateProfile (s : Session) (full_name phone address : option string)
    : DB -> reply * DB :=
  requireAuth s (fun uid => handle (
    _ <- update_profile uid full_name (Js.or_string phone "") (Js.or_string address "") ;;
    ret (mkReply 200 (AMessage "Profile updated successfully")))).

(** [GET /api/admin/users]: [ORDER BY created_at DESC]. *)
Definition listUsers (s : Session) : DB -> reply * DB :=
  requireAdmin s (fun _ => handle (
    rows <- query (fun db => order_by
                               (fun u v => user_created_at v <=? user_created_at u)
                               (users db)) ;;
    ret (mkReply 200 (AUsers (map (fun u => user_view u false true) rows))))).

(** [POST /api/admin/users] *)
Definition createUser (s : Session) (now : Z) (salt : string)
    (username email password full_name phone address : option string)
    (is_admin : option bool) : DB -> reply * DB :=
  requireAdmin s (fun _ => handle (
    match username, email, password, full_name with
    | Some un, Some em, Some pw, Some fn =>
        if (un =? "")%string || (em =? "")%string || (pw =? "")%string || (fn =? "")%string
        then ret (mkReply 400 (AError "All required fields must be filled"))
        else
          existingUser <- query (select_user_taken (toLowerCase un) (toLowerCase em)) ;;
          match existingUser with
          | _ :: _ => ret (mkReply 400 (AError "Username or email already exists"))
          | [] =>
              id <- insert_user now (Some (toLowerCase un)) (Some (toLowerCase em))
                      (bcrypt_hash pw salt) (Some fn) (Some (Js.or_string phone ""))
                      (Some (Js.or_string address ""))
                      (match is_admin with Some b => b | None => false end) ;;
              ret (mkReply 200 (ACreated "User created successfully" id
                                  (toLowerCase un) (toLowerCase em) fn))
          end
    | _, _, _, _ => ret (mkReply 400 (AError "All required fields must be filled"))
    end)).

(** [PUT /api/admin/users/:id]; [email.toLowerCase()] throws when the body
    has no email. *)
Definition updateUser (s : Session) (id : Z) (full_name email phone address : option string)
    (is_admin : option bool) : DB -> reply * DB :=
  requireAdmin s (fun _ => handle (
    match email with
    | None => throw "Cannot read properties of undefined (reading 'toLowerCase')"
    | Some em =>
        _ <- update_user id full_name (Some (toLowerCase em)) (Js.or_string phone "")
               (Js.or_string address "")
               (match is_admin with Some b => b | None => false end) ;;
        ret (mkReply 200 (AMessage "User updated successfully"))
    end)).

(** [PUT /api/admin/users/:id/reset-password] *)
Definition resetPassword (s : Session) (id : Z) (salt : string) (newPassword : option string)
    : DB -> reply * DB :=
  requireAdmin s (fun _ => handle (
    _ <- reset_password id (bcrypt_hash (Js.or_string newPassword "12345") salt) ;;
    ret (mkReply 200
           (AMessage "Password reset successfully. User must change password on next login.")))).

(** The page routes send the files to any request. *)
Definition pageRoute (path : string) (s : Session) : option page :=
  if (path =? "/login")%string then Some (SendFile "login.html")
  else if (path =? "/dashboard")%string then Some (SendFile "dashboard.html")
  else if (path =? "/admin")%string then Some (SendFile "admin.html")
  else if (path =? "/change-password")%string then Some (SendFile "change-password.html")
  else if (path =? "/")%string then Some (SendFile "index.html")
  else None.

(** The part of [initDB] that writes rows: the default administrator, and
    the removal of duplicated items inside its own [try]. *)
Definition ensure_admin (now : Z) (salt : string) : Q unit :=
  adminCheck <- query select_admin ;;
  match adminCheck with
  | [] =>
      _ <- insert_user now (Some "admin") (Some "admin@ghouenzen.com")
             (bcrypt_hash "12345" salt) (Some "Administrator") None None true ;;
      ret tt
  | _ :: _ => ret tt
  end.

Definition initDB (now : Z) (salt : string) : Q unit :=
  _ <- ensure_admin now salt ;;
  _ <- delete_duplicate_items Creditor ;;
  delete_duplicate_items Debtor.

End Handlers.

End ServerJsAccount.

(** ** The second server file: accounts *)

Module CompactAccount.
Import Http Account.

Section Handlers.
Context `{Bcrypt} `{Casing}.

Definition requireAuth (s : Session) (next : Z -> DB -> reply * DB) (db : DB)
    : reply * DB :=
  match session_user s with
  | Some uid => next uid db
  | None => (mkReply 401 (AError "Not authenticated"), db)
  end.

Definition requireAdmin (s : Session) (next : Z -> DB -> reply * DB) (db : DB)
    : reply * DB :=
  match session_user s with
  | Some uid =>
      if isAdmin s then next uid db
      else (mkReply 403 (AError "Admin required"), db)
  | None => (mkReply 403 (AError "Admin required"), db)
  end.

(** [user.must_change_password ? '/change-password' : (user.is_admin ?
    '/admin' : '/dashboard')] *)
Definition landing (user : UserRow) : string :=
  if must_change_password user then "/change-password"
  else if is_admin user then "/admin" else "/dashboard".

(** [POST /api/auth/login]; the session is regenerated before it is
    written. *)
Definition login (s : Session) (now : Z) (username password : option string)
    : DB -> (reply * Session) * DB :=
  handle_session s (
    match username, password with
    | Some name, Some pw =>
        if (name =? "")%string || (pw =? "")%string
        then ret (mkReply 400 (AError "Username and password required"), s)
        else
          rows <- query (select_user_by_lower_name name) ;;
          match rows with
          | [] => ret (mkReply 401 (AError "Invalid credentials"), s)
          | user :: _ =>
              if bcrypt_compare pw (password_hash user)
              then
                _ <- update_last_login now (user_id user) ;;
                ret (mkReply 200 (ALogin (login_user user false) (Some (landing user))),
                     mkSession (Some (user_id user)) (Some (Store.username user))
                       (is_admin user) (must_change_password user))
              else ret (mkReply 401 (AError "Invalid credentials"), s)
          end
    | _, _ => ret (mkReply 400 (AError "Username and password required"), s)
    end).

(** [POST /api/auth/logout] *)
Definition logout (s : Session) : reply * Session :=
  (mkReply 200 ASuccess, no_session).

(** [GET /api/auth/status]: the flags are those of the session. *)
Definition status (s : Session) (db : DB) : reply :=
  match session_user s with
  | Some uid =>
      mkReply 200 (AStatus (Some (mkStatusInfo uid (session_username s) (isAdmin s)
                                    (mustChangePassword s))))
  | None => mkReply 200 (AStatus None)
  end.

(** [GET /api/auth/profile]: [result.rows[0] || {}]. *)
Definition getProfile (s : Session) : DB -> reply * DB :=
  requireAuth s (fun uid => handle (
    rows <- query (select_user uid) ;;
    match rows with
    | [] => ret (mkReply 200 (AProfile None))
    | row :: _ => ret (mkReply 200 (AProfile (Some (user_view row true false))))
    end)).

(** [PUT /api/auth/profile] *)
Definition updateProfile (s : Session) (full_name phone address : option string)
    : DB -> reply * DB :=
  requireAuth s (fun uid => handle (
    _ <- update_profile uid full_name (Js.or_string phone "") (Js.or_string address "") ;;
    ret (mkReply 200 ASuccess))).

(** [GET /api/admin/users]: [ORDER BY id]. *)
Definition listUsers (s : Session) : DB -> reply * DB :=
  requireAdmin s (fun _ => handle (
    rows <- query (fun db => order_by (fun u v => user_id u <=? user_id v) (users db)) ;;
    ret (mkReply 200 (AUsers (map (fun u => user_view u false true) rows))))).

(** [POST /api/admin/users]: no test before the insert, the store lowers
    the name and the email. *)
Definition createUser (s : Session) (now : Z) (salt : string)
    (username email password full_name phone address : option string)
    (is_admin : option bool) : DB -> reply * DB :=
  requireAdmin s (fun _ => handle (
    id <- insert_user now (option_map LOWER username) (option_map LOWER email)
            (bcrypt_hash (Js.or_string password "12345") salt) full_name
            (Some (Js.or_string phone "")) (Some (Js.or_string address ""))
            (match is_admin with Some b => b | None => false end) ;;
    ret (mkReply 200 (ASuccessId id)))).

(** [PUT /api/admin/users/:id] *)
Definition updateUser (s : Session) (id : Z) (full_name email phone address : option string)
    (is_admin : option bool) : DB -> reply * DB :=
  requireAdmin s (fun _ => handle (
    _ <- update_user id full_name (option_map LOWER email) (Js.or_string phone "")
           (Js.or_string address "")
           (match is_admin with Some b => b | None => false end) ;;
    ret (mkReply 200 ASuccess))).

(** [PUT /api/admin/users/:id/reset-password]: always to the default
    password. *)
Definition resetPassword (s : Session) (id : Z) (salt : string) : DB -> reply * DB :=
  requireAdmin s (fun _ => handle (
    _ <- reset_password id (bcrypt_hash "12345" salt) ;;
    ret (mkReply 200 ASuccess))).

(** The page routes. *)
Definition pageRoute (path : string) (s : Session) : option page :=
  if (path =? "/login")%string then Some (SendFile "login.html")
  else if (path =? "/change-password")%string then
    match session_user s with
    | None => Some (Redirect "/login")
    | Some _ => Some (SendFile "change-password.html")
    end
  else if (path =? "/dashboard")%string then
    match session_user s with
    | None => Some (Redirect "/login")
    | Some _ =>
        if mustChangePassword s then Some (Redirect "/change-password")
        else Some (SendFile "dashboard.html")
    end
  else if (path =? "/admin")%string then
    match session_user s with
    | None => Some (Redirect "/login")
    | Some _ =>
        if mustChangePassword s then Some (Redirect "/change-password")
        else if isAdmin s then Some (SendFile "admin.html")
        else Some (Redirect "/dashboard")
    end
  else if (path =? "/")%string then Some (SendFile "index.html")
  else None.

(** The part of [initDB] that writes rows: the default administrator is
    created, or made to change a password that is still the default one. *)
Definition initDB (now : Z) (salt : string) : Q unit :=
  adminCheck <- query select_admin ;;
  match adminCheck with
  | [] =>
      _ <- insert_user now (Some "admin") (Some "admin@ghouenzen.com")
             (bcrypt_hash "12345" salt) (Some "Administrator") None None true ;;
      ret tt
  | row :: _ =>
      if bcrypt_compare "12345" (password_hash row) then flag_admin else ret tt
  end.

End Handlers.

End CompactAccount.

(** ** What the further properties are stated with *)

Module Invariants.
Import Http Account Spec.

(** The rows a user owns: parent rows, the item rows under them, and
    payments. *)
Definition own_parties (sd : side) (uid : Z) (db : DB) : list PartyRow :=
  filter (fun p => party_user_id p =? uid) (parties sd db).

Definition own_items (sd : side) (uid : Z) (db : DB) : list ItemRow :=
  filter
    (fun i => existsb (fun p => (party_id p =? parent_id i) && (party_user_id p =? uid))
                (parties sd db))
    (items sd db).

Definition own_payments (uid : Z) (db : DB) : list PaymentRow :=
  filter (fun p => payment_user_id p =? uid) (payments db).

Definition same_own_rows (uid : Z) (db1 db2 : DB) : Prop :=
  (forall sd, own_parties sd uid db1 = own_parties sd uid db2
              /\ own_items sd uid db1 = own_items sd uid db2)
  /\ own_payments uid db1 = own_payments uid db2.

(** The constraints on the two tables of a side: the primary keys, which
    come from the sequences, and the foreign key of the item table. *)
Definition tables_ok (ps : list PartyRow) (its : list ItemRow) (sp si : Z) : Prop :=
  NoDup (map party_id ps)
  /\ (forall p, In p ps -> party_id p < sp)
  /\ NoDup (map item_id its)
  /\ (forall i, In i its -> item_id i < si)
  /\ (forall i, In i its -> existsb (fun p => party_id p =? parent_id i) ps = true).

Definition ledger_ok (db : DB) : Prop :=
  forall sd, tables_ok (parties sd db) (items sd db) (seq_parties sd db) (seq_items sd db).

(** A computation that keeps a property of the store, whether it returns or
    throws. *)
Definition keeps {A : Type} (P : DB -> Prop) (c : Q A) : Prop :=
  forall db, P db -> P (snd (c db)).

(** A user row with its [last_login] set. *)
Definition with_last_login (now : Z) (u : UserRow) : UserRow :=
  mkUser (user_id u) (username u) (email u) (password_hash u) (user_full_name u)
    (phone u) (address u) (is_admin u) (must_change_password u) (user_created_at u)
    (Some now).

(** A login that is refused: 400 or 401, and neither the session nor the
    store has changed. *)
Definition login_refused (s : Session) (db : DB) (out : (reply * Session) * DB) : Prop :=
  (rcode (fst (fst out)) = 400 \/ rcode (fst (fst out)) = 401)
  /\ snd (fst out) = s
  /\ snd out = db.

(** A login that is granted to a user row: the password matches the stored
    hash, the session carries the id, the name and the administrator flag of
    that row, and the one write is the [last_login] of that row. *)
Definition login_granted `{Bcrypt} (now : Z) (pw : option string) (db : DB)
    (user : UserRow) (out : (reply * Session) * DB) : Prop :=
  rcode (fst (fst out)) = 200
  /\ In user (users db)
  /\ (exists p, pw = Some p /\ bcrypt_compare p (password_hash user) = true)
  /\ userId (snd (fst out)) = Some (user_id user)
  /\ session_username (snd (fst out)) = Some (username user)
  /\ isAdmin (snd (fst out)) = is_admin user
  /\ users (snd out)
     = map (fun u => if user_id u =? user_id user then with_last_login now u else u)
         (users db)
  /\ same_ledger db (snd out)
  /\ payments (snd out) = payments db.

(** A user row after a password change: the new hash, and no change of
    password pending. *)
Definition with_password (h : string) (u : UserRow) : UserRow :=
  mkUser (user_id u) (username u) (email u) h (user_full_name u) (phone u) (address u)
    (is_admin u) false (user_created_at u) (last_login u).

(** A user row after a password reset: the new hash, and a change of
    password pending. *)
Definition with_reset_password (h : string) (u : UserRow) : UserRow :=
  mkUser (user_id u) (username u) (email u) h (user_full_name u) (phone u) (address u)
    (is_admin u) true (user_created_at u) (last_login u).

(** The store after the password statement of a change, and of a reset. *)
Definition password_changed (uid : Z) (h : string) (db : DB) : DB :=
  set_users (map (fun u => if user_id u =? uid then with_password h u else u) (users db)) db.

Definition password_reset (id : Z) (h : string) (db : DB) : DB :=
  set_users (map (fun u => if user_id u =? id then with_reset_password h u else u) (users db))
    db.

(** The constraints on the users table: the primary key, which comes from
    the sequence, and the two unique columns. *)
Definition users_ok (db : DB) : Prop :=
  NoDup (map user_id (users db))
  /\ (forall u, In u (users db) -> user_id u < seq_users db)
  /\ NoDup (map username (users db))
  /\ NoDup (map email (users db)).

(** What the users table holds besides the names people are shown: the id,
    the login name and email, the password hash and the two flags. *)
Definition credentials (u : UserRow) : Z * string * string * string * bool * bool :=
  (user_id u, username u, email u, password_hash u, is_admin u, must_change_password u).

(** What a login reads of a row and an administrator's edit of the row must
    leave alone: the id, the login name, the password hash and the
    must-change flag. *)
Definition login_data (u : UserRow) : Z * string * string * bool :=
  (user_id u, username u, password_hash u, must_change_password u).

(** The sum of a list of stored amounts. *)
Definition total_of (l : list decimal) : decimal := fold_right Z.add 0 l.

(** The stored amounts of the pending items of a list of records of the
    list routes, added up. *)
Definition stored_pending `{JsNumber} (views : list PartyView) : decimal :=
  total_of
    (map (fun r => total_of (map (fun i => amount (iv_row i))
                               (filter is_pending (pv_items r))))
       views).


(** The users table is a given list of rows. *)
Definition users_are (U : list UserRow) (db : DB) : Prop := users db = U.

(** A route that answers with a given status and writes nothing. *)
Definition refuses `{JsNumber} (c : Z) (h : DB -> response * DB) : Prop :=
  forall db, code (fst (h db)) = c /\ snd (h db) = db.

Definition refuses_reply (c : Z) (h : DB -> reply * DB) : Prop :=
  forall db, rcode (fst (h db)) = c /\ snd (h db) = db.

(** The same for a route that may write to the session. *)
Definition refuses_session `{JsNumber} (c : Z) (s : Session)
    (h : DB -> (response * Session) * DB) : Prop :=
  forall db, code (fst (fst (h db))) = c /\ snd (fst (h db)) = s /\ snd (h db) = db.

End Invariants.

(** ** Lower-casing to evaluate the account routes with *)

Module AccountFixture.
Import Account.

(** Lower-casing of the letters A to Z; other characters are kept. *)
Definition lower_char (c : Ascii.ascii) : Ascii.ascii :=
  let n := Ascii.nat_of_ascii c in
  if (Nat.leb 65 n && Nat.leb n 90)%bool then Ascii.ascii_of_nat (n + 32) else c.

Fixpoint lower (s : string) : string :=
  match s with
  | EmptyString => EmptyString
  | String c s' => String (lower_char c) (lower s')
  end.

#[export] Instance AsciiCasing : Casing := {|
  toLowerCase := lower;
  LOWER := lower
|}.

End AccountFixture.

(** ** Properties *)

Import Http Spec Fixture.

(** *** Reading the lists *)

Section ListFacts.
Context `{JsNumber}.

Lemma party_view_reads (sd : side) (c : PartyRow) (db : DB) :
  party_view sd c db = (Ok (view_of sd db c), db).
Proof. reflexivity. Qed.

Lemma map_all_party_view (sd : side) (l : list PartyRow) (db : DB) :
  map_all (party_view sd) l db = (Ok (map (view_of sd db) l), db).
Proof.
  induction l as [|c l IH]; [reflexivity|].
  cbn [map_all map]. unfold bind at 1. rewrite party_view_reads.
  unfold bind at 1. rewrite IH. reflexivity.
Qed.

Lemma list_parties_reads (sd : side) (uid : Z) (db : DB) :
  handle (list_parties sd uid) db
  = (mkResp 200 (JParties (map (view_of sd db) (select_parties_of_user sd uid db))), db).
Proof.
  unfold handle, list_parties, bind, query, json, ret.
  rewrite map_all_party_view. reflexivity.
Qed.

Lemma reduce_amounts (l : list ItemView) :
  Js.reduce (fun sum item => nadd sum (iv_amount item)) nzero l
  = sum_amounts (map iv_amount l).
Proof.
  unfold Js.reduce, sum_amounts. generalize nzero.
  induction l as [|i l IH]; intro acc; [reflexivity|]. cbn. apply IH.
Qed.

End ListFacts.



(** C4: the [pending_amount] of a listed creditor or debtor is the sum of the
    amounts of its items whose status is "pending"; an item with any other
    status, "partial" and "paid" among them, adds nothing to it. *)
Theorem pending_amount_is_sum_of_pending_items `{JsNumber} (sd : side) (s : Session)
    (db db' : DB) (views : list PartyView) (r : PartyView) :
  ServerJs.listParties sd s db = (mkResp 200 (JParties views), db')
  \/ Compact.listParties sd s db = (mkResp 200 (JParties views), db') ->
  In r views ->
  pending_amount r = sum_amounts (map iv_amount (filter is_pending (pv_items r)))
  /\ (forall before i after,
        pv_items r = before ++ i :: after ->
        status (iv_row i) <> "pending" ->
        pending_amount r
        = sum_amounts (map iv_amount (filter is_pending (before ++ after)))).
Proof.
  intros Hlist Hin.
  assert (Hviews : exists uid,
             views = map (view_of sd db) (select_parties_of_user sd uid db)).
  { destruct Hlist as [Hl|Hl];
      [unfold ServerJs.listParties, ServerJs.requireAuth in Hl
      |unfold Compact.listParties, Compact.requireAuth in Hl];
      destruct (session_user s) as [uid|]; try discriminate;
      rewrite list_parties_reads in Hl; exists uid; congruence. }
  destruct Hviews as [uid ->].
  apply in_map_iff in Hin. destruct Hin as [c [<- _]].
  assert (Hp : pending_amount (view_of sd db c)
               = sum_amounts (map iv_amount (filter is_pending (pv_items (view_of sd db c))))).
  { cbn [view_of pv_items pending_amount]. apply reduce_amounts. }
  split; [exact Hp|].
  intros before i after Hsplit Hst. rewrite Hp, Hsplit.
  rewrite !filter_app. cbn [filter].
  assert (Hi : is_pending i = false).
  { unfold is_pending. apply String.eqb_neq. exact Hst. }
  rewrite Hi. reflexivity.
Qed.

Lemma pending_amount_is_sum_of_pending_items_witness :
  let r := view_of Creditor Fixture.db0 (mkParty 1 1 "Amina" "" "female" "french" 300) in
  pending_amount r = sum_amounts (map iv_amount (filter is_pending (pv_items r))).
Proof.
  intro r.
  apply (pending_amount_is_sum_of_pending_items Creditor Fixture.alice Fixture.db0
           Fixture.db0 [r] r).
  - left. reflexivity.
  - left. reflexivity.
Defined.

Lemma partial_and_paid_are_not_pending :
  "partial" <> "pending" /\ "paid" <> "pending".
Proof. split; discriminate. Qed.

(** *** The dashboard numbers *)

Section StatsFacts.
Context `{JsNumber}.

Lemma num_or_zero_parse_zero : num_or_zero (parseFloat 0) = nzero.
Proof.
  unfold num_or_zero. rewrite parseFloat_zero. destruct (truthy nzero); reflexivity.
Qed.

Lemma select_pending_total_none (sd : side) (uid : Z) (db : DB) :
  pending_join sd uid db = [] -> select_pending_total sd uid db = 0.
Proof. unfold select_pending_total. intros ->. reflexivity. Qed.

End StatsFacts.

(** C5: the dashboard numbers of a user: [net_position] is
    [total_owed_by_debtors] minus [total_owed_to_creditors], and each of the
    two totals is the number zero when no pending item of the user is found
    on its side. *)
Theorem net_position_is_signed_difference `{JsNumber} (s : Session) (uid : Z) (db : DB) :
  session_user s = Some uid ->
  exists st1 st2,
    ServerJs.dashboardStats s db = (mkResp 200 (JStats st1), db)
    /\ Compact.dashboardStats s db = (mkResp 200 (JStats st2), db)
    /\ net_position st1 = nsub (total_owed_by_debtors st1) (total_owed_to_creditors st1)
    /\ net_position st2 = nsub (total_owed_by_debtors st2) (total_owed_to_creditors st2)
    /\ (pending_join Creditor uid db = [] ->
        total_owed_to_creditors st1 = nzero /\ total_owed_to_creditors st2 = nzero)
    /\ (pending_join Debtor uid db = [] ->
        total_owed_by_debtors st1 = nzero /\ total_owed_by_debtors st2 = nzero).
Proof.
  intro Hs.
  unfold ServerJs.dashboardStats, ServerJs.requireAuth,
    Compact.dashboardStats, Compact.requireAuth.
  rewrite Hs. unfold handle, bind, query, json, ret.
  eexists. eexists.
  split; [reflexivity|]. split; [reflexivity|].
  cbn [stats_of net_position total_owed_by_debtors total_owed_to_creditors].
  split; [reflexivity|]. split; [reflexivity|]. split.
  - intro Hnone. rewrite (select_pending_total_none _ _ _ Hnone).
    split; apply num_or_zero_parse_zero.
  - intro Hnone. rewrite (select_pending_total_none _ _ _ Hnone).
    split; apply num_or_zero_parse_zero.
Qed.

Lemma net_position_is_signed_difference_witness :
  exists st1 st2,
    ServerJs.dashboardStats Fixture.bob Fixture.db0 = (mkResp 200 (JStats st1), Fixture.db0)
    /\ Compact.dashboardStats Fixture.bob Fixture.db0 = (mkResp 200 (JStats st2), Fixture.db0)
    /\ net_position st1 = nsub (total_owed_by_debtors st1) (total_owed_to_creditors st1)
    /\ net_position st2 = nsub (total_owed_by_debtors st2) (total_owed_to_creditors st2)
    /\ (pending_join Creditor 2 Fixture.db0 = [] ->
        total_owed_to_creditors st1 = nzero /\ total_owed_to_creditors st2 = nzero)
    /\ (pending_join Debtor 2 Fixture.db0 = [] ->
        total_owed_by_debtors st1 = nzero /\ total_owed_by_debtors st2 = nzero).
Proof.
  apply (net_position_is_signed_difference Fixture.bob 2 Fixture.db0).
  reflexivity.
Defined.

(** With a creditor item pending and no debtor, the net position is below
    zero. *)
Example net_position_can_be_negative :
  let db := set_items Debtor [] (set_parties Debtor [] Fixture.db0) in
  fst (ServerJs.dashboardStats Fixture.alice db)
  = mkResp 200 (JStats (mkStats 500000 0 (-500000) 1 0 (Some
      (map payment_view
         [mkPayment 1 1 "paid" None 1000 20 "cash" "" "" 1728000;
          mkPayment 2 1 "received" None 2500 20 "cash" "" "" 1728600]))))
  /\ fst (Compact.dashboardStats Fixture.alice db)
     = mkResp 200 (JStats (mkStats 500000 0 (-500000) 1 0 None)).
Proof. split; reflexivity. Qed.

(** *** Statements *)

Lemma salutation_table (g l t : string) :
  title_for g l = Some t ->
  Dashboard.salutation g (Js.or_string (Some l) "english") = t.
Proof.
  unfold title_for, Dashboard.salutation.
  destruct (String.eqb_spec g "male") as [-> | Hm].
  - destruct (String.eqb_spec l "english") as [-> | He].
    + intro E. injection E as <-. reflexivity.
    + destruct (String.eqb_spec l "french") as [-> | Hf]; [|discriminate].
      intro E. injection E as <-. reflexivity.
  - destruct (String.eqb_spec g "female") as [-> | Hf]; [|discriminate].
    destruct (String.eqb_spec l "english") as [-> | He].
    + intro E. injection E as <-. reflexivity.
    + destruct (String.eqb_spec l "french") as [-> | Hfr]; [|discriminate].
      intro E. injection E as <-. reflexivity.
Qed.

(** C9: for a record whose gender is male or female and whose language is
    english or french, the creditor statement and the debtor statement carry
    the title "Mr." (male, english), "M." (male, french), "Mrs." (female,
    english) or "Mme" (female, french). *)
Theorem statement_title_follows_gender_and_language `{JsNumber}
    (currentUser : option string) (r : PartyView) (t : string) :
  title_for (gender (pv_row r)) (language (pv_row r)) = Some t ->
  Dashboard.recipient_title (Dashboard.generateCreditorStatement currentUser r) = t
  /\ Dashboard.recipient_title (Dashboard.generateDebtorStatement currentUser r) = t.
Proof.
  intro Ht. apply salutation_table in Ht.
  unfold Dashboard.generateCreditorStatement, Dashboard.generateDebtorStatement.
  split;
    destruct (Js.or_string (Some (language (pv_row r))) "english" =? "french")%string;
    exact Ht.
Qed.

Lemma statement_title_follows_gender_and_language_witness :
  let amina := view_of Creditor Fixture.db0 (mkParty 1 1 "Amina" "" "female" "french" 300) in
  Dashboard.recipient_title (Dashboard.generateCreditorStatement (Some "Alice") amina) = "Mme"
  /\ Dashboard.recipient_title (Dashboard.generateDebtorStatement (Some "Alice") amina) = "Mme".
Proof.
  intro amina.
  apply (statement_title_follows_gender_and_language (Some "Alice") amina "Mme").
  reflexivity.
Defined.

Example title_for_table :
  title_for "male" "english" = Some "Mr."
  /\ title_for "male" "french" = Some "M."
  /\ title_for "female" "english" = Some "Mrs."
  /\ title_for "female" "french" = Some "Mme".
Proof. repeat split. Qed.

(** *** Passwords *)

Lemma short_is_weak (p : string) :
  (String.length p < 5)%nat -> weak_password (Some p) = true.
Proof.
  intro Hlen. unfold weak_password. apply orb_true_iff. right.
  apply Z.ltb_lt. lia.
Qed.

(** C7: with a session, a new password of fewer than five characters makes
    both password routes of both servers answer 400 with the
    password-too-short error; the store, and with it the stored hash and
    [must_change_password], stays as it was, and so does the session. *)
Theorem short_password_is_rejected `{JsNumber} `{Bcrypt} (s : Session) (uid : Z)
    (salt : string) (currentPassword : option string) (newPassword : string) (db : DB) :
  session_user s = Some uid ->
  (String.length newPassword < 5)%nat ->
  ServerJs.changePassword s salt currentPassword (Some newPassword) db
  = (mkResp 400 (JError "New password must be at least 5 characters"), db)
  /\ ServerJs.forceChangePassword s salt (Some newPassword) db
     = (mkResp 400 (JError "New password must be at least 5 characters"), db)
  /\ Compact.changePassword s salt currentPassword (Some newPassword) db
     = ((mkResp 400 (JError "Password must be at least 5 characters"), s), db)
  /\ Compact.forceChangePassword s salt (Some newPassword) db
     = ((mkResp 400 (JError "Password must be at least 5 characters"), s), db).
Proof.
  intros Hs Hlen. apply short_is_weak in Hlen.
  unfold ServerJs.changePassword, ServerJs.forceChangePassword, ServerJs.requireAuth,
    Compact.changePassword, Compact.forceChangePassword, Compact.requireAuth.
  rewrite Hs. unfold handle, Compact.handle_session. rewrite Hlen.
  repeat split.
Qed.

Lemma short_password_is_rejected_witness :
  ServerJs.changePassword Fixture.bob "salt" (Some "secret-b") (Some "abcd") Fixture.db0
  = (mkResp 400 (JError "New password must be at least 5 characters"), Fixture.db0)
  /\ ServerJs.forceChangePassword Fixture.bob "salt" (Some "abcd") Fixture.db0
     = (mkResp 400 (JError "New password must be at least 5 characters"), Fixture.db0)
  /\ Compact.changePassword Fixture.bob "salt" (Some "secret-b") (Some "abcd") Fixture.db0
     = ((mkResp 400 (JError "Password must be at least 5 characters"), Fixture.bob),
        Fixture.db0)
  /\ Compact.forceChangePassword Fixture.bob "salt" (Some "abcd") Fixture.db0
     = ((mkResp 400 (JError "Password must be at least 5 characters"), Fixture.bob),
        Fixture.db0).
Proof.
  apply (short_password_is_rejected Fixture.bob 2 "salt" (Some "secret-b") "abcd"
           Fixture.db0).
  - reflexivity.
  - simpl. lia.
Defined.

(** A password of five characters passes the same test and is stored. *)
Example five_characters_are_accepted :
  fst (ServerJs.forceChangePassword Fixture.bob "salt" (Some "abcde") Fixture.db0)
  = mkResp 200 (JMessage "Password changed successfully")
  /\ select_password_hash 2
       (snd (ServerJs.forceChangePassword Fixture.bob "salt" (Some "abcde") Fixture.db0))
     = ["abcde"].
Proof. split; reflexivity. Qed.

(** *** Deleting users *)



(** *** Payments and the ledger *)

Section LedgerFacts.
Context `{JsNumber}.

Lemma list_parties_same_ledger (sd : side) (uid : Z) (db db' : DB) :
  same_ledger db db' ->
  fst (handle (list_parties sd uid) db') = fst (handle (list_parties sd uid) db).
Proof.
  intro Hsame. destruct (Hsame sd) as [Hp Hi].
  rewrite !list_parties_reads. cbn [fst].
  unfold view_of, select_parties_of_user, select_items_of.
  rewrite Hp, Hi. reflexivity.
Qed.

Lemma insert_payment_same_ledger (now uid : Z) (ty : option string) (rel : option Z)
    (a : option decimal) (d : Z) (m rf nt : string) (db : DB) :
  same_ledger db (snd (insert_payment now uid ty rel a d m rf nt db))
  /\ users (snd (insert_payment now uid ty rel a d m rf nt db)) = users db.
Proof.
  unfold insert_payment.
  destruct ty as [t|]; destruct a as [amt|]; try destruct (exists_user uid db);
    (split; [intros [|]; split; reflexivity | reflexivity]).
Qed.

Lemma pending_total_same_ledger (sd : side) (uid : Z) (db db' : DB) :
  same_ledger db db' ->
  select_pending_total sd uid db' = select_pending_total sd uid db.
Proof.
  intro Hsame. destruct (Hsame sd) as [Hp Hi].
  unfold select_pending_total, pending_join. rewrite Hp, Hi. reflexivity.
Qed.

End LedgerFacts.

(** C6: recording a payment, whatever its type and amount and whether or not
    the store accepts it, leaves the creditor, debtor and item tables as they
    were; every list of creditors or debtors, with its statuses, amounts,
    [total_amount] and [pending_amount], and both pending totals of the
    dashboard read the same afterwards. *)
Theorem record_payment_leaves_ledger_alone `{JsNumber} (s : Session) (now : Z)
    (b : PaymentBody) (db : DB) :
  forall db', db' = snd (ServerJs.recordPayment s now b db)
              \/ db' = snd (Compact.recordPayment s now b db) ->
  same_ledger db db'
  /\ users db' = users db
  /\ (forall sd s',
        fst (ServerJs.listParties sd s' db') = fst (ServerJs.listParties sd s' db)
        /\ fst (Compact.listParties sd s' db') = fst (Compact.listParties sd s' db))
  /\ (forall sd uid, select_pending_total sd uid db' = select_pending_total sd uid db).
Proof.
  intros db' Hdb'.
  assert (Hsame : same_ledger db db' /\ users db' = users db).
  { destruct Hdb' as [-> | ->];
      [unfold ServerJs.recordPayment, ServerJs.requireAuth
      |unfold Compact.recordPayment, Compact.requireAuth];
      (destruct (session_user s) as [uid|];
       [|split; [intros [|]; split; reflexivity | reflexivity]]);
      unfold handle, bind, json, ret;
      match goal with
      | |- context [insert_payment ?n ?u ?t ?r ?a ?d ?m ?f ?o db] =>
          pose proof (insert_payment_same_ledger n u t r a d m f o db) as Hins;
          destruct (insert_payment n u t r a d m f o db) as [[id|msg] db1]
      end; exact Hins. }
  destruct Hsame as [Hsame Hu].
  split; [exact Hsame|]. split; [exact Hu|]. split.
  - intros sd s'.
    unfold ServerJs.listParties, ServerJs.requireAuth, Compact.listParties,
      Compact.requireAuth.
    destruct (session_user s') as [uid|]; [|split; reflexivity].
    split; apply list_parties_same_ledger; exact Hsame.
  - intros sd uid. apply pending_total_same_ledger. exact Hsame.
Qed.

Lemma record_payment_leaves_ledger_alone_witness :
  same_ledger db0
    (snd (ServerJs.recordPayment alice 1900800
            (mkPaymentBody (Some "paid") None (Some 100000) None None None None) db0)).
Proof.
  apply (record_payment_leaves_ledger_alone alice 1900800
           (mkPaymentBody (Some "paid") None (Some 100000) None None None None) db0).
  left. reflexivity.
Defined.

(** The payment of the scenario is stored, and the pending item it might
    have settled is still pending. *)
Example payment_is_recorded_and_item_still_pending :
  let db' := snd (ServerJs.recordPayment alice 1900800
                    (mkPaymentBody (Some "paid") None (Some 100000) None None None None) db0) in
  List.length (payments db') = 4%nat
  /\ creditor_items db' = creditor_items db0.
Proof. split; reflexivity. Qed.

(** *** ORDER BY *)

Section OrderBy.
Context {A : Type} (le : A -> A -> bool).

Lemma insert_by_perm (x : A) (l : list A) : Permutation (insert_by le x l) (x :: l).
Proof.
  induction l as [|y l IH]; [reflexivity|].
  cbn [insert_by]. destruct (le x y); [reflexivity|].
  rewrite IH. apply perm_swap.
Qed.

Lemma order_by_perm (l : list A) : Permutation (order_by le l) l.
Proof.
  induction l as [|x l IH]; [reflexivity|].
  cbn [order_by fold_right]. fold (order_by le l).
  rewrite insert_by_perm. now apply perm_skip.
Qed.

Lemma order_by_In (x : A) (l : list A) : In x (order_by le l) <-> In x l.
Proof.
  split; apply Permutation_in; [|symmetry]; apply order_by_perm.
Qed.

Hypothesis le_total : forall x y, le x y = true \/ le y x = true.
Hypothesis le_trans : forall x y z, le x y = true -> le y z = true -> le x z = true.

Lemma insert_by_hd (x y : A) (l : list A) :
  le y x = true ->
  HdRel (fun a b => le a b = true) y l ->
  HdRel (fun a b => le a b = true) y (insert_by le x l).
Proof.
  intros Hyx Hhd. destruct l as [|z l]; cbn [insert_by].
  - now constructor.
  - destruct (le x z); constructor; [exact Hyx|].
    now inversion Hhd.
Qed.

Lemma insert_by_sorted (x : A) (l : list A) :
  Sorted (fun a b => le a b = true) l ->
  Sorted (fun a b => le a b = true) (insert_by le x l).
Proof.
  induction l as [|y l IH]; intro Hs; cbn [insert_by].
  - repeat constructor.
  - destruct (le x y) eqn:Hxy.
    + constructor; [exact Hs|]. now constructor.
    + inversion Hs as [|? ? Hs' Hhd]; subst.
      constructor; [now apply IH|].
      apply insert_by_hd; [|exact Hhd].
      destruct (le_total x y) as [Hc|Hc]; [congruence|exact Hc].
Qed.

Lemma order_by_sorted (l : list A) :
  StronglySorted (fun a b => le a b = true) (order_by le l).
Proof.
  apply Sorted_StronglySorted.
  - intros x y z. apply le_trans.
  - induction l as [|x l IH]; [constructor|].
    cbn [order_by fold_right]. now apply insert_by_sorted.
Qed.

End OrderBy.

Lemma strongly_sorted_weaken {A : Type} (R R' : A -> A -> Prop) (l : list A) :
  (forall a b, R a b -> R' a b) -> StronglySorted R l -> StronglySorted R' l.
Proof.
  intros Himp Hs. induction Hs as [|a l Hs IH Hall]; constructor.
  - exact IH.
  - eapply Forall_impl; [|exact Hall]. intros b. apply Himp.
Qed.

Lemma by_date_then_created_desc_spec (p q : PaymentRow) :
  by_date_then_created_desc p q = true <-> later_first p q.
Proof.
  unfold by_date_then_created_desc, later_first.
  rewrite orb_true_iff, andb_true_iff, Z.ltb_lt, Z.eqb_eq, Z.leb_le. reflexivity.
Qed.

Lemma by_date_then_created_desc_total (p q : PaymentRow) :
  by_date_then_created_desc p q = true \/ by_date_then_created_desc q p = true.
Proof. rewrite !by_date_then_created_desc_spec. unfold later_first. lia. Qed.

Lemma by_date_then_created_desc_trans (p q r : PaymentRow) :
  by_date_then_created_desc p q = true ->
  by_date_then_created_desc q r = true ->
  by_date_then_created_desc p r = true.
Proof. rewrite !by_date_then_created_desc_spec. unfold later_first. lia. Qed.

Lemma by_date_desc_total (p q : PaymentRow) :
  by_date_desc p q = true \/ by_date_desc q p = true.
Proof. unfold by_date_desc. rewrite !Z.leb_le. lia. Qed.

Lemma by_date_desc_trans (p q r : PaymentRow) :
  by_date_desc p q = true -> by_date_desc q r = true -> by_date_desc p r = true.
Proof. unfold by_date_desc. rewrite !Z.leb_le. lia. Qed.

(** [GET /api/payments] of server.js: the payments of the session's user,
    each once, a later payment date first and, within a date, a later
    creation time first. *)
Lemma serverjs_payments_sorted `{JsNumber} (s : Session) (uid : Z) (db : DB) :
  session_user s = Some uid ->
  exists rows,
    ServerJs.listPayments s db = (mkResp 200 (JPayments (map payment_view rows)), db)
    /\ Permutation rows (filter (fun p => payment_user_id p =? uid) (payments db))
    /\ StronglySorted later_first rows.
Proof.
  intro Hs. exists (select_payments_of_user by_date_then_created_desc uid db).
  split; [|split].
  - unfold ServerJs.listPayments, ServerJs.requireAuth. rewrite Hs. reflexivity.
  - apply order_by_perm.
  - apply strongly_sorted_weaken
      with (R := fun p q => by_date_then_created_desc p q = true).
    + intros p q. apply by_date_then_created_desc_spec.
    + apply order_by_sorted.
      * exact by_date_then_created_desc_total.
      * exact by_date_then_created_desc_trans.
Qed.

(** [GET /api/payments] of the second server: the payments of the session's
    user, each once, a later payment date first. *)
Lemma compact_payments_sorted_by_date `{JsNumber} (s : Session) (uid : Z) (db : DB) :
  session_user s = Some uid ->
  exists rows,
    Compact.listPayments s db = (mkResp 200 (JPayments (map payment_view rows)), db)
    /\ Permutation rows (filter (fun p => payment_user_id p =? uid) (payments db))
    /\ StronglySorted (fun p q => payment_date q <= payment_date p) rows.
Proof.
  intro Hs. exists (select_payments_of_user by_date_desc uid db).
  split; [|split].
  - unfold Compact.listPayments, Compact.requireAuth. rewrite Hs. reflexivity.
  - apply order_by_perm.
  - apply strongly_sorted_weaken with (R := fun p q => by_date_desc p q = true).
    + intros p q. unfold by_date_desc. apply Z.leb_le.
    + apply order_by_sorted.
      * exact by_date_desc_total.
      * exact by_date_desc_trans.
Qed.

(** *** Replacing the items of a creditor or debtor *)


Lemma new_rows_ids (now pid next : Z) (l : list ItemInput) (j : ItemRow) :
  In j (new_rows now pid next l) -> next <= item_id j /\ parent_id j = pid.
Proof.
  revert next. induction l as [|x l IH]; intros next Hin; [contradiction|].
  destruct Hin as [<- | Hin]; [cbn; lia|].
  apply IH in Hin. lia.
Qed.




Lemma filter_none_left {A : Type} (f : A -> bool) (l : list A) :
  filter f (filter (fun x => negb (f x)) l) = [].
Proof.
  induction l as [|x l IH]; [reflexivity|].
  cbn [filter]. destruct (f x) eqn:Hf; cbn [negb filter]; [exact IH|].
  rewrite Hf. exact IH.
Qed.

(** The loop of item inserts under an existing parent: it cannot be refused,
    and it appends its rows to the item table. *)
Lemma for_each_insert_item (sd : side) (now pid : Z) (l : list ItemInput) (db : DB) :
  exists_party sd pid db = true ->
  exists db',
    for_each (insert_item_of sd now pid) l db = (Ok tt, db')
    /\ items sd db' = items sd db ++ new_rows now pid (seq_items sd db) l
    /\ only_items_differ sd db db'.
Proof.
  revert db. induction l as [|x l IH]; intros db Hex.
  - exists db. split; [reflexivity|]. split; [now rewrite app_nil_r|].
    repeat split.
  - cbn [for_each]. unfold bind at 1. unfold insert_item_of at 1, insert_item.
    rewrite Hex.
    set (db1 := set_items sd _ (bump_seq_items sd db)).
    assert (Hex1 : exists_party sd pid db1 = true).
    { unfold exists_party in *. subst db1. destruct sd; exact Hex. }
    destruct (IH db1 Hex1) as [db' [Hrun [Hitems Hframe]]].
    exists db'. split; [exact Hrun|]. split.
    + rewrite Hitems. subst db1. cbn [new_rows].
      destruct sd; cbn; rewrite <- app_assoc; reflexivity.
    + destruct Hframe as [Hu [Hp [Hi Hpay]]].
      split; [rewrite Hu; subst db1; destruct sd; reflexivity|].
      split; [intro sd'; rewrite Hp; subst db1; destruct sd, sd'; reflexivity|].
      split; [|rewrite Hpay; subst db1; destruct sd; reflexivity].
      intros sd' Hne. rewrite (Hi sd' Hne). subst db1.
      destruct sd, sd'; try reflexivity; now contradiction Hne.
Qed.

Lemma insert_items_under (sd : side) (now pid : Z) (its : option (list ItemInput)) (db : DB) :
  exists_party sd pid db = true ->
  exists db',
    insert_items sd now pid its db = (Ok tt, db')
    /\ items sd db'
       = items sd db
         ++ new_rows now pid (seq_items sd db) (match its with Some l => l | None => [] end)
    /\ only_items_differ sd db db'.
Proof.
  intro Hex. destruct its as [[|x l]|].
  - exists db. split; [reflexivity|]. split; [now rewrite app_nil_r|]. repeat split.
  - apply for_each_insert_item. exact Hex.
  - exists db. split; [reflexivity|]. split; [now rewrite app_nil_r|]. repeat split.
Qed.

Lemma only_items_differ_trans (sd : side) (db1 db2 db3 : DB) :
  only_items_differ sd db1 db2 -> only_items_differ sd db2 db3 ->
  only_items_differ sd db1 db3.
Proof.
  intros [Hu [Hp [Hi Hpay]]] [Hu' [Hp' [Hi' Hpay']]].
  split; [congruence|]. split; [intro sd'; rewrite Hp'; apply Hp|].
  split; [|congruence].
  intros sd' Hne. rewrite (Hi' sd' Hne). now apply Hi.
Qed.

(** The two statements that end both update handlers: the item rows under
    the parent are deleted and the items of the request inserted. *)
Lemma replace_items_run {R : Type} (sd : side) (now id : Z)
    (its : option (list ItemInput)) (k : Q R) (db : DB) :
  exists_party sd id db = true ->
  exists db',
    bind (delete_items_of sd id) (fun _ => bind (insert_items sd now id its) (fun _ => k)) db
    = k db'
    /\ items sd db'
       = filter (fun i => negb (parent_id i =? id)) (items sd db)
         ++ new_rows now id (seq_items sd db) (match its with Some l => l | None => [] end)
    /\ only_items_differ sd db db'.
Proof.
  intro Hex. unfold bind at 1. unfold delete_items_of, exec.
  set (db1 := set_items sd _ db).
  assert (Hex1 : exists_party sd id db1 = true).
  { unfold exists_party in *. subst db1. destruct sd; exact Hex. }
  destruct (insert_items_under sd now id its db1 Hex1) as [db' [Hrun [Hitems Hframe]]].
  exists db'. split; [unfold bind; now rewrite Hrun|]. split.
  - rewrite Hitems. subst db1. destruct sd; reflexivity.
  - apply only_items_differ_trans with (db2 := db1); [|exact Hframe].
    subst db1. repeat split; try (destruct sd; reflexivity).
    intros sd' Hne. destruct sd, sd'; try reflexivity; now contradiction Hne.
Qed.

Lemma owned_party_exists (sd : side) (id uid : Z) (db : DB) :
  select_party_owned sd id uid db <> [] ->
  existsb (fun p => (party_id p =? id) && (party_user_id p =? uid)) (parties sd db) = true
  /\ exists_party sd id db = true.
Proof.
  unfold select_party_owned, exists_party. intro Hne.
  induction (parties sd db) as [|p l IH]; [now contradiction Hne|].
  cbn [filter map existsb] in *.
  destruct (party_id p =? id); cbn [andb orb] in *.
  - destruct (party_user_id p =? uid); cbn [orb] in *; [split; reflexivity|].
    destruct (IH Hne) as [H1 _]. split; [exact H1|reflexivity].
  - apply IH. exact Hne.
Qed.

(** [UPDATE ... SET] of the four descriptive columns: ids, owners and the
    item tables are as before. *)
Lemma update_parties_run (sd : side) (cond : PartyRow -> bool) (n ct g l : string)
    (db : DB) :
  exists db1,
    update_parties sd cond (Some n) ct g l db = (Ok tt, db1)
    /\ (forall sd', items sd' db1 = items sd' db)
    /\ (forall sd', seq_items sd' db1 = seq_items sd' db)
    /\ (forall id, exists_party sd id db1 = exists_party sd id db)
    /\ users db1 = users db /\ payments db1 = payments db
    /\ (forall sd', sd' <> sd -> parties sd' db1 = parties sd' db)
    /\ parties sd db1
       = map (fun p => if cond p
                       then mkParty (party_id p) (party_user_id p) n ct g l
                              (party_created_at p)
                       else p) (parties sd db).
Proof.
  eexists. split; [reflexivity|].
  split; [intro sd'; destruct sd, sd'; reflexivity|].
  split; [intro sd'; destruct sd, sd'; reflexivity|].
  split.
  { intro id. unfold exists_party.
    assert (Hmap : forall rows,
               existsb (fun p => party_id p =? id)
                 (map (fun p => if cond p
                                then mkParty (party_id p) (party_user_id p) n ct g l
                                       (party_created_at p)
                                else p) rows)
               = existsb (fun p => party_id p =? id) rows).
    { induction rows as [|p rows IH]; [reflexivity|].
      cbn [map existsb]. rewrite IH. destruct (cond p); reflexivity. }
    destruct sd; apply Hmap. }
  split; [destruct sd; reflexivity|].
  split; [destruct sd; reflexivity|].
  split; [|destruct sd; reflexivity].
  intros sd' Hne. destruct sd, sd'; try reflexivity; now contradiction Hne.
Qed.

Section UpdateRuns.
Context `{JsNumber}.

Lemma serverjs_update_run (sd : side) (s : Session) (uid now id : Z) (b : PartyBody)
    (n : string) (db : DB) :
  session_user s = Some uid ->
  select_party_owned sd id uid db <> [] ->
  b_full_name b = Some n ->
  exists db',
    ServerJs.updateParty sd s now id b db
    = (mkResp 200 (JMessage (side_name sd ++ " updated successfully")%string), db')
    /\ replaced sd now id b db db'
    /\ parties sd db'
       = map (fun p => if party_id p =? id
                       then mkParty (party_id p) (party_user_id p) n
                              (Js.or_string (b_contact b) "")
                              (Js.or_string (b_gender b) "male")
                              (Js.or_string (b_language b) "english")
                              (party_created_at p)
                       else p) (parties sd db).
Proof.
  intros Hs Hown Hn.
  destruct (owned_party_exists sd id uid db Hown) as [_ Hex].
  unfold ServerJs.updateParty, ServerJs.requireAuth. rewrite Hs.
  unfold handle. unfold bind at 1. unfold query.
  destruct (select_party_owned sd id uid db) as [|c cs]; [now contradiction Hown|].
  unfold bind at 1. rewrite Hn.
  destruct (update_parties_run sd (fun p => party_id p =? id) n
              (Js.or_string (b_contact b) "") (Js.or_string (b_gender b) "male")
              (Js.or_string (b_language b) "english") db)
    as [db1 [Hrun [Hi [Hseq [Hex1 [Hu [Hpay [Hother Hp]]]]]]]].
  rewrite Hrun.
  destruct (replace_items_run sd now id (b_items b)
              (json (JMessage (side_name sd ++ " updated successfully")%string)) db1)
    as [db' [Hrun' [Hitems [Hu' [Hp' [Hi' Hpay']]]]]].
  { rewrite Hex1. exact Hex. }
  rewrite Hrun'. exists db'. split; [reflexivity|]. split.
  - split; [rewrite Hitems, Hi, Hseq; reflexivity|].
    split; [congruence|]. split; [congruence|].
    intros sd' Hne. split.
    + rewrite Hp'. now apply Hother.
    + rewrite (Hi' sd' Hne). apply Hi.
  - rewrite Hp'. exact Hp.
Qed.

Lemma compact_update_run (sd : side) (s : Session) (uid now id : Z) (b : PartyBody)
    (n : string) (db : DB) :
  session_user s = Some uid ->
  exists_party sd id db = true ->
  b_full_name b = Some n ->
  exists db',
    Compact.updateParty sd s now id b db = (mkResp 200 JSuccess, db')
    /\ replaced sd now id b db db'
    /\ parties sd db'
       = map (fun p => if (party_id p =? id) && (party_user_id p =? uid)
                       then mkParty (party_id p) (party_user_id p) n
                              (Js.or_string (b_contact b) "")
                              (Js.or_string (b_gender b) "male")
                              (Js.or_string (b_language b) "english")
                              (party_created_at p)
                       else p) (parties sd db).
Proof.
  intros Hs Hex Hn.
  unfold Compact.updateParty, Compact.requireAuth. rewrite Hs.
  unfold handle. unfold bind at 1. rewrite Hn.
  destruct (update_parties_run sd
              (fun p => (party_id p =? id) && (party_user_id p =? uid)) n
              (Js.or_string (b_contact b) "") (Js.or_string (b_gender b) "male")
              (Js.or_string (b_language b) "english") db)
    as [db1 [Hrun [Hi [Hseq [Hex1 [Hu [Hpay [Hother Hp]]]]]]]].
  rewrite Hrun.
  destruct (replace_items_run sd now id (b_items b) (json JSuccess) db1)
    as [db' [Hrun' [Hitems [Hu' [Hp' [Hi' Hpay']]]]]].
  { rewrite Hex1. exact Hex. }
  rewrite Hrun'. exists db'. split; [reflexivity|]. split.
  - split; [rewrite Hitems, Hi, Hseq; reflexivity|].
    split; [congruence|]. split; [congruence|].
    intros sd' Hne. split.
    + rewrite Hp'. now apply Hother.
    + rewrite (Hi' sd' Hne). apply Hi.
  - rewrite Hp'. exact Hp.
Qed.

(** Without a name the update of an owned row is refused by the store and
    nothing is written. *)
Lemma update_without_name_fails (sd : side) (s : Session) (uid now id : Z)
    (b : PartyBody) (db : DB) :
  session_user s = Some uid ->
  select_party_owned sd id uid db <> [] ->
  b_full_name b = None ->
  ServerJs.updateParty sd s now id b db = (mkResp 500 (JError not_null_violation), db)
  /\ Compact.updateParty sd s now id b db = (mkResp 500 (JError not_null_violation), db).
Proof.
  intros Hs Hown Hn.
  destruct (owned_party_exists sd id uid db Hown) as [Hex' Hex].
  unfold exists_party in Hex.
  unfold ServerJs.updateParty, ServerJs.requireAuth,
    Compact.updateParty, Compact.requireAuth.
  rewrite Hs. unfold handle. split.
  - unfold bind at 1. unfold query.
    destruct (select_party_owned sd id uid db) as [|c cs]; [now contradiction Hown|].
    unfold bind at 1. unfold update_parties. rewrite Hn, Hex. reflexivity.
  - unfold bind at 1. unfold update_parties. rewrite Hn, Hex'. reflexivity.
Qed.

End UpdateRuns.




(** With a name in the body, the update of an owned creditor or debtor goes
    through in both servers. *)
Lemma update_of_owned_succeeds `{JsNumber} (sd : side) (s : Session) (uid now id : Z)
    (b : PartyBody) (db : DB) :
  session_user s = Some uid ->
  select_party_owned sd id uid db <> [] ->
  b_full_name b <> None ->
  code (fst (ServerJs.updateParty sd s now id b db)) = 200
  /\ code (fst (Compact.updateParty sd s now id b db)) = 200.
Proof.
  intros Hs Hown Hn. destruct (b_full_name b) as [n|] eqn:Hb; [|now contradiction Hn].
  destruct (serverjs_update_run sd s uid now id b n db Hs Hown Hb) as [db1 [-> _]].
  destruct (owned_party_exists sd id uid db Hown) as [_ Hex].
  destruct (compact_update_run sd s uid now id b n db Hs Hex Hb) as [db2 [-> _]].
  split; reflexivity.
Qed.

(** An item submitted with every field filled in is stored as submitted. *)
Example complete_item_is_stored_verbatim :
  submitted_content one_item
  = mkItemContent "books" 4200 None None "pending" "".
Proof. reflexivity. Qed.

Lemma or_string_empty (r : string) : Js.or_string (Some r) "" = r.
Proof.
  unfold Js.or_string. destruct (String.eqb_spec r "") as [-> | _]; reflexivity.
Qed.

(** An item that comes with all its fields, its status being one of the
    three of the data model or any other text that is not empty, is stored
    as it was submitted. *)
Lemma complete_item_content (r st nt : string) (a : decimal) (di du : option Z) :
  st <> "" ->
  submitted_content (mkItemInput (Some r) (Some a) di du (Some st) (Some nt))
  = mkItemContent r a di du st nt.
Proof.
  intro Hst. unfold submitted_content, item_reason, item_status, item_notes, item_amount.
  cbn [in_reason in_amount in_date_incurred in_due_date in_status in_notes Js.or_zero].
  rewrite !or_string_empty. unfold Js.or_string.
  apply String.eqb_neq in Hst. now rewrite Hst.
Qed.

(** *** Ownership *)

Lemma filter_map_fixed {A : Type} (f : A -> bool) (g : A -> A) (l : list A) :
  (forall x, In x l -> f (g x) = f x) ->
  (forall x, In x l -> f x = true -> g x = x) ->
  filter f (map g l) = filter f l.
Proof.
  induction l as [|x l IH]; intros Hf Hg; [reflexivity|].
  cbn [map filter]. rewrite (Hf x (or_introl eq_refl)).
  rewrite IH.
  - destruct (f x) eqn:Hfx; [|reflexivity].
    now rewrite (Hg x (or_introl eq_refl) Hfx).
  - intros y Hy. apply Hf. now right.
  - intros y Hy. apply Hg. now right.
Qed.

Lemma existsb_map_same {A : Type} (h : A -> bool) (g : A -> A) (l : list A) :
  (forall x, h (g x) = h x) -> existsb h (map g l) = existsb h l.
Proof.
  intro Hh. induction l as [|x l IH]; [reflexivity|].
  cbn [map existsb]. now rewrite Hh, IH.
Qed.

Lemma filter_filter_same {A : Type} (f g : A -> bool) (l : list A) :
  (forall x, In x l -> f x = true -> g x = true) ->
  filter f (filter g l) = filter f l.
Proof.
  induction l as [|x l IH]; intro Himp; [reflexivity|].
  cbn [filter]. destruct (g x) eqn:Hg.
  - cbn [filter]. rewrite IH by (intros; apply Himp; auto using in_cons). reflexivity.
  - rewrite IH by (intros; apply Himp; auto using in_cons).
    destruct (f x) eqn:Hf; [|reflexivity].
    rewrite (Himp x (or_introl eq_refl) Hf) in Hg. discriminate.
Qed.

Lemma filter_nothing {A : Type} (f : A -> bool) (l : list A) :
  (forall x, In x l -> f x = false) -> filter f l = [].
Proof.
  induction l as [|x l IH]; intro Hf; [reflexivity|].
  cbn [filter]. rewrite (Hf x (or_introl eq_refl)). apply IH.
  intros; apply Hf; auto using in_cons.
Qed.

(** With the primary key of the parent table in force, a row that passes the
    ownership test is the only row with its id. *)
Lemma owned_id_has_one_owner (sd : side) (id uid : Z) (db : DB) (p : PartyRow) :
  NoDup (map party_id (parties sd db)) ->
  select_party_owned sd id uid db <> [] ->
  In p (parties sd db) -> party_id p = id -> party_user_id p = uid.
Proof.
  unfold select_party_owned. intros Hnd Hown Hin Hid.
  induction (parties sd db) as [|q l IH]; [contradiction|].
  cbn [map] in Hnd. inversion Hnd as [|? ? Hnotin Hnd']; subst.
  cbn [filter map] in Hown.
  destruct ((party_id q =? party_id p) && (party_user_id q =? uid)) eqn:Hq.
  - apply andb_true_iff in Hq. destruct Hq as [Hq1 Hq2].
    apply Z.eqb_eq in Hq1, Hq2.
    destruct Hin as [-> | Hin]; [exact Hq2|].
    exfalso. apply Hnotin. rewrite Hq1. now apply in_map.
  - destruct Hin as [-> | Hin].
    + rewrite Z.eqb_refl in Hq. cbn in Hq.
      assert (Hex : exists q', In q' l /\ party_id q' = party_id p).
      { clear - Hown. induction l as [|q' l IH]; [now contradiction Hown|].
        cbn [filter map] in Hown.
        destruct (party_id q' =? party_id p) eqn:Hq'; cbn [andb] in Hown.
        - exists q'. split; [now left|now apply Z.eqb_eq].
        - destruct (IH Hown) as [x [Hx1 Hx2]]. exists x. split; [now right|exact Hx2]. }
      destruct Hex as [q' [Hq'in Hq'id]].
      exfalso. apply Hnotin. rewrite <- Hq'id. now apply in_map.
    + now apply IH.
Qed.

Lemma existsb_filter_same {A : Type} (h g : A -> bool) (l : list A) :
  (forall x, In x l -> h x = true -> g x = true) ->
  existsb h (filter g l) = existsb h l.
Proof.
  induction l as [|x l IH]; intro Himp; [reflexivity|].
  assert (IH' : existsb h (filter g l) = existsb h l).
  { apply IH. intros y Hy. apply Himp. now right. }
  cbn [filter existsb]. destruct (g x) eqn:Hg.
  - cbn [existsb]. now rewrite IH'.
  - rewrite IH'. destruct (h x) eqn:Hh; [|reflexivity].
    rewrite (Himp x (or_introl eq_refl) Hh) in Hg. discriminate.
Qed.

(** An item under an id whose only owner is the caller is not an item of
    another user. *)
Lemma owned_items_not_foreign (sd : side) (id uid : Z) (db : DB) (i : ItemRow) :
  NoDup (map party_id (parties sd db)) ->
  select_party_owned sd id uid db <> [] ->
  parent_id i = id ->
  existsb (fun p => (party_id p =? parent_id i) && negb (party_user_id p =? uid))
    (parties sd db) = false.
Proof.
  intros Hnd Hown Hpar.
  destruct (existsb _ (parties sd db)) eqn:Hex; [|reflexivity].
  apply existsb_exists in Hex. destruct Hex as [p [Hin Hp]].
  apply andb_true_iff in Hp. destruct Hp as [Hid Hu].
  apply Z.eqb_eq in Hid. rewrite Hpar in Hid.
  rewrite (owned_id_has_one_owner sd id uid db p Hnd Hown Hin Hid), Z.eqb_refl in Hu.
  discriminate.
Qed.

Section ServerJsIsolation.
Context `{JsNumber}.

Lemma serverjs_update_not_owned (sd : side) (s : Session) (uid now id : Z)
    (b : PartyBody) (db : DB) :
  session_user s = Some uid ->
  select_party_owned sd id uid db = [] ->
  ServerJs.updateParty sd s now id b db
  = (mkResp 404 (JError (side_name sd ++ " not found")%string), db).
Proof.
  intros Hs Hnot. unfold ServerJs.updateParty, ServerJs.requireAuth. rewrite Hs.
  unfold handle, bind, query. rewrite Hnot. reflexivity.
Qed.

(** [PUT /api/creditors/:id] and [PUT /api/debtors/:id] of server.js write
    to no row of another user: the parent rows of other users and the item
    rows under them are what they were, whoever owns the id in the path. *)
Lemma serverjs_update_keeps_foreign_rows (sd : side) (s : Session) (uid now id : Z)
    (b : PartyBody) (db : DB) :
  session_user s = Some uid ->
  NoDup (map party_id (parties sd db)) ->
  let db' := snd (ServerJs.updateParty sd s now id b db) in
  foreign_parties sd uid db' = foreign_parties sd uid db
  /\ foreign_items sd uid db' = foreign_items sd uid db
  /\ (forall sd', sd' <> sd -> parties sd' db' = parties sd' db /\ items sd' db' = items sd' db)
  /\ payments db' = payments db
  /\ users db' = users db.
Proof.
  intros Hs Hnd db'. subst db'.
  destruct (select_party_owned sd id uid db) as [|c cs] eqn:Hown.
  { rewrite (serverjs_update_not_owned sd s uid now id b db Hs Hown). cbn [snd].
    repeat split. }
  assert (Hown' : select_party_owned sd id uid db <> []) by (rewrite Hown; discriminate).
  clear Hown.
  destruct (b_full_name b) as [n|] eqn:Hn.
  2: { destruct (update_without_name_fails sd s uid now id b db Hs Hown' Hn) as [-> _].
       cbn [snd]. repeat split. }
  destruct (serverjs_update_run sd s uid now id b n db Hs Hown' Hn)
    as [db' [-> [[Hitems [Hu [Hpay Hother]]] Hparties]]].
  cbn [snd].
  split; [|split; [|split; [exact Hother|split; [exact Hpay|exact Hu]]]].
  - unfold foreign_parties. rewrite Hparties. apply filter_map_fixed.
    + intros p _. destruct (party_id p =? id); reflexivity.
    + intros p Hin Hforeign. destruct (party_id p =? id) eqn:Hid; [|reflexivity].
      apply Z.eqb_eq in Hid.
      rewrite (owned_id_has_one_owner sd id uid db p Hnd Hown' Hin Hid), Z.eqb_refl
        in Hforeign.
      discriminate.
  - unfold foreign_items. rewrite Hparties, Hitems.
    rewrite (filter_ext _
               (fun i => existsb
                           (fun p => (party_id p =? parent_id i)
                                     && negb (party_user_id p =? uid))
                           (parties sd db))).
    2: { intro i. apply existsb_map_same. intro p.
         destruct (party_id p =? id); reflexivity. }
    rewrite filter_app, filter_filter_same, (filter_nothing _ (new_rows _ _ _ _)).
    + apply app_nil_r.
    + intros i Hin. apply new_rows_ids in Hin.
      apply (owned_items_not_foreign sd id uid db i Hnd Hown'). apply Hin.
    + intros i _ Hforeign. apply negb_true_iff. apply Z.eqb_neq. intro Hpar.
      rewrite (owned_items_not_foreign sd id uid db i Hnd Hown' Hpar) in Hforeign.
      discriminate.
Qed.

(** [GET /api/creditors] and [GET /api/debtors] of both servers return rows
    of the session's user only, each with the item rows under it. *)
Lemma lists_return_own_rows (sd : side) (s : Session) (db db' : DB)
    (views : list PartyView) (r : PartyView) :
  ServerJs.listParties sd s db = (mkResp 200 (JParties views), db')
  \/ Compact.listParties sd s db = (mkResp 200 (JParties views), db') ->
  In r views ->
  session_user s = Some (party_user_id (pv_row r))
  /\ In (pv_row r) (parties sd db)
  /\ (forall i, In i (pv_items r) ->
        In (iv_row i) (items sd db) /\ parent_id (iv_row i) = party_id (pv_row r)).
Proof.
  intros Hlist Hin.
  assert (Hviews : exists uid,
             session_user s = Some uid
             /\ views = map (view_of sd db) (select_parties_of_user sd uid db)).
  { destruct Hlist as [Hl|Hl];
      [unfold ServerJs.listParties, ServerJs.requireAuth in Hl
      |unfold Compact.listParties, Compact.requireAuth in Hl];
      destruct (session_user s) as [uid|]; try discriminate;
      rewrite list_parties_reads in Hl; exists uid; split; congruence. }
  destruct Hviews as [uid [Hs ->]].
  apply in_map_iff in Hin. destruct Hin as [c [<- Hc]].
  unfold select_parties_of_user in Hc. apply order_by_In in Hc.
  apply filter_In in Hc. destruct Hc as [Hc Hu]. apply Z.eqb_eq in Hu.
  cbn [view_of pv_row pv_items]. split; [congruence|]. split; [exact Hc|].
  intros i Hi. apply in_map_iff in Hi. destruct Hi as [row [<- Hrow]].
  unfold select_items_of in Hrow. apply order_by_In in Hrow.
  apply filter_In in Hrow. destruct Hrow as [Hrow Hpar]. apply Z.eqb_eq in Hpar.
  cbn [item_view iv_row]. split; [exact Hrow | exact Hpar].
Qed.

End ServerJsIsolation.

(** C1: in the second server the ownership test guards the parent row only.
    Bob, who owns creditor 2, names creditor 1 of Alice on the update route:
    the answer is a success, Alice's two items are gone and Bob's item is
    stored under her creditor; on the delete route her items are deleted.
    server.js answers the same two requests with 404 and writes nothing. *)
Theorem compact_update_rewrites_foreign_items :
  select_party_owned Creditor 1 2 db0 = []
  /\ foreign_items Creditor 2 db0
     = [mkItem 1 1 "loan" 500000 None None "pending" "" 300;
        mkItem 2 1 "rent" 20000 None None "paid" "" 300]
  /\ fst (Compact.updateCreditor bob 999 1 new_body db0) = mkResp 200 JSuccess
  /\ foreign_items Creditor 2 (snd (Compact.updateCreditor bob 999 1 new_body db0))
     = [mkItem 4 1 "books" 4200 None None "pending" "" 999]
  /\ fst (Compact.deleteCreditor bob 1 db0) = mkResp 200 JSuccess
  /\ foreign_items Creditor 2 (snd (Compact.deleteCreditor bob 1 db0)) = []
  /\ ServerJs.updateCreditor bob 999 1 new_body db0
     = (mkResp 404 (JError "Creditor not found"), db0)
  /\ ServerJs.deleteCreditor bob 1 db0
     = (mkResp 404 (JError "Creditor not found"), db0).
Proof. repeat split. Qed.

(** C8: in the second server the list of payments is ordered by payment date
    alone.  Alice has two payments dated the same day; the list gives the one
    created first before the one created after it, where server.js gives
    the later one first. *)
Theorem compact_payments_ignore_creation_time :
  let older := mkPayment 1 1 "paid" None 1000 20 "cash" "" "" 1728000 in
  let newer := mkPayment 2 1 "received" None 2500 20 "cash" "" "" 1728600 in
  Compact.listPayments alice db0
  = (mkResp 200 (JPayments (map payment_view [older; newer])), db0)
  /\ payment_date older = payment_date newer
  /\ payment_created_at older < payment_created_at newer
  /\ ~ later_first older newer
  /\ ServerJs.listPayments alice db0
     = (mkResp 200 (JPayments (map payment_view [newer; older])), db0).
Proof.
  cbv zeta. split; [reflexivity|]. split; [reflexivity|]. split; [reflexivity|].
  split; [|reflexivity].
  unfold later_first. cbn. lia.
Qed.

Section DeleteIsolation.
Context `{JsNumber}.

(** [DELETE /api/creditors/:id] and [DELETE /api/debtors/:id] of server.js
    delete no row of another user. *)
Lemma serverjs_delete_keeps_foreign_rows (sd : side) (s : Session) (uid id : Z) (db : DB) :
  session_user s = Some uid ->
  NoDup (map party_id (parties sd db)) ->
  let db' := snd (ServerJs.deleteParty sd s id db) in
  foreign_parties sd uid db' = foreign_parties sd uid db
  /\ foreign_items sd uid db' = foreign_items sd uid db
  /\ (forall sd', sd' <> sd -> parties sd' db' = parties sd' db /\ items sd' db' = items sd' db)
  /\ payments db' = payments db
  /\ users db' = users db.
Proof.
  intros Hs Hnd db'. subst db'.
  unfold ServerJs.deleteParty, ServerJs.requireAuth. rewrite Hs.
  unfold handle, bind, query.
  destruct (select_party_owned sd id uid db) as [|c cs] eqn:Hown.
  { cbn [fail ret snd]. repeat split. }
  assert (Hown' : select_party_owned sd id uid db <> []) by (rewrite Hown; discriminate).
  clear Hown.
  unfold delete_items_of, delete_parties, exec, json, ret. cbn [snd].
  set (db1 := set_items sd _ db).
  assert (Hp1 : parties sd db1 = parties sd db) by (subst db1; destruct sd; reflexivity).
  assert (Hi1 : items sd db1 = filter (fun i => negb (parent_id i =? id)) (items sd db))
    by (subst db1; destruct sd; reflexivity).
  assert (Hparties : parties sd (cascade_parties sd (fun p => party_id p =? id) db1)
                     = filter (fun p => negb (party_id p =? id)) (parties sd db)).
  { rewrite <- Hp1. unfold cascade_parties. destruct sd; reflexivity. }
  assert (Hitems : items sd (cascade_parties sd (fun p => party_id p =? id) db1)
                   = filter
                       (fun i => negb (existsb (Z.eqb (parent_id i))
                                         (map party_id
                                            (filter (fun p => party_id p =? id)
                                               (parties sd db)))))
                       (filter (fun i => negb (parent_id i =? id)) (items sd db))).
  { rewrite <- Hp1, <- Hi1. unfold cascade_parties. destruct sd; reflexivity. }
  split; [|split; [|split; [|split]]].
  - unfold foreign_parties. rewrite Hparties. apply filter_filter_same.
    intros p Hin Hforeign. apply negb_true_iff. apply Z.eqb_neq. intro Hid.
    rewrite (owned_id_has_one_owner sd id uid db p Hnd Hown' Hin Hid), Z.eqb_refl
      in Hforeign.
    discriminate.
  - unfold foreign_items. rewrite Hparties, Hitems.
    rewrite (filter_ext _
               (fun i => existsb
                           (fun p => (party_id p =? parent_id i)
                                     && negb (party_user_id p =? uid))
                           (parties sd db))).
    2: { intro i. apply existsb_filter_same. intros p Hin Hp.
         apply andb_true_iff in Hp. destruct Hp as [_ Hu].
         apply negb_true_iff. apply Z.eqb_neq. intro Hid.
         rewrite (owned_id_has_one_owner sd id uid db p Hnd Hown' Hin Hid), Z.eqb_refl
           in Hu.
         discriminate. }
    assert (Hkeep : forall i,
               existsb (fun p => (party_id p =? parent_id i)
                                 && negb (party_user_id p =? uid)) (parties sd db) = true ->
               parent_id i <> id).
    { intros i Hforeign Hpar.
      rewrite (owned_items_not_foreign sd id uid db i Hnd Hown' Hpar) in Hforeign.
      discriminate. }
    rewrite filter_filter_same.
    + apply filter_filter_same. intros i _ Hforeign.
      apply negb_true_iff. apply Z.eqb_neq. now apply Hkeep.
    + intros i _ Hforeign. apply negb_true_iff.
      destruct (existsb (Z.eqb (parent_id i)) _) eqn:Hex; [|reflexivity].
      apply existsb_exists in Hex. destruct Hex as [x [Hx Heq]].
      apply Z.eqb_eq in Heq. apply in_map_iff in Hx. destruct Hx as [p [Hpx Hp]].
      apply filter_In in Hp. destruct Hp as [_ Hp]. apply Z.eqb_eq in Hp.
      exfalso. apply (Hkeep i Hforeign). congruence.
  - intros sd' Hne. subst db1. unfold cascade_parties.
    destruct sd, sd'; try (now contradiction Hne); split; reflexivity.
  - subst db1. unfold cascade_parties. destruct sd; reflexivity.
  - subst db1. unfold cascade_parties. destruct sd; reflexivity.
Qed.

(** [DELETE /api/payments/:id] of the second server deletes no payment of
    another user, and touches no other table. *)
Lemma compact_delete_payment_keeps_foreign_rows (s : Session) (uid id : Z) (db : DB) :
  session_user s = Some uid ->
  let db' := snd (Compact.deletePayment s id db) in
  foreign_payments uid db' = foreign_payments uid db
  /\ same_ledger db db'
  /\ users db' = users db.
Proof.
  intros Hs db'. subst db'.
  unfold Compact.deletePayment, Compact.requireAuth. rewrite Hs.
  unfold handle, bind, delete_payments, exec, json, ret. cbn [snd].
  split; [|split; [intros [|]; split; reflexivity | reflexivity]].
  unfold foreign_payments, cascade_payments. cbn [payments set_payments].
  apply filter_filter_same. intros p _ Hforeign.
  apply negb_true_iff. apply andb_false_iff. right.
  now apply negb_true_iff.
Qed.

(** The parent rows of other users are safe in the second server too: its
    delete removes rows of the caller only. *)
Lemma compact_delete_keeps_foreign_parents (sd : side) (s : Session) (uid id : Z)
    (db : DB) :
  session_user s = Some uid ->
  foreign_parties sd uid (snd (Compact.deleteParty sd s id db)) = foreign_parties sd uid db.
Proof.
  intros Hs.
  unfold Compact.deleteParty, Compact.requireAuth. rewrite Hs.
  unfold handle, bind, delete_items_of, delete_parties, exec, json, ret. cbn [snd].
  unfold foreign_parties, cascade_parties.
  assert (Hp : forall l (d : DB),
             parties sd (set_items sd l d) = parties sd d)
    by (intros; destruct sd; reflexivity).
  assert (Hq : forall l (d : DB),
             parties sd (set_parties sd l d) = l)
    by (intros; destruct sd; reflexivity).
  rewrite Hp, Hq, Hp.
  apply filter_filter_same. intros p _ Hforeign.
  apply negb_true_iff. apply andb_false_iff. right. now apply negb_true_iff.
Qed.

End DeleteIsolation.

(** ** Further properties of the routes *)

Import Account Invariants.

(** *** What the read routes depend on *)




Section ReadFacts.
Context `{JsNumber}.


End ReadFacts.



(** *** Writes of server.js *)

Lemma nodup_key_unique {A : Type} (key : A -> Z) (l : list A) (p q : A) :
  NoDup (map key l) -> In p l -> In q l -> key p = key q -> p = q.
Proof.
  induction l as [|x l IH]; intros Hnd Hp Hq Hk; [contradiction|].
  cbn [map] in Hnd. inversion Hnd as [|? ? Hnotin Hnd']; subst.
  destruct Hp as [-> | Hp]; destruct Hq as [-> | Hq]; [reflexivity| | |now apply IH].
  - exfalso. apply Hnotin. rewrite Hk. now apply in_map.
  - exfalso. apply Hnotin. rewrite <- Hk. now apply in_map.
Qed.

Section PaymentWrites.
Context `{JsNumber}.

Lemma serverjs_delete_payment_run (s : Session) (uid id : Z) (db : DB) :
  session_user s = Some uid ->
  ServerJs.deletePayment s id db
  = match select_payment_owned id uid db with
    | [] => (mkResp 404 (JError "Payment not found"), db)
    | _ :: _ =>
        (mkResp 200 (JMessage "Payment deleted successfully"),
         cascade_payments (fun p => payment_id p =? id) db)
    end.
Proof.
  intro Hs. unfold ServerJs.deletePayment, ServerJs.requireAuth. rewrite Hs.
  unfold Http.handle, bind, query. destruct (select_payment_owned id uid db); reflexivity.
Qed.

Lemma serverjs_delete_payment_keeps_foreign_rows (s : Session) (uid id : Z) (db : DB) :
  session_user s = Some uid ->
  NoDup (map payment_id (payments db)) ->
  let db' := snd (ServerJs.deletePayment s id db) in
  foreign_payments uid db' = foreign_payments uid db
  /\ same_ledger db db'
  /\ users db' = users db.
Proof.
  intros Hs Hnd db'. subst db'. rewrite (serverjs_delete_payment_run s uid id db Hs).
  destruct (select_payment_owned id uid db) as [|x xs] eqn:Hown; cbn [snd].
  { split; [reflexivity|]. split; [intros [|]; split; reflexivity|reflexivity]. }
  split; [|split; [intros [|]; split; reflexivity|reflexivity]].
  assert (Hq : exists q, In q (payments db) /\ payment_id q = id /\ payment_user_id q = uid).
  { unfold select_payment_owned in Hown.
    assert (Hin : In x (map payment_id
                          (filter (fun p => (payment_id p =? id) && (payment_user_id p =? uid))
                             (payments db)))) by (rewrite Hown; now left).
    apply in_map_iff in Hin. destruct Hin as [q [_ Hq]].
    apply filter_In in Hq. destruct Hq as [Hq Hc].
    apply andb_true_iff in Hc. destruct Hc as [Hc1 Hc2].
    exists q. split; [exact Hq|]. split; now apply Z.eqb_eq. }
  destruct Hq as [q [Hqin [Hqid Hqu]]].
  unfold foreign_payments, cascade_payments. cbn [payments set_payments].
  apply filter_filter_same. intros p Hp Hforeign.
  apply negb_true_iff. apply Z.eqb_neq. intro Hid.
  assert (p = q) by (apply (nodup_key_unique payment_id (payments db)); congruence).
  subst p. rewrite Hqu, Z.eqb_refl in Hforeign. discriminate.
Qed.

End PaymentWrites.

(** X2: the update and delete routes of server.js write to rows of the
    caller only.  With the primary keys in force, after [PUT] or [DELETE] on
    a creditor or debtor and after [DELETE] on a payment, whatever id the
    path carries, the creditors, debtors and payments of every other user
    and the items under them are what they were, and so is the users
    table. *)
Theorem serverjs_writes_stay_with_owner `{JsNumber} (s : Session) (uid now id : Z)
    (b : PartyBody) (db db' : DB) :
  session_user s = Some uid ->
  (forall sd, NoDup (map party_id (parties sd db))) ->
  NoDup (map payment_id (payments db)) ->
  (exists sd, db' = snd (ServerJs.updateParty sd s now id b db)
              \/ db' = snd (ServerJs.deleteParty sd s id db))
  \/ db' = snd (ServerJs.deletePayment s id db) ->
  (forall sd, foreign_parties sd uid db' = foreign_parties sd uid db
              /\ foreign_items sd uid db' = foreign_items sd uid db)
  /\ foreign_payments uid db' = foreign_payments uid db
  /\ users db' = users db.
Proof.
  intros Hs Hnd Hndp [[sd Hrun] | ->].
  - assert (Hkept : foreign_parties sd uid db' = foreign_parties sd uid db
                    /\ foreign_items sd uid db' = foreign_items sd uid db
                    /\ (forall sd', sd' <> sd ->
                          parties sd' db' = parties sd' db /\ items sd' db' = items sd' db)
                    /\ payments db' = payments db
                    /\ users db' = users db).
    { destruct Hrun as [-> | ->].
      - apply serverjs_update_keeps_foreign_rows; [exact Hs | apply Hnd].
      - apply serverjs_delete_keeps_foreign_rows; [exact Hs | apply Hnd]. }
    destruct Hkept as [Hp [Hi [Hother [Hpay Hu]]]].
    split; [|split; [unfold foreign_payments; now rewrite Hpay | exact Hu]].
    intro sd'.
    assert (Hdec : sd' = sd \/ sd' <> sd) by (destruct sd, sd'; auto; right; discriminate).
    destruct Hdec as [-> | Hne]; [split; assumption|].
    destruct (Hother sd' Hne) as [Hp' Hi'].
    unfold foreign_parties, foreign_items. rewrite Hp', Hi'. split; reflexivity.
  - destruct (serverjs_delete_payment_keeps_foreign_rows s uid id db Hs Hndp)
      as [Hpay [Hsame Hu]].
    split; [|split; assumption].
    intro sd'. destruct (Hsame sd') as [Hp' Hi'].
    unfold foreign_parties, foreign_items. rewrite Hp', Hi'. split; reflexivity.
Qed.

Lemma serverjs_writes_stay_with_owner_witness :
  foreign_items Creditor 2 (snd (ServerJs.deleteParty Creditor bob 1 db0))
  = foreign_items Creditor 2 db0.
Proof.
  destruct (serverjs_writes_stay_with_owner bob 2 0 1 new_body db0
              (snd (ServerJs.deleteParty Creditor bob 1 db0))) as [Hrows _].
  - reflexivity.
  - intros [|]; cbn; repeat constructor; cbn; intuition discriminate.
  - cbn; repeat constructor; cbn; intuition discriminate.
  - left. exists Creditor. right. reflexivity.
  - apply (Hrows Creditor).
Defined.

(** X3: the payment list of a signed-in user holds that user's payments,
    each once and no other; in both servers a later payment date comes
    first, and in server.js payments of one date are ordered by creation
    time, latest first. *)
Theorem payments_listing_order `{JsNumber} (s : Session) (uid : Z) (db : DB) :
  session_user s = Some uid ->
  exists rows1 rows2,
    ServerJs.listPayments s db = (mkResp 200 (JPayments (map payment_view rows1)), db)
    /\ Compact.listPayments s db = (mkResp 200 (JPayments (map payment_view rows2)), db)
    /\ Permutation rows1 (own_payments uid db)
    /\ Permutation rows2 (own_payments uid db)
    /\ StronglySorted later_first rows1
    /\ StronglySorted (fun p q => payment_date q <= payment_date p) rows2.
Proof.
  intro Hs.
  destruct (serverjs_payments_sorted s uid db Hs) as [rows1 [H1 [P1 S1]]].
  destruct (compact_payments_sorted_by_date s uid db Hs) as [rows2 [H2 [P2 S2]]].
  exists rows1, rows2. repeat split; assumption.
Qed.

Lemma payments_listing_order_witness :
  exists rows1 rows2,
    ServerJs.listPayments alice db0 = (mkResp 200 (JPayments (map payment_view rows1)), db0)
    /\ Compact.listPayments alice db0 = (mkResp 200 (JPayments (map payment_view rows2)), db0)
    /\ Permutation rows1 (own_payments 1 db0)
    /\ Permutation rows2 (own_payments 1 db0)
    /\ StronglySorted later_first rows1
    /\ StronglySorted (fun p q => payment_date q <= payment_date p) rows2.
Proof.
  apply (payments_listing_order alice 1 db0). reflexivity.
Defined.

(** *** Creating and deleting creditors and debtors *)

Section CreateFacts.
Context `{JsNumber}.



End CreateFacts.



Lemma filter_ext_in_bool {A : Type} (f g : A -> bool) (l : list A) :
  (forall x, In x l -> f x = g x) -> filter f l = filter g l.
Proof.
  induction l as [|x l IH]; intro Hfg; [reflexivity|].
  cbn [filter]. rewrite (Hfg x (or_introl eq_refl)), IH; [reflexivity|].
  intros y Hy. apply Hfg. now right.
Qed.

Lemma filter_everything {A : Type} (f : A -> bool) (l : list A) :
  (forall x, In x l -> f x = true) -> filter f l = l.
Proof.
  induction l as [|x l IH]; intro Hf; [reflexivity|].
  cbn [filter]. rewrite (Hf x (or_introl eq_refl)), IH; [reflexivity|].
  intros y Hy. apply Hf. now right.
Qed.

Section DeleteFacts.
Context `{JsNumber}.

(** What is left of the two tables of a side once the item rows under [id]
    and the parent rows with that id are gone. *)
Lemma cascade_after_items (sd : side) (id : Z) (cond : PartyRow -> bool) (db : DB) :
  (forall p, In p (parties sd db) -> cond p = (party_id p =? id)) ->
  let db' := cascade_parties sd cond
               (set_items sd (filter (fun i => negb (parent_id i =? id)) (items sd db)) db) in
  parties sd db' = filter (fun p => negb (party_id p =? id)) (parties sd db)
  /\ items sd db' = filter (fun i => negb (parent_id i =? id)) (items sd db).
Proof.
  intros Hcond db'. subst db'.
  set (db1 := set_items sd _ db).
  assert (Hp1 : parties sd db1 = parties sd db) by (subst db1; destruct sd; reflexivity).
  assert (Hi1 : items sd db1 = filter (fun i => negb (parent_id i =? id)) (items sd db))
    by (subst db1; destruct sd; reflexivity).
  assert (Hp : parties sd (cascade_parties sd cond db1)
               = filter (fun p => negb (cond p)) (parties sd db1))
    by (unfold cascade_parties; destruct sd; reflexivity).
  assert (Hi : items sd (cascade_parties sd cond db1)
               = filter (fun i => negb (existsb (Z.eqb (parent_id i))
                                          (map party_id (filter cond (parties sd db1)))))
                   (items sd db1))
    by (unfold cascade_parties; destruct sd; reflexivity).
  rewrite Hp, Hi, Hp1, Hi1. split.
  - apply filter_ext_in_bool. intros p Hin. now rewrite Hcond.
  - apply filter_everything. intros i Hin. apply filter_In in Hin.
    destruct Hin as [_ Hpar].
    apply negb_true_iff in Hpar. apply Z.eqb_neq in Hpar.
    apply negb_true_iff.
    destruct (existsb _ _) eqn:Hex; [|reflexivity].
    apply existsb_exists in Hex. destruct Hex as [x [Hx Heq]].
    apply Z.eqb_eq in Heq. apply in_map_iff in Hx. destruct Hx as [p [Hpx Hpin]].
    apply filter_In in Hpin. destruct Hpin as [Hpin Hc].
    rewrite (Hcond p Hpin) in Hc. apply Z.eqb_eq in Hc. congruence.
Qed.

Lemma delete_owned_run (sd : side) (s : Session) (uid id : Z) (db db' : DB) (r : response) :
  session_user s = Some uid ->
  NoDup (map party_id (parties sd db)) ->
  select_party_owned sd id uid db <> [] ->
  ServerJs.deleteParty sd s id db = (r, db')
  \/ Compact.deleteParty sd s id db = (r, db') ->
  code r = 200
  /\ parties sd db' = filter (fun p => negb (party_id p =? id)) (parties sd db)
  /\ items sd db' = filter (fun i => negb (parent_id i =? id)) (items sd db).
Proof.
  intros Hs Hnd Hown [Hrun|Hrun].
  - unfold ServerJs.deleteParty, ServerJs.requireAuth in Hrun. rewrite Hs in Hrun.
    unfold Http.handle, bind, query in Hrun.
    destruct (select_party_owned sd id uid db) as [|c cs]; [now contradiction Hown|].
    unfold delete_items_of, delete_parties, exec, json, ret in Hrun.
    injection Hrun as <- <-. split; [reflexivity|].
    apply cascade_after_items. reflexivity.
  - unfold Compact.deleteParty, Compact.requireAuth in Hrun. rewrite Hs in Hrun.
    unfold Http.handle, bind, delete_items_of, delete_parties, exec, json, ret in Hrun.
    injection Hrun as <- <-. split; [reflexivity|].
    apply cascade_after_items. intros p Hin.
    destruct (party_id p =? id) eqn:Hid; [|reflexivity].
    apply Z.eqb_eq in Hid.
    rewrite (owned_id_has_one_owner sd id uid db p Hnd Hown Hin Hid). apply Z.eqb_refl.
Qed.

End DeleteFacts.

(** X5: deleting a creditor or debtor the caller owns, in either server,
    removes its row and every item under it; the list route afterwards
    shows the caller's other records exactly as before and no longer shows
    the deleted one. *)
Theorem delete_then_list `{JsNumber} (sd : side) (s : Session) (uid id : Z)
    (db db' : DB) (r : response) :
  session_user s = Some uid ->
  NoDup (map party_id (parties sd db)) ->
  select_party_owned sd id uid db <> [] ->
  ServerJs.deleteParty sd s id db = (r, db')
  \/ Compact.deleteParty sd s id db = (r, db') ->
  code r = 200
  /\ items_under sd id db' = []
  /\ (forall p, In p (parties sd db') <-> In p (parties sd db) /\ party_id p <> id)
  /\ exists views views',
       fst (ServerJs.listParties sd s db) = mkResp 200 (JParties views)
       /\ fst (ServerJs.listParties sd s db') = mkResp 200 (JParties views')
       /\ (forall v, In v views' <-> In v views /\ party_id (pv_row v) <> id).
Proof.
  intros Hs Hnd Hown Hrun.
  destruct (delete_owned_run sd s uid id db db' r Hs Hnd Hown Hrun) as [Hcode [Hp Hi]].
  assert (Hpin : forall p, In p (parties sd db') <-> In p (parties sd db) /\ party_id p <> id).
  { intro p. rewrite Hp, filter_In, negb_true_iff, Z.eqb_neq. reflexivity. }
  assert (Hview : forall c, party_id c <> id -> view_of sd db' c = view_of sd db c).
  { intros c Hc. unfold view_of, select_items_of. rewrite Hi.
    rewrite (filter_filter_same (fun i => parent_id i =? party_id c)); [reflexivity|].
    intros i _ Hpar. apply Z.eqb_eq in Hpar. apply negb_true_iff. apply Z.eqb_neq.
    congruence. }
  split; [exact Hcode|]. split.
  { unfold items_under. rewrite Hi. apply filter_none_left. }
  split; [exact Hpin|].
  exists (map (view_of sd db) (select_parties_of_user sd uid db)),
    (map (view_of sd db') (select_parties_of_user sd uid db')).
  unfold ServerJs.listParties, ServerJs.requireAuth. rewrite Hs, !list_parties_reads.
  split; [reflexivity|]. split; [reflexivity|].
  intro v. rewrite !in_map_iff. split.
  - intros [c [<- Hc]]. unfold select_parties_of_user in Hc.
    apply order_by_In in Hc. apply filter_In in Hc. destruct Hc as [Hc Hu].
    apply Hpin in Hc. destruct Hc as [Hc Hne].
    split; [|now rewrite (Hview c Hne)].
    exists c. split; [symmetry; now apply Hview|].
    unfold select_parties_of_user. apply order_by_In. apply filter_In. now split.
  - intros [[c [<- Hc]] Hne]. cbn [view_of pv_row] in Hne.
    exists c. split; [now apply Hview|].
    unfold select_parties_of_user in *. apply order_by_In in Hc.
    apply filter_In in Hc. destruct Hc as [Hc Hu].
    apply order_by_In. apply filter_In. split; [|exact Hu].
    apply Hpin. now split.
Qed.

Lemma delete_then_list_witness :
  items_under Creditor 1 (snd (Compact.deleteParty Creditor alice 1 db0)) = [].
Proof.
  destruct (delete_then_list Creditor alice 1 1 db0
              (snd (Compact.deleteParty Creditor alice 1 db0))
              (fst (Compact.deleteParty Creditor alice 1 db0))) as [_ [Hnone _]].
  - reflexivity.
  - cbn; repeat constructor; cbn; intuition discriminate.
  - discriminate.
  - right. reflexivity.
  - exact Hnone.
Defined.



(** *** The gates in front of the routes *)

Import AccountFixture.

(** X7: without a signed-in user no route behind [requireAuth] runs: every
    creditor, debtor, payment, dashboard, password and profile route of both
    servers answers 401 and leaves the store, and the session, as they
    were. *)
Theorem no_session_no_route `{JsNumber} `{Bcrypt} (s : Session) (sd : side) (now id : Z)
    (b : PartyBody) (pb : PaymentBody) (salt : string)
    (cur new full_name phone address : option string) :
  session_user s = None ->
  refuses 401 (ServerJs.listParties sd s)
  /\ refuses 401 (ServerJs.createParty sd s now b)
  /\ refuses 401 (ServerJs.updateParty sd s now id b)
  /\ refuses 401 (ServerJs.deleteParty sd s id)
  /\ refuses 401 (ServerJs.listPayments s)
  /\ refuses 401 (ServerJs.recordPayment s now pb)
  /\ refuses 401 (ServerJs.deletePayment s id)
  /\ refuses 401 (ServerJs.dashboardStats s)
  /\ refuses 401 (ServerJs.changePassword s salt cur new)
  /\ refuses 401 (ServerJs.forceChangePassword s salt new)
  /\ refuses_reply 401 (ServerJsAccount.getProfile s)
  /\ refuses_reply 401 (ServerJsAccount.updateProfile s full_name phone address)
  /\ refuses 401 (Compact.listParties sd s)
  /\ refuses 401 (Compact.createParty sd s now b)
  /\ refuses 401 (Compact.updateParty sd s now id b)
  /\ refuses 401 (Compact.deleteParty sd s id)
  /\ refuses 401 (Compact.listPayments s)
  /\ refuses 401 (Compact.recordPayment s now pb)
  /\ refuses 401 (Compact.deletePayment s id)
  /\ refuses 401 (Compact.dashboardStats s)
  /\ refuses_session 401 s (Compact.changePassword s salt cur new)
  /\ refuses_session 401 s (Compact.forceChangePassword s salt new)
  /\ refuses_reply 401 (CompactAccount.getProfile s)
  /\ refuses_reply 401 (CompactAccount.updateProfile s full_name phone address).
Proof.
  intro Hs.
  unfold refuses, refuses_reply, refuses_session,
    ServerJs.listParties, ServerJs.createParty, ServerJs.updateParty, ServerJs.deleteParty,
    ServerJs.listPayments, ServerJs.recordPayment, ServerJs.deletePayment,
    ServerJs.dashboardStats, ServerJs.changePassword, ServerJs.forceChangePassword,
    ServerJsAccount.getProfile, ServerJsAccount.updateProfile,
    Compact.listParties, Compact.createParty, Compact.updateParty, Compact.deleteParty,
    Compact.listPayments, Compact.recordPayment, Compact.deletePayment,
    Compact.dashboardStats, Compact.changePassword, Compact.forceChangePassword,
    CompactAccount.getProfile, CompactAccount.updateProfile,
    ServerJs.requireAuth, Compact.requireAuth, ServerJsAccount.requireAuth,
    CompactAccount.requireAuth.
  rewrite Hs. repeat split.
Qed.

Lemma no_session_no_route_witness :
  refuses 401 (ServerJs.deleteParty Creditor no_session 1)
  /\ refuses 401 (Compact.updateParty Creditor no_session 0 1 new_body).
Proof.
  destruct (no_session_no_route no_session Creditor 0 1 new_body
              (mkPaymentBody None None None None None None None) "salt"
              None None None None None eq_refl)
    as [_ [_ [_ [H1 [_ [_ [_ [_ [_ [_ [_ [_ [_ [_ [H2 _]]]]]]]]]]]]]]].
  split; [exact H1 | exact H2].
Defined.

(** X8: a session that is not an administrator's reaches no admin route:
    listing, creating, updating and deleting users and resetting a password
    answer 403 in both servers and write nothing. *)
Theorem not_admin_no_admin_route `{JsNumber} `{Bcrypt} `{Casing} (s : Session) (now id : Z)
    (salt : string) (username email password full_name phone address : option string)
    (is_admin : option bool) :
  isAdmin s = false ->
  refuses_reply 403 (ServerJsAccount.listUsers s)
  /\ refuses_reply 403
       (ServerJsAccount.createUser s now salt username email password full_name phone
          address is_admin)
  /\ refuses_reply 403
       (ServerJsAccount.updateUser s id full_name email phone address is_admin)
  /\ refuses_reply 403 (ServerJsAccount.resetPassword s id salt password)
  /\ refuses 403 (ServerJs.deleteUser s id)
  /\ refuses_reply 403 (CompactAccount.listUsers s)
  /\ refuses_reply 403
       (CompactAccount.createUser s now salt username email password full_name phone
          address is_admin)
  /\ refuses_reply 403
       (CompactAccount.updateUser s id full_name email phone address is_admin)
  /\ refuses_reply 403 (CompactAccount.resetPassword s id salt)
  /\ refuses 403 (Compact.deleteUser s id).
Proof.
  intro Ha.
  unfold refuses, refuses_reply,
    ServerJsAccount.listUsers, ServerJsAccount.createUser, ServerJsAccount.updateUser,
    ServerJsAccount.resetPassword, ServerJs.deleteUser,
    CompactAccount.listUsers, CompactAccount.createUser, CompactAccount.updateUser,
    CompactAccount.resetPassword, Compact.deleteUser,
    ServerJsAccount.requireAdmin, ServerJs.requireAdmin, CompactAccount.requireAdmin,
    Compact.requireAdmin.
  rewrite Ha. destruct (session_user s); repeat split.
Qed.

Lemma not_admin_no_admin_route_witness :
  refuses 403 (ServerJs.deleteUser bob 1)
  /\ refuses_reply 403 (CompactAccount.resetPassword bob 1 "salt").
Proof.
  destruct (not_admin_no_admin_route bob 0 1 "salt" None None None None None None None
              eq_refl)
    as [_ [_ [_ [_ [H1 [_ [_ [_ [H2 _]]]]]]]]].
  split; [exact H1 | exact H2].
Defined.

(** *** The keys of the ledger tables *)

Section Keeps.
Context {P : DB -> Prop}.

Lemma keeps_ret {A : Type} (a : A) : keeps P (ret a).
Proof. intros db HP. exact HP. Qed.

Lemma keeps_throw {A : Type} (m : string) : keeps P (@throw A m).
Proof. intros db HP. exact HP. Qed.

Lemma keeps_query {A : Type} (f : DB -> A) : keeps P (query f).
Proof. intros db HP. exact HP. Qed.

Lemma keeps_bind {A B : Type} (c : Q A) (k : A -> Q B) :
  keeps P c -> (forall a, keeps P (k a)) -> keeps P (bind c k).
Proof.
  intros Hc Hk db HP. unfold bind. specialize (Hc db HP).
  destruct (c db) as [[a|m] db1]; cbn [snd] in *; [now apply Hk | exact Hc].
Qed.

Lemma keeps_for_each {A : Type} (f : A -> Q unit) (l : list A) :
  (forall x, keeps P (f x)) -> keeps P (for_each f l).
Proof.
  intro Hf. induction l as [|x l IH]; [apply keeps_ret|].
  cbn [for_each]. apply keeps_bind; [apply Hf | intros _; exact IH].
Qed.

Lemma keeps_handle `{JsNumber} (h : Q response) (db : DB) :
  keeps P h -> P db -> P (snd (Http.handle h db)).
Proof.
  intros Hh HP. unfold Http.handle. specialize (Hh db HP).
  destruct (h db) as [[r|m] db1]; exact Hh.
Qed.

Lemma keeps_handle_reply (h : Q reply) (db : DB) :
  keeps P h -> P db -> P (snd (Account.handle h db)).
Proof.
  intros Hh HP. unfold Account.handle. specialize (Hh db HP).
  destruct (h db) as [[r|m] db1]; exact Hh.
Qed.

End Keeps.

Lemma tables_ok_bump_parties ps its sp si :
  tables_ok ps its sp si -> tables_ok ps its (sp + 1) si.
Proof.
  intros [H1 [H2 [H3 [H4 H5]]]]. repeat split; try assumption.
  intros p Hp. specialize (H2 p Hp). lia.
Qed.

Lemma tables_ok_bump_items ps its sp si :
  tables_ok ps its sp si -> tables_ok ps its sp (si + 1).
Proof.
  intros [H1 [H2 [H3 [H4 H5]]]]. repeat split; try assumption.
  intros i Hi. specialize (H4 i Hi). lia.
Qed.

Lemma nodup_snoc_fresh {A : Type} (key : A -> Z) (l : list A) (x : A) (n : Z) :
  NoDup (map key l) -> (forall y, In y l -> key y < n) -> key x = n ->
  NoDup (map key (l ++ [x])).
Proof.
  intros Hnd Hlt Hx. rewrite map_app. cbn [map].
  apply NoDup_app; [exact Hnd | repeat constructor; intros [] |].
  intros k Hk [<- | []]. apply in_map_iff in Hk. destruct Hk as [y [Hy Hin]].
  specialize (Hlt y Hin). lia.
Qed.

Lemma tables_ok_add_party ps its sp si (row : PartyRow) :
  party_id row = sp ->
  tables_ok ps its sp si -> tables_ok (ps ++ [row]) its (sp + 1) si.
Proof.
  intros Hid [H1 [H2 [H3 [H4 H5]]]]. repeat split; try assumption.
  - now apply nodup_snoc_fresh with (n := sp).
  - intros p Hp. apply in_app_or in Hp. destruct Hp as [Hp | [<- | []]].
    + specialize (H2 p Hp). lia.
    + lia.
  - intros i Hi. rewrite existsb_app, (H5 i Hi). reflexivity.
Qed.

Lemma tables_ok_add_item ps its sp si (row : ItemRow) :
  item_id row = si ->
  existsb (fun p => party_id p =? parent_id row) ps = true ->
  tables_ok ps its sp si -> tables_ok ps (its ++ [row]) sp (si + 1).
Proof.
  intros Hid Hex [H1 [H2 [H3 [H4 H5]]]]. repeat split; try assumption.
  - now apply nodup_snoc_fresh with (n := si).
  - intros i Hi. apply in_app_or in Hi. destruct Hi as [Hi | [<- | []]].
    + specialize (H4 i Hi). lia.
    + lia.
  - intros i Hi. apply in_app_or in Hi. destruct Hi as [Hi | [<- | []]].
    + now apply H5.
    + exact Hex.
Qed.

Lemma nodup_map_filter {A : Type} (key : A -> Z) (f : A -> bool) (l : list A) :
  NoDup (map key l) -> NoDup (map key (filter f l)).
Proof.
  induction l as [|x l IH]; intro Hnd; [constructor|].
  cbn [map] in Hnd. inversion Hnd as [|? ? Hnotin Hnd']; subst.
  cbn [filter]. destruct (f x); [|now apply IH].
  cbn [map]. constructor; [|now apply IH].
  intro Hin. apply Hnotin. apply in_map_iff in Hin. destruct Hin as [y [Hy Hin]].
  apply filter_In in Hin. rewrite <- Hy. apply in_map. apply Hin.
Qed.

Lemma tables_ok_filter_items ps its sp si (f : ItemRow -> bool) :
  tables_ok ps its sp si -> tables_ok ps (filter f its) sp si.
Proof.
  intros [H1 [H2 [H3 [H4 H5]]]]. repeat split; try assumption.
  - now apply nodup_map_filter.
  - intros i Hi. apply filter_In in Hi. now apply H4.
  - intros i Hi. apply filter_In in Hi. now apply H5.
Qed.

Lemma tables_ok_update_parties ps its sp si (g : PartyRow -> PartyRow) :
  (forall p, party_id (g p) = party_id p) ->
  tables_ok ps its sp si -> tables_ok (map g ps) its sp si.
Proof.
  intros Hg [H1 [H2 [H3 [H4 H5]]]]. repeat split; try assumption.
  - rewrite map_map. rewrite (map_ext _ party_id); assumption.
  - intros p Hp. apply in_map_iff in Hp. destruct Hp as [q [<- Hq]].
    rewrite Hg. now apply H2.
  - intros i Hi. rewrite existsb_map_same; [now apply H5|].
    intro p. now rewrite Hg.
Qed.

Lemma tables_ok_cascade ps its sp si (cond : PartyRow -> bool) :
  tables_ok ps its sp si ->
  tables_ok (filter (fun p => negb (cond p)) ps)
    (filter (fun i => negb (existsb (Z.eqb (parent_id i)) (map party_id (filter cond ps))))
       its) sp si.
Proof.
  intros [H1 [H2 [H3 [H4 H5]]]]. repeat split.
  - now apply nodup_map_filter.
  - intros p Hp. apply filter_In in Hp. now apply H2.
  - now apply nodup_map_filter.
  - intros i Hi. apply filter_In in Hi. now apply H4.
  - intros i Hi. apply filter_In in Hi. destruct Hi as [Hi Hkeep].
    apply negb_true_iff in Hkeep.
    specialize (H5 i Hi). apply existsb_exists in H5. destruct H5 as [p [Hp Hid]].
    apply existsb_exists. exists p. split; [|exact Hid].
    apply filter_In. split; [exact Hp|].
    destruct (cond p) eqn:Hc; [|reflexivity].
    exfalso. apply Z.eqb_eq in Hid.
    assert (Hgone : existsb (Z.eqb (parent_id i)) (map party_id (filter cond ps)) = true).
    { apply existsb_exists. exists (party_id p). split.
      - apply in_map. apply filter_In. now split.
      - apply Z.eqb_eq. now symmetry. }
    rewrite Hgone in Hkeep. discriminate.
Qed.

(** Each statement on the ledger tables keeps their keys. *)

Lemma insert_party_keeps (sd : side) (now uid : Z) (fn : option string) (ct g l : string) :
  keeps ledger_ok (insert_party sd now uid fn ct g l).
Proof.
  intros db Hok sd'. specialize (Hok sd'). unfold insert_party.
  destruct fn as [n|]; [destruct (exists_user uid db)|]; cbn [snd];
    destruct sd, sd'; cbn in *;
    first [ exact Hok
          | apply tables_ok_add_party; [reflexivity | exact Hok]
          | apply tables_ok_bump_parties; exact Hok ].
Qed.

Lemma insert_item_keeps (sd : side) (now pid : Z) (r : string) (a : decimal)
    (di du : option Z) (st nt : string) :
  keeps ledger_ok (insert_item sd now pid r a di du st nt).
Proof.
  intros db Hok sd'. specialize (Hok sd'). unfold insert_item.
  destruct (exists_party sd pid db) eqn:Hex; cbn [snd]; unfold exists_party in Hex;
    destruct sd, sd'; cbn in *;
    first [ exact Hok
          | apply tables_ok_add_item; [reflexivity | exact Hex | exact Hok]
          | apply tables_ok_bump_items; exact Hok ].
Qed.

Lemma update_parties_keeps (sd : side) (cond : PartyRow -> bool) (fn : option string)
    (ct g l : string) :
  keeps ledger_ok (update_parties sd cond fn ct g l).
Proof.
  intros db Hok sd'. specialize (Hok sd'). unfold update_parties.
  destruct fn as [n|]; [|destruct (existsb cond (parties sd db))]; cbn [snd];
    try exact Hok;
    destruct sd, sd'; cbn in *;
    first [ exact Hok
          | apply tables_ok_update_parties;
            [intro p; destruct (cond p); reflexivity | exact Hok] ].
Qed.

Lemma delete_items_of_keeps (sd : side) (pid : Z) : keeps ledger_ok (delete_items_of sd pid).
Proof.
  intros db Hok sd'. specialize (Hok sd'). unfold delete_items_of, exec. cbn [snd].
  destruct sd, sd'; cbn in *;
    first [ exact Hok | apply tables_ok_filter_items; exact Hok ].
Qed.

Lemma cascade_parties_keeps (sd : side) (cond : PartyRow -> bool) (db : DB) :
  ledger_ok db -> ledger_ok (cascade_parties sd cond db).
Proof.
  intros Hok sd'. specialize (Hok sd'). unfold cascade_parties.
  destruct sd, sd'; cbn in *;
    first [ exact Hok | apply tables_ok_cascade; exact Hok ].
Qed.

Lemma insert_items_keeps (sd : side) (now pid : Z) (its : option (list ItemInput)) :
  keeps ledger_ok (insert_items sd now pid its).
Proof.
  unfold insert_items. destruct its as [[|x l]|]; try apply keeps_ret.
  apply keeps_for_each. intro item. apply insert_item_keeps.
Qed.

Lemma delete_parties_keeps (sd : side) (cond : PartyRow -> bool) :
  keeps ledger_ok (delete_parties sd cond).
Proof. intros db Hok. apply cascade_parties_keeps. exact Hok. Qed.

Lemma delete_user_keeps (id : Z) : keeps ledger_ok (delete_user id).
Proof.
  intros db Hok. unfold delete_user, exec. cbn [snd].
  assert (H0 : ledger_ok (set_users (filter (fun u => negb (user_id u =? id)) (users db)) db)).
  { intro sd. specialize (Hok sd). destruct sd; exact Hok. }
  apply (cascade_parties_keeps Creditor (fun p => party_user_id p =? id)) in H0.
  apply (cascade_parties_keeps Debtor (fun p => party_user_id p =? id)) in H0.
  intro sd. specialize (H0 sd). destruct sd; exact H0.
Qed.

(** X9: the primary keys and the foreign key of the creditor, debtor and item
    tables hold after every route that writes to them, in both servers and
    on every outcome, a refusal by the store half-way through included: ids
    stay distinct and below their sequence, and every item row has its
    parent row. *)
Theorem ledger_keys_are_kept `{JsNumber} (s : Session) (sd : side) (now id : Z)
    (b : PartyBody) (db db' : DB) :
  ledger_ok db ->
  db' = snd (ServerJs.createParty sd s now b db)
  \/ db' = snd (ServerJs.updateParty sd s now id b db)
  \/ db' = snd (ServerJs.deleteParty sd s id db)
  \/ db' = snd (ServerJs.deleteUser s id db)
  \/ db' = snd (Compact.createParty sd s now b db)
  \/ db' = snd (Compact.updateParty sd s now id b db)
  \/ db' = snd (Compact.deleteParty sd s id db)
  \/ db' = snd (Compact.deleteUser s id db) ->
  ledger_ok db'.
Proof.
  intros Hok Hrun.
  assert (Hitems : forall pid (k : Q response),
             keeps ledger_ok k ->
             keeps ledger_ok (bind (insert_items sd now pid (b_items b)) (fun _ => k))).
  { intros pid k Hk. apply keeps_bind; [apply insert_items_keeps | intros _; exact Hk]. }
  assert (Hjson : forall body, keeps ledger_ok (json body)) by (intro; apply keeps_ret).
  destruct Hrun as [-> | [-> | [-> | [-> | [-> | [-> | [-> | ->]]]]]]].
  - unfold ServerJs.createParty, ServerJs.requireAuth.
    destruct (session_user s); [|exact Hok].
    apply keeps_handle; [|exact Hok].
    apply keeps_bind; [apply insert_party_keeps|]. intro pid. now apply Hitems.
  - unfold ServerJs.updateParty, ServerJs.requireAuth.
    destruct (session_user s); [|exact Hok].
    apply keeps_handle; [|exact Hok].
    apply keeps_bind; [apply keeps_query|]. intros [|c cs]; [apply keeps_ret|].
    apply keeps_bind; [apply update_parties_keeps|]. intros _.
    apply keeps_bind; [apply delete_items_of_keeps|]. intros _. now apply Hitems.
  - unfold ServerJs.deleteParty, ServerJs.requireAuth.
    destruct (session_user s); [|exact Hok].
    apply keeps_handle; [|exact Hok].
    apply keeps_bind; [apply keeps_query|]. intros [|c cs]; [apply keeps_ret|].
    apply keeps_bind; [apply delete_items_of_keeps|]. intros _.
    apply keeps_bind; [apply delete_parties_keeps|]. intros _. apply Hjson.
  - unfold ServerJs.deleteUser, ServerJs.requireAdmin.
    destruct (session_user s) as [uid|]; [|exact Hok].
    destruct (isAdmin s); [|exact Hok].
    apply keeps_handle; [|exact Hok].
    destruct (id =? uid); [apply keeps_ret|].
    apply keeps_bind; [apply delete_user_keeps|]. intros _. apply Hjson.
  - unfold Compact.createParty, Compact.requireAuth.
    destruct (session_user s); [|exact Hok].
    apply keeps_handle; [|exact Hok].
    apply keeps_bind; [apply insert_party_keeps|]. intro pid. now apply Hitems.
  - unfold Compact.updateParty, Compact.requireAuth.
    destruct (session_user s); [|exact Hok].
    apply keeps_handle; [|exact Hok].
    apply keeps_bind; [apply update_parties_keeps|]. intros _.
    apply keeps_bind; [apply delete_items_of_keeps|]. intros _. now apply Hitems.
  - unfold Compact.deleteParty, Compact.requireAuth.
    destruct (session_user s); [|exact Hok].
    apply keeps_handle; [|exact Hok].
    apply keeps_bind; [apply delete_items_of_keeps|]. intros _.
    apply keeps_bind; [apply delete_parties_keeps|]. intros _. apply Hjson.
  - unfold Compact.deleteUser, Compact.requireAdmin.
    destruct (session_user s) as [uid|]; [|exact Hok].
    destruct (isAdmin s); [|exact Hok].
    apply keeps_handle; [|exact Hok].
    destruct (id =? uid); [apply keeps_ret|].
    apply keeps_bind; [apply delete_user_keeps|]. intros _. apply Hjson.
Qed.

Lemma db0_ledger_ok : ledger_ok db0.
Proof.
  intros [|]; repeat split; cbn;
    try (repeat constructor; cbn; intuition discriminate);
    intros x Hx; repeat (destruct Hx as [<- | Hx]; [cbn; first [lia | reflexivity]|]);
    contradiction.
Qed.

Lemma ledger_keys_are_kept_witness :
  ledger_ok (snd (Compact.updateParty Creditor bob 999 1 new_body db0)).
Proof.
  apply (ledger_keys_are_kept bob Creditor 999 1 new_body db0).
  - exact db0_ledger_ok.
  - right. right. right. right. right. left. reflexivity.
Defined.

(** *** Which tables a route can write to *)

Section UsersFrame.
Variable U : list UserRow.

Lemma ledger_statements_keep_users (sd : side) (now n : Z) :
  (forall fn ct g l, keeps (users_are U) (insert_party sd now n fn ct g l))
  /\ (forall r a di du st nt, keeps (users_are U) (insert_item sd now n r a di du st nt))
  /\ (forall cond fn ct g l, keeps (users_are U) (update_parties sd cond fn ct g l))
  /\ keeps (users_are U) (delete_items_of sd n)
  /\ (forall cond, keeps (users_are U) (delete_parties sd cond))
  /\ (forall ty rel a d m rf nt, keeps (users_are U) (insert_payment now n ty rel a d m rf nt))
  /\ (forall cond, keeps (users_are U) (delete_payments cond)).
Proof.
  unfold keeps, users_are.
  split; [|split; [|split; [|split; [|split; [|split]]]]].
  - intros fn ct g l db HU. unfold insert_party.
    destruct fn; [destruct (exists_user n db)|]; destruct sd; exact HU.
  - intros r a di du st nt db HU. unfold insert_item.
    destruct (exists_party sd n db); destruct sd; exact HU.
  - intros cond fn ct g l db HU. unfold update_parties.
    destruct fn; [|destruct (existsb cond (parties sd db))]; destruct sd; exact HU.
  - intros db HU. destruct sd; exact HU.
  - intros cond db HU. destruct sd; exact HU.
  - intros ty rel a d m rf nt db HU. unfold insert_payment.
    destruct ty; destruct a; try destruct (exists_user n db); exact HU.
  - intros cond db HU. exact HU.
Qed.

Lemma insert_items_keeps_users (sd : side) (now pid : Z) (its : option (list ItemInput)) :
  keeps (users_are U) (insert_items sd now pid its).
Proof.
  unfold insert_items. destruct its as [[|x l]|]; try apply keeps_ret.
  apply keeps_for_each. intro item. unfold insert_item_of.
  apply (ledger_statements_keep_users sd now pid).
Qed.

End UsersFrame.

(** X10: no creditor, debtor, payment or dashboard route of either server
    writes to the users table: names, emails, password hashes and the
    administrator and must-change flags are as before after every one of
    them, whatever the request carries. *)
Theorem ledger_routes_leave_users_alone `{JsNumber} (s : Session) (sd : side) (now id : Z)
    (b : PartyBody) (pb : PaymentBody) (db db' : DB) :
  db' = snd (ServerJs.listParties sd s db)
  \/ db' = snd (ServerJs.createParty sd s now b db)
  \/ db' = snd (ServerJs.updateParty sd s now id b db)
  \/ db' = snd (ServerJs.deleteParty sd s id db)
  \/ db' = snd (ServerJs.listPayments s db)
  \/ db' = snd (ServerJs.recordPayment s now pb db)
  \/ db' = snd (ServerJs.deletePayment s id db)
  \/ db' = snd (ServerJs.dashboardStats s db)
  \/ db' = snd (Compact.listParties sd s db)
  \/ db' = snd (Compact.createParty sd s now b db)
  \/ db' = snd (Compact.updateParty sd s now id b db)
  \/ db' = snd (Compact.deleteParty sd s id db)
  \/ db' = snd (Compact.listPayments s db)
  \/ db' = snd (Compact.recordPayment s now pb db)
  \/ db' = snd (Compact.deletePayment s id db)
  \/ db' = snd (Compact.dashboardStats s db) ->
  users db' = users db.
Proof.
  intro Hrun.
  pose (P := users_are (users db)).
  assert (HP : P db) by reflexivity.
  assert (Hst : forall sd' n,
             (forall fn ct g l, keeps P (insert_party sd' now n fn ct g l))
             /\ (forall r a di du st nt, keeps P (insert_item sd' now n r a di du st nt))
             /\ (forall cond fn ct g l, keeps P (update_parties sd' cond fn ct g l))
             /\ keeps P (delete_items_of sd' n)
             /\ (forall cond, keeps P (delete_parties sd' cond))
             /\ (forall ty rel a d m rf nt, keeps P (insert_payment now n ty rel a d m rf nt))
             /\ (forall cond, keeps P (delete_payments cond)))
    by (intros; apply ledger_statements_keep_users).
  assert (Hitems : forall pid (k : Q response),
             keeps P k -> keeps P (bind (insert_items sd now pid (b_items b)) (fun _ => k))).
  { intros pid k Hk. apply keeps_bind; [apply insert_items_keeps_users | intros _; exact Hk]. }
  assert (Hjson : forall body, keeps P (json body)) by (intro; apply (@keeps_ret P)).
  change (P db').
  destruct Hrun as
    [-> | [-> | [-> | [-> | [-> | [-> | [-> | [-> |
     [-> | [-> | [-> | [-> | [-> | [-> | [-> | ->]]]]]]]]]]]]]]];
    unfold ServerJs.listParties, ServerJs.createParty, ServerJs.updateParty,
      ServerJs.deleteParty, ServerJs.listPayments, ServerJs.recordPayment,
      ServerJs.deletePayment, ServerJs.dashboardStats,
      Compact.listParties, Compact.createParty, Compact.updateParty, Compact.deleteParty,
      Compact.listPayments, Compact.recordPayment, Compact.deletePayment,
      Compact.dashboardStats, ServerJs.requireAuth, Compact.requireAuth;
    (destruct (session_user s) as [uid|]; [|exact HP]);
    try (rewrite list_parties_reads; exact HP);
    try exact HP;
    (apply keeps_handle; [|exact HP]).
  - apply keeps_bind; [apply (Hst sd uid)|]. intro pid. now apply Hitems.
  - apply keeps_bind; [apply keeps_query|]. intros [|c cs]; [apply (@keeps_ret P)|].
    apply keeps_bind; [apply (Hst sd id)|]. intros _.
    apply keeps_bind; [apply (Hst sd id)|]. intros _. now apply Hitems.
  - apply keeps_bind; [apply keeps_query|]. intros [|c cs]; [apply (@keeps_ret P)|].
    apply keeps_bind; [apply (Hst sd id)|]. intros _.
    apply keeps_bind; [apply (Hst sd id)|]. intros _. apply Hjson.
  - apply keeps_bind; [apply (Hst sd uid)|]. intros pid. apply Hjson.
  - apply keeps_bind; [apply keeps_query|]. intros [|c cs]; [apply (@keeps_ret P)|].
    apply keeps_bind; [apply (Hst sd id)|]. intros _. apply Hjson.
  - apply keeps_bind; [apply (Hst sd uid)|]. intro pid. now apply Hitems.
  - apply keeps_bind; [apply (Hst sd id)|]. intros _.
    apply keeps_bind; [apply (Hst sd id)|]. intros _. now apply Hitems.
  - apply keeps_bind; [apply (Hst sd id)|]. intros _.
    apply keeps_bind; [apply (Hst sd id)|]. intros _. apply Hjson.
  - apply keeps_bind; [apply (Hst sd uid)|]. intros pid. apply Hjson.
Qed.

Lemma ledger_routes_leave_users_alone_witness :
  users (snd (Compact.updateParty Creditor bob 999 1 new_body db0)) = users db0.
Proof.
  apply (ledger_routes_leave_users_alone bob Creditor 999 1 new_body
           (mkPaymentBody None None None None None None None) db0).
  do 10 right. left. reflexivity.
Defined.

(** *** Signing in *)

Section LoginFacts.
Context `{Bcrypt} `{Casing}.

Lemma login_granted_intro (now : Z) (p : string) (db : DB) (user : UserRow) (r : reply)
    (s' : Session) :
  In user (users db) ->
  bcrypt_compare p (password_hash user) = true ->
  rcode r = 200 ->
  userId s' = Some (user_id user) ->
  session_username s' = Some (username user) ->
  isAdmin s' = is_admin user ->
  login_granted now (Some p) db user
    ((r, s'), snd (update_last_login now (user_id user) db)).
Proof.
  intros Hin Hpw Hr Hid Hname Hadm. unfold login_granted. cbn [fst snd].
  split; [exact Hr|]. split; [exact Hin|]. split; [exists p; split; [reflexivity|exact Hpw]|].
  split; [exact Hid|]. split; [exact Hname|]. split; [exact Hadm|].
  split; [reflexivity|]. split; [intros [|]; split; reflexivity | reflexivity].
Qed.

(** What the two login handlers compute when a name and a password are
    given. *)
Lemma serverjs_login_run (s : Session) (now : Z) (n p : string) (db : DB) :
  ServerJsAccount.login s now (Some n) (Some p) db
  = if (n =? "")%string || (p =? "")%string
    then ((mkReply 400 (AError "Username and password are required"), s), db)
    else
      match select_user_by_name (toLowerCase n) db with
      | [] => ((mkReply 401 (AError "Invalid credentials"), s), db)
      | user :: _ =>
          if bcrypt_compare p (password_hash user)
          then ((mkReply 200 (ALogin (login_user user true) None),
                 mkSession (Some (user_id user)) (Some (username user)) (is_admin user)
                   (mustChangePassword s)),
                snd (update_last_login now (user_id user) db))
          else ((mkReply 401 (AError "Invalid credentials"), s), db)
      end.
Proof.
  unfold ServerJsAccount.login, handle_session.
  destruct ((n =? "")%string || (p =? "")%string); [reflexivity|].
  unfold bind at 1. unfold query.
  destruct (select_user_by_name (toLowerCase n) db) as [|user rest]; [reflexivity|].
  destruct (bcrypt_compare p (password_hash user)); reflexivity.
Qed.

Lemma compact_login_run (s : Session) (now : Z) (n p : string) (db : DB) :
  CompactAccount.login s now (Some n) (Some p) db
  = if (n =? "")%string || (p =? "")%string
    then ((mkReply 400 (AError "Username and password required"), s), db)
    else
      match select_user_by_lower_name n db with
      | [] => ((mkReply 401 (AError "Invalid credentials"), s), db)
      | user :: _ =>
          if bcrypt_compare p (password_hash user)
          then ((mkReply 200 (ALogin (login_user user false)
                                (Some (CompactAccount.landing user))),
                 mkSession (Some (user_id user)) (Some (username user)) (is_admin user)
                   (must_change_password user)),
                snd (update_last_login now (user_id user) db))
          else ((mkReply 401 (AError "Invalid credentials"), s), db)
      end.
Proof.
  unfold CompactAccount.login, handle_session.
  destruct ((n =? "")%string || (p =? "")%string); [reflexivity|].
  unfold bind at 1. unfold query.
  destruct (select_user_by_lower_name n db) as [|user rest]; [reflexivity|].
  destruct (bcrypt_compare p (password_hash user)); reflexivity.
Qed.

End LoginFacts.

(** X11: a login is either refused or granted to a stored user.  Refused
    (400 for a missing name or password, 401 for an unknown name or a
    password that does not match) it leaves the session and the store as
    they were.  Granted, it is to the first row whose name or email matches
    the lower-cased name, the password matches that row's hash, the session
    carries that row's id, name and administrator flag, and the only write is
    that row's [last_login].  The second server also copies the row's
    must-change flag into the session and answers with the page to go to;
    server.js leaves the session's flag as it was. *)
Theorem login_is_refused_or_granted `{Bcrypt} `{Casing} (s : Session) (now : Z)
    (name pw : option string) (db : DB) :
  (login_refused s db (ServerJsAccount.login s now name pw db)
   \/ exists user n rest,
        name = Some n
        /\ select_user_by_name (toLowerCase n) db = user :: rest
        /\ login_granted now pw db user (ServerJsAccount.login s now name pw db)
        /\ mustChangePassword (snd (fst (ServerJsAccount.login s now name pw db)))
           = mustChangePassword s)
  /\ (login_refused s db (CompactAccount.login s now name pw db)
      \/ exists user n rest,
           name = Some n
           /\ select_user_by_lower_name n db = user :: rest
           /\ login_granted now pw db user (CompactAccount.login s now name pw db)
           /\ mustChangePassword (snd (fst (CompactAccount.login s now name pw db)))
              = must_change_password user
           /\ rbody (fst (fst (CompactAccount.login s now name pw db)))
              = ALogin (login_user user false) (Some (CompactAccount.landing user))).
Proof.
  split.
  - destruct name as [n|]; [|left; repeat split; left; reflexivity].
    destruct pw as [p|]; [|left; repeat split; left; reflexivity].
    rewrite serverjs_login_run.
    destruct ((n =? "")%string || (p =? "")%string);
      [left; repeat split; left; reflexivity|].
    destruct (select_user_by_name (toLowerCase n) db) as [|user rest] eqn:Hrows;
      [left; repeat split; right; reflexivity|].
    destruct (bcrypt_compare p (password_hash user)) eqn:Hpw;
      [|left; repeat split; right; reflexivity].
    right. exists user, n, rest. split; [reflexivity|]. split; [exact Hrows|].
    split; [|reflexivity].
    apply login_granted_intro; try reflexivity; [|exact Hpw].
    assert (Hin : In user (select_user_by_name (toLowerCase n) db))
      by (rewrite Hrows; now left).
    apply filter_In in Hin. apply Hin.
  - destruct name as [n|]; [|left; repeat split; left; reflexivity].
    destruct pw as [p|]; [|left; repeat split; left; reflexivity].
    rewrite compact_login_run.
    destruct ((n =? "")%string || (p =? "")%string);
      [left; repeat split; left; reflexivity|].
    destruct (select_user_by_lower_name n db) as [|user rest] eqn:Hrows;
      [left; repeat split; right; reflexivity|].
    destruct (bcrypt_compare p (password_hash user)) eqn:Hpw;
      [|left; repeat split; right; reflexivity].
    right. exists user, n, rest. split; [reflexivity|]. split; [exact Hrows|].
    split; [|split; reflexivity].
    apply login_granted_intro; try reflexivity; [|exact Hpw].
    assert (Hin : In user (select_user_by_lower_name n db))
      by (rewrite Hrows; now left).
    apply filter_In in Hin. apply Hin.
Qed.

(** A wrong password is refused, the right one opens Bob's session. *)
Example login_of_bob :
  login_refused no_session db0
    (ServerJsAccount.login no_session 900 (Some "Bob") (Some "guess") db0)
  /\ userId (snd (fst (CompactAccount.login no_session 900 (Some "BOB") (Some "secret-b") db0)))
     = Some 2
  /\ rbody (fst (fst (CompactAccount.login no_session 900 (Some "BOB") (Some "secret-b") db0)))
     = ALogin (mkLoginUser 2 "bob" "Bob" None false true) (Some "/change-password").
Proof. repeat split. right. reflexivity. Qed.

(** *** Changing and resetting passwords *)

Lemma filter_map_commute {A : Type} (g : A -> bool) (f : A -> A) (l : list A) :
  (forall x, g (f x) = g x) -> filter g (map f l) = map f (filter g l).
Proof.
  intro Hg. induction l as [|x l IH]; [reflexivity|].
  cbn [map filter]. rewrite Hg, IH. destruct (g x); reflexivity.
Qed.

Section PasswordFacts.
Context `{JsNumber} `{Bcrypt} `{Casing}.

Lemma change_password_run (s : Session) (uid : Z) (salt cur new h : string)
    (hs : list string) (db : DB) :
  session_user s = Some uid ->
  weak_password (Some new) = false ->
  select_password_hash uid db = h :: hs ->
  ServerJs.changePassword s salt (Some cur) (Some new) db
  = (if bcrypt_compare cur h
     then (mkResp 200 (JMessage "Password changed successfully"),
           password_changed uid (bcrypt_hash new salt) db)
     else (mkResp 400 (JError "Current password is incorrect"), db))
  /\ Compact.changePassword s salt (Some cur) (Some new) db
     = (if bcrypt_compare cur h
        then ((mkResp 200 JSuccess, Compact.clear_must_change s),
              password_changed uid (bcrypt_hash new salt) db)
        else ((mkResp 400 (JError "Current password incorrect"), s), db)).
Proof.
  intros Hs Hweak Hrows.
  assert (Hnew : Js.or_string (Some new) "" = new).
  { unfold Js.or_string. destruct (String.eqb_spec new "") as [-> | _]; reflexivity. }
  unfold ServerJs.changePassword, ServerJs.requireAuth, Compact.changePassword,
    Compact.requireAuth.
  rewrite Hs. unfold Http.handle, Compact.handle_session. rewrite Hweak.
  unfold bind at 1 3. unfold query. rewrite Hrows, Hnew.
  destruct (bcrypt_compare cur h); split; reflexivity.
Qed.

Lemma select_user_after_change (uid : Z) (h' : string) (db : DB) (g : UserRow -> bool) :
  (forall u, g (with_password h' u) = g u) ->
  filter g (users (password_changed uid h' db))
  = map (fun u => if user_id u =? uid then with_password h' u else u) (filter g (users db)).
Proof.
  intro Hg. unfold password_changed. cbn [users set_users].
  apply filter_map_commute. intro u. destruct (user_id u =? uid); [apply Hg|reflexivity].
Qed.

End PasswordFacts.

(** X12: with the right current password and a new one of five characters
    or more, both servers store the hash of the new password for the
    caller's row and clear its must-change flag, leaving every other row and
    table as it was; the status route then reports that no change is
    pending, in server.js because it reads the row again and in the second
    server because the handler cleared the flag of the session.  With a
    wrong current password both answer 400 and nothing is written. *)
Theorem password_change_takes_effect `{JsNumber} `{Bcrypt} `{Casing} (s : Session) (uid : Z)
    (salt cur new h : string) (hs : list string) (db : DB) :
  session_user s = Some uid ->
  weak_password (Some new) = false ->
  select_password_hash uid db = h :: hs ->
  (bcrypt_compare cur h = true ->
   let db1 := password_changed uid (bcrypt_hash new salt) db in
   ServerJs.changePassword s salt (Some cur) (Some new) db
   = (mkResp 200 (JMessage "Password changed successfully"), db1)
   /\ Compact.changePassword s salt (Some cur) (Some new) db
      = ((mkResp 200 JSuccess, Compact.clear_must_change s), db1)
   /\ (forall u, In u (users db1) -> user_id u = uid ->
         password_hash u = bcrypt_hash new salt /\ must_change_password u = false)
   /\ filter (fun u => negb (user_id u =? uid)) (users db1)
      = filter (fun u => negb (user_id u =? uid)) (users db)
   /\ same_ledger db db1 /\ payments db1 = payments db
   /\ (exists info,
         ServerJsAccount.status s db1 = mkReply 200 (AStatus (Some info))
         /\ st_mustChangePassword info = false)
   /\ (exists info,
         CompactAccount.status (Compact.clear_must_change s) db1
         = mkReply 200 (AStatus (Some info))
         /\ st_mustChangePassword info = false))
  /\ (bcrypt_compare cur h = false ->
      ServerJs.changePassword s salt (Some cur) (Some new) db
      = (mkResp 400 (JError "Current password is incorrect"), db)
      /\ Compact.changePassword s salt (Some cur) (Some new) db
         = ((mkResp 400 (JError "Current password incorrect"), s), db)).
Proof.
  intros Hs Hweak Hrows.
  destruct (change_password_run s uid salt cur new h hs db Hs Hweak Hrows) as [Hrun1 Hrun2].
  split; intro Hcmp; rewrite Hcmp in Hrun1, Hrun2; [|split; assumption].
  intro db1. split; [exact Hrun1|]. split; [exact Hrun2|].
  split; [|split; [|split; [|split; [|split]]]].
  - intros u Hin Hid. subst db1. unfold password_changed in Hin.
    cbn [users set_users] in Hin. apply in_map_iff in Hin.
    destruct Hin as [v [<- Hv]].
    destruct (user_id v =? uid) eqn:Hvid; [split; reflexivity|].
    cbn in Hid. apply Z.eqb_neq in Hvid. contradiction.
  - subst db1. unfold password_changed. cbn [users set_users].
    apply filter_map_fixed.
    + intros u _. destruct (user_id u =? uid) eqn:E; cbn; rewrite ?E; reflexivity.
    + intros u _ Hne. apply negb_true_iff in Hne. now rewrite Hne.
  - intros [|]; split; reflexivity.
  - reflexivity.
  - unfold ServerJsAccount.status. rewrite Hs. unfold select_user.
    subst db1. rewrite select_user_after_change by reflexivity.
    unfold select_password_hash in Hrows.
    destruct (filter (fun u => user_id u =? uid) (users db)) as [|row rest] eqn:Hsel;
      [discriminate|].
    assert (Hrow : (user_id row =? uid) = true).
    { assert (Hin : In row (filter (fun u => user_id u =? uid) (users db)))
        by (rewrite Hsel; now left).
      apply filter_In in Hin. apply Hin. }
    cbn [map]. rewrite Hrow. eexists. split; reflexivity.
  - unfold CompactAccount.status.
    assert (Hs' : session_user (Compact.clear_must_change s) = Some uid) by exact Hs.
    rewrite Hs'. eexists. split; reflexivity.
Qed.

Lemma password_change_takes_effect_witness :
  ServerJs.changePassword bob "salt" (Some "secret-b") (Some "fresh") db0
  = (mkResp 200 (JMessage "Password changed successfully"),
     password_changed 2 "fresh" db0).
Proof.
  destruct (password_change_takes_effect bob 2 "salt" "secret-b" "fresh" "secret-b" [] db0)
    as [Hok _].
  - reflexivity.
  - reflexivity.
  - reflexivity.
  - apply Hok. reflexivity.
Defined.

Section AfterPasswordWrite.
Context `{JsNumber} `{Bcrypt} `{Casing}.

Lemma weak_password_not_empty (new : string) :
  weak_password (Some new) = false -> (new =? "")%string = false.
Proof.
  unfold weak_password. intro Hw. apply orb_false_iff in Hw. apply Hw.
Qed.

Lemma force_change_run (s : Session) (uid : Z) (salt new : string) (db : DB) :
  session_user s = Some uid ->
  weak_password (Some new) = false ->
  ServerJs.forceChangePassword s salt (Some new) db
  = (mkResp 200 (JMessage "Password changed successfully"),
     password_changed uid (bcrypt_hash new salt) db)
  /\ Compact.forceChangePassword s salt (Some new) db
     = ((mkResp 200 (JSuccessRedirect (if isAdmin s then "/admin" else "/dashboard")),
         Compact.clear_must_change s),
        password_changed uid (bcrypt_hash new salt) db).
Proof.
  intros Hs Hweak.
  pose proof (weak_password_not_empty new Hweak) as Hne.
  unfold ServerJs.forceChangePassword, ServerJs.requireAuth, Compact.forceChangePassword,
    Compact.requireAuth.
  rewrite Hs. unfold Http.handle, Compact.handle_session. rewrite Hweak.
  unfold Js.or_string. rewrite Hne. split; reflexivity.
Qed.

(** A login after the password column of the user was rewritten by [f],
    which keeps ids, names and emails: it is granted for the password whose
    hash [f] stored. *)
Lemma login_after_rewrite (f : UserRow -> UserRow) (uid : Z) (db db1 : DB)
    (s0 : Session) (now : Z) (n p : string) (row : UserRow) (rest : list UserRow) :
  (forall u, user_id (f u) = user_id u /\ username (f u) = username u
             /\ email (f u) = email u) ->
  users db1 = map (fun u => if user_id u =? uid then f u else u) (users db) ->
  user_id row = uid ->
  bcrypt_compare p (password_hash (f row)) = true ->
  (n =? "")%string = false -> (p =? "")%string = false ->
  (select_user_by_name (toLowerCase n) db = row :: rest ->
   ServerJsAccount.login s0 now (Some n) (Some p) db1
   = ((mkReply 200 (ALogin (login_user (f row) true) None),
       mkSession (Some uid) (Some (username row)) (is_admin (f row))
         (mustChangePassword s0)),
      snd (update_last_login now uid db1))
   /\ In (f row) (users db1))
  /\ (select_user_by_lower_name n db = row :: rest ->
      CompactAccount.login s0 now (Some n) (Some p) db1
      = ((mkReply 200 (ALogin (login_user (f row) false)
                         (Some (CompactAccount.landing (f row)))),
          mkSession (Some uid) (Some (username row)) (is_admin (f row))
            (must_change_password (f row))),
         snd (update_last_login now uid db1))
      /\ In (f row) (users db1)).
Proof.
  intros Hf Hdb1 Hid Hpw Hn Hp.
  assert (Hsel : forall g : UserRow -> bool,
             (forall u, g (f u) = g u) ->
             filter g (users db) = row :: rest ->
             filter g (users db1) = f row :: map (fun u => if user_id u =? uid then f u else u) rest
             /\ In (f row) (users db1)).
  { intros g Hg Hrows. rewrite Hdb1.
    assert (Hfl : filter g (map (fun u => if user_id u =? uid then f u else u) (users db))
                  = map (fun u => if user_id u =? uid then f u else u) (filter g (users db))).
    { apply filter_map_commute. intro u. destruct (user_id u =? uid); [apply Hg|reflexivity]. }
    rewrite Hrows in Hfl. cbn [map] in Hfl. rewrite Hid, Z.eqb_refl in Hfl.
    split; [exact Hfl|].
    assert (Hin : In (f row)
                    (filter g (map (fun u => if user_id u =? uid then f u else u) (users db))))
      by (rewrite Hfl; now left).
    apply filter_In in Hin. apply Hin. }
  assert (Hfid : user_id (f row) = uid) by (rewrite (proj1 (Hf row)); exact Hid).
  assert (Hfname : username (f row) = username row) by apply Hf.
  split; intro Hrows.
  - rewrite serverjs_login_run, Hn, Hp. cbn [orb].
    destruct (Hsel (fun u => (username u =? toLowerCase n)%string
                             || (email u =? toLowerCase n)%string)) as [Hfl Hin].
    { intro u. destruct (Hf u) as [_ [-> ->]]. reflexivity. }
    { exact Hrows. }
    unfold select_user_by_name. rewrite Hfl, Hpw, Hfid, Hfname.
    split; [reflexivity | exact Hin].
  - rewrite compact_login_run, Hn, Hp. cbn [orb].
    destruct (Hsel (fun u => (LOWER (username u) =? LOWER n)%string
                             || (LOWER (email u) =? LOWER n)%string)) as [Hfl Hin].
    { intro u. destruct (Hf u) as [_ [-> ->]]. reflexivity. }
    { exact Hrows. }
    unfold select_user_by_lower_name. rewrite Hfl, Hpw, Hfid, Hfname.
    split; [reflexivity | exact Hin].
Qed.

End AfterPasswordWrite.

(** X13: the change of a first password.  A forced password change with a
    password of five characters or more succeeds in both servers and leaves
    the same store; a login with the new password, under a name that finds
    the user, is then granted; the second server sends that login to
    "/admin" or "/dashboard" and no longer to "/change-password", and serves
    the dashboard page or the admin page to the session it opened. *)
Theorem forced_change_then_login `{JsNumber} `{Bcrypt} `{Casing} (s s0 : Session)
    (uid now : Z) (salt new n : string) (row : UserRow) (rest : list UserRow) (db : DB) :
  session_user s = Some uid ->
  weak_password (Some new) = false ->
  (forall p slt, bcrypt_compare p (bcrypt_hash p slt) = true) ->
  select_user_by_lower_name n db = row :: rest ->
  user_id row = uid ->
  n <> "" ->
  exists db1,
    ServerJs.forceChangePassword s salt (Some new) db
    = (mkResp 200 (JMessage "Password changed successfully"), db1)
    /\ Compact.forceChangePassword s salt (Some new) db
       = ((mkResp 200 (JSuccessRedirect (if isAdmin s then "/admin" else "/dashboard")),
           Compact.clear_must_change s), db1)
    /\ (let out := CompactAccount.login s0 now (Some n) (Some new) db1 in
        login_granted now (Some new) db1 (with_password (bcrypt_hash new salt) row) out
        /\ rbody (fst (fst out))
           = ALogin (login_user (with_password (bcrypt_hash new salt) row) false)
               (Some (if is_admin row then "/admin" else "/dashboard"))
        /\ CompactAccount.pageRoute (if is_admin row then "/admin" else "/dashboard")
             (snd (fst out))
           = Some (SendFile (if is_admin row then "admin.html" else "dashboard.html"))).
Proof.
  intros Hs Hweak Hlaw Hrows Hid Hn.
  destruct (force_change_run s uid salt new db Hs Hweak) as [Hrun1 Hrun2].
  exists (password_changed uid (bcrypt_hash new salt) db).
  split; [exact Hrun1|]. split; [exact Hrun2|].
  destruct (login_after_rewrite (with_password (bcrypt_hash new salt)) uid db
              (password_changed uid (bcrypt_hash new salt) db) s0 now n new row rest)
    as [_ Hlogin].
  - intro u. repeat split.
  - reflexivity.
  - exact Hid.
  - apply Hlaw.
  - now apply String.eqb_neq.
  - now apply weak_password_not_empty.
  - destruct (Hlogin Hrows) as [Hout Hin]. cbv zeta. rewrite Hout. cbn [fst snd rbody].
    split; [|split].
    + subst uid.
      apply (login_granted_intro now new _ (with_password (bcrypt_hash new salt) row));
        try reflexivity; [exact Hin | apply Hlaw].
    + unfold CompactAccount.landing. cbn [must_change_password with_password is_admin].
      reflexivity.
    + cbn [is_admin with_password must_change_password].
      unfold CompactAccount.pageRoute.
      assert (Hsu : session_user
                      (mkSession (Some uid) (Some (username row)) (is_admin row) false)
                    = Some uid).
      { unfold session_user. cbn [userId].
        unfold session_user in Hs. destruct (userId s) as [k|]; [|discriminate].
        destruct (k =? 0) eqn:Hk; [discriminate|]. injection Hs as ->. now rewrite Hk. }
      destruct (is_admin row); cbn [String.eqb Ascii.eqb Bool.eqb andb];
        rewrite Hsu; reflexivity.
Qed.

Lemma forced_change_then_login_witness :
  exists db1,
    ServerJs.forceChangePassword bob "salt" (Some "fresh") db0
    = (mkResp 200 (JMessage "Password changed successfully"), db1)
    /\ Compact.forceChangePassword bob "salt" (Some "fresh") db0
       = ((mkResp 200 (JSuccessRedirect "/dashboard"), Compact.clear_must_change bob), db1)
    /\ (let out := CompactAccount.login no_session 950 (Some "Bob") (Some "fresh") db1 in
        login_granted 950 (Some "fresh") db1
          (with_password "fresh"
             (mkUser 2 "bob" "bob@example.org" "secret-b" "Bob" None None false true 200 None))
          out
        /\ rbody (fst (fst out))
           = ALogin (login_user
                       (with_password "fresh"
                          (mkUser 2 "bob" "bob@example.org" "secret-b" "Bob" None None false
                             true 200 None)) false)
               (Some "/dashboard")
        /\ CompactAccount.pageRoute "/dashboard" (snd (fst out))
           = Some (SendFile "dashboard.html")).
Proof.
  assert (Hname : "Bob" <> "") by discriminate.
  exact (forced_change_then_login bob no_session 2 950 "salt" "fresh" "Bob"
           (mkUser 2 "bob" "bob@example.org" "secret-b" "Bob" None None false true 200 None)
           [] db0 eq_refl eq_refl (fun p _ => String.eqb_refl p) eq_refl eq_refl Hname).
Defined.

Section ResetFacts.
Context `{Bcrypt} `{Casing}.

Lemma reset_password_run (s : Session) (aid id : Z) (salt : string)
    (newPassword : option string) (db : DB) :
  session_user s = Some aid ->
  isAdmin s = true ->
  ServerJsAccount.resetPassword s id salt newPassword db
  = (mkReply 200
       (AMessage "Password reset successfully. User must change password on next login."),
     password_reset id (bcrypt_hash (Js.or_string newPassword "12345") salt) db)
  /\ CompactAccount.resetPassword s id salt db
     = (mkReply 200 ASuccess, password_reset id (bcrypt_hash "12345" salt) db).
Proof.
  intros Hs Ha.
  unfold ServerJsAccount.resetPassword, ServerJsAccount.requireAdmin,
    CompactAccount.resetPassword, CompactAccount.requireAdmin.
  rewrite Hs, Ha. split; reflexivity.
Qed.

End ResetFacts.

(** X14: a password reset by an administrator stores the hash of the default
    password "12345" (in server.js, of the password the request names, if it
    names one) for the user of the path and sets that user's must-change
    flag; the rows of the other users are as before.  The user's next login
    with the default password is granted, the second server sends it to
    "/change-password" and redirects the dashboard page there, and the
    status route of server.js reports the pending change to any session of
    that user. *)
Theorem reset_forces_password_change `{Bcrypt} `{Casing} (s s0 su : Session)
    (aid id now : Z) (salt n : string) (row : UserRow) (rest : list UserRow) (db : DB) :
  session_user s = Some aid ->
  isAdmin s = true ->
  (forall p slt, bcrypt_compare p (bcrypt_hash p slt) = true) ->
  select_user_by_lower_name n db = row :: rest ->
  user_id row = id ->
  n <> "" ->
  session_user su = Some id ->
  let db1 := password_reset id (bcrypt_hash "12345" salt) db in
  ServerJsAccount.resetPassword s id salt None db
  = (mkReply 200
       (AMessage "Password reset successfully. User must change password on next login."),
     db1)
  /\ CompactAccount.resetPassword s id salt db = (mkReply 200 ASuccess, db1)
  /\ filter (fun u => negb (user_id u =? id)) (users db1)
     = filter (fun u => negb (user_id u =? id)) (users db)
  /\ (let out := CompactAccount.login s0 now (Some n) (Some "12345") db1 in
      login_granted now (Some "12345") db1
        (with_reset_password (bcrypt_hash "12345" salt) row) out
      /\ rbody (fst (fst out))
         = ALogin (login_user (with_reset_password (bcrypt_hash "12345" salt) row) false)
             (Some "/change-password")
      /\ CompactAccount.pageRoute "/dashboard" (snd (fst out))
         = Some (Redirect "/change-password"))
  /\ (exists info,
        ServerJsAccount.status su db1 = mkReply 200 (AStatus (Some info))
        /\ st_mustChangePassword info = true).
Proof.
  intros Hs Ha Hlaw Hrows Hid Hn Hsu db1.
  destruct (reset_password_run s aid id salt None db Hs Ha) as [Hrun1 Hrun2].
  split; [exact Hrun1|]. split; [exact Hrun2|].
  assert (Hrow_in : In row (users db)).
  { assert (Hin : In row (select_user_by_lower_name n db)) by (rewrite Hrows; now left).
    apply filter_In in Hin. apply Hin. }
  split; [|split].
  - subst db1. unfold password_reset. cbn [users set_users].
    apply filter_map_fixed.
    + intros u _. destruct (user_id u =? id) eqn:E; cbn; rewrite ?E; reflexivity.
    + intros u _ Hne. apply negb_true_iff in Hne. now rewrite Hne.
  - destruct (login_after_rewrite (with_reset_password (bcrypt_hash "12345" salt)) id db
                db1 s0 now n "12345" row rest) as [_ Hlogin].
    + intro u. repeat split.
    + reflexivity.
    + exact Hid.
    + apply Hlaw.
    + now apply String.eqb_neq.
    + reflexivity.
    + destruct (Hlogin Hrows) as [Hout Hin]. cbv zeta. rewrite Hout. cbn [fst snd rbody].
      split; [|split].
      * subst id.
        apply (login_granted_intro now "12345" _
                 (with_reset_password (bcrypt_hash "12345" salt) row));
          try reflexivity; [exact Hin | apply Hlaw].
      * reflexivity.
      * unfold CompactAccount.pageRoute. cbn [String.eqb Ascii.eqb Bool.eqb andb].
        assert (Hsu' : session_user
                         (mkSession (Some id) (Some (username row))
                            (is_admin (with_reset_password (bcrypt_hash "12345" salt) row))
                            (must_change_password
                               (with_reset_password (bcrypt_hash "12345" salt) row)))
                       = Some id).
        { unfold session_user. cbn [userId].
          unfold session_user in Hsu. destruct (userId su) as [k|]; [|discriminate].
          destruct (k =? 0) eqn:Hk; [discriminate|]. injection Hsu as ->. now rewrite Hk. }
        rewrite Hsu'. reflexivity.
  - unfold ServerJsAccount.status. rewrite Hsu. unfold select_user.
    subst db1. unfold password_reset. cbn [users set_users].
    rewrite filter_map_commute
      by (intro u; destruct (user_id u =? id) eqn:E; cbn; rewrite ?E; reflexivity).
    destruct (filter (fun u => user_id u =? id) (users db)) as [|hit more] eqn:Hsel.
    + exfalso.
      assert (Hin : In row (filter (fun u => user_id u =? id) (users db))).
      { apply filter_In. split; [exact Hrow_in | now apply Z.eqb_eq]. }
      rewrite Hsel in Hin. contradiction.
    + assert (Hhit : (user_id hit =? id) = true).
      { assert (Hin : In hit (filter (fun u => user_id u =? id) (users db)))
          by (rewrite Hsel; now left).
        apply filter_In in Hin. apply Hin. }
      cbn [map]. rewrite Hhit. eexists. split; reflexivity.
Qed.

Lemma reset_forces_password_change_witness :
  let db1 := password_reset 1 "12345" db0 in
  CompactAccount.resetPassword alice 1 "salt" db0 = (mkReply 200 ASuccess, db1)
  /\ rbody (fst (fst (CompactAccount.login no_session 960 (Some "alice") (Some "12345") db1)))
     = ALogin (mkLoginUser 1 "alice" "Alice" None true true) (Some "/change-password").
Proof.
  assert (Hname : "alice" <> "") by discriminate.
  destruct (@reset_forces_password_change PlainBcrypt AsciiCasing
              alice no_session alice 1 1 960 "salt" "alice"
              (mkUser 1 "alice" "alice@example.org" "secret-a" "Alice" None None true false
                 100 None)
              [] db0 eq_refl eq_refl (fun p _ => String.eqb_refl p) eq_refl eq_refl Hname
              eq_refl)
    as [_ [Hreset [_ [[_ [Hbody _]] _]]]].
  split; [exact Hreset | exact Hbody].
Defined.

(** *** Creating users *)





Lemma db0_users_ok : users_ok db0.
Proof.
  repeat split; cbn; try (repeat constructor; cbn; intuition discriminate).
  intros u Hu. repeat (destruct Hu as [<- | Hu]; [cbn; lia|]). contradiction.
Qed.


(** *** Editing users *)

Lemma map_map_same {A B : Type} (k : A -> B) (f : A -> A) (l : list A) :
  (forall x, k (f x) = k x) -> map k (map f l) = map k l.
Proof.
  intro Hk. rewrite map_map. apply map_ext. exact Hk.
Qed.

Lemma in_map_other (P : UserRow -> bool) (f : UserRow -> UserRow) (l : list UserRow)
    (u : UserRow) :
  In u l -> P u = false -> In u (map (fun x => if P x then f x else x) l).
Proof.
  intros Hin HP. apply in_map_iff. exists u. rewrite HP. now split.
Qed.

(** The email of one row replaced by an email no other row has. *)
Lemma nodup_email_replaced (id : Z) (e : string) (f : UserRow -> UserRow)
    (l : list UserRow) :
  (forall u, email (f u) = e) ->
  NoDup (map user_id l) ->
  NoDup (map email l) ->
  existsb (fun u => negb (user_id u =? id) && (email u =? e)%string) l = false ->
  NoDup (map email (map (fun u => if user_id u =? id then f u else u) l)).
Proof.
  intros Hf. induction l as [|a l IH]; intros Hid Hem Hfree; [constructor|].
  cbn [map] in *. cbn [existsb] in Hfree. apply orb_false_iff in Hfree.
  destruct Hfree as [Ha Hfree].
  inversion Hid as [|? ? Hnid Hid']; subst. inversion Hem as [|? ? Hnem Hem']; subst.
  constructor; [|now apply IH].
  intro Hin. apply in_map_iff in Hin. destruct Hin as [v [Hv Hin]].
  apply in_map_iff in Hin. destruct Hin as [u [Hu Hin]]. subst v.
  destruct (user_id a =? id) eqn:Ea; destruct (user_id u =? id) eqn:Eu.
  - apply Z.eqb_eq in Ea, Eu. apply Hnid. apply in_map_iff. exists u.
    split; [congruence | exact Hin].
  - rewrite Hf in Hv.
    assert (Ht : existsb (fun u => negb (user_id u =? id) && (email u =? e)%string) l
                 = true).
    { apply existsb_exists. exists u. split; [exact Hin|].
      rewrite Eu, Hv, String.eqb_refl. reflexivity. }
    rewrite Ht in Hfree. discriminate.
  - rewrite Hf in Hv. cbn [negb andb] in Ha. rewrite <- Hv, String.eqb_refl in Ha.
    discriminate.
  - apply Hnem. apply in_map_iff. exists u. now split.
Qed.

Lemma update_profile_outcome (uid : Z) (fn : option string) (ph ad : string) (db : DB) :
  let db' := snd (update_profile uid fn ph ad db) in
  map credentials (users db') = map credentials (users db)
  /\ (forall u, In u (users db) -> user_id u <> uid -> In u (users db'))
  /\ seq_users db' = seq_users db
  /\ same_ledger db db' /\ payments db' = payments db.
Proof.
  unfold update_profile. destruct fn as [n|].
  - cbn [snd users set_users]. repeat split.
    + apply map_map_same. intro u. destruct (user_id u =? uid); reflexivity.
    + intros u Hin Hne.
      apply (in_map_other (fun x => user_id x =? uid)); [exact Hin|].
      now apply Z.eqb_neq.
  - destruct (existsb _ (users db)); cbn [snd]; repeat split; auto.
Qed.

Lemma update_user_outcome (id : Z) (fn em : option string) (ph ad : string) (adm : bool)
    (db : DB) :
  users_ok db ->
  let db' := snd (update_user id fn em ph ad adm db) in
  users_ok db'
  /\ map login_data (users db') = map login_data (users db)
  /\ (forall u, In u (users db) -> user_id u <> id -> In u (users db'))
  /\ same_ledger db db' /\ payments db' = payments db.
Proof.
  intros Hok. unfold update_user.
  assert (Hsame : same_ledger db db) by (intros [|]; split; reflexivity).
  destruct (filter (fun u => user_id u =? id) (users db)) as [|hit more];
    [cbn [snd]; repeat split; auto; apply Hok|].
  destruct fn as [n|]; [destruct em as [e|]|];
    try (cbn [snd]; repeat split; auto; apply Hok).
  destruct (existsb _ (users db) || _) eqn:Hclash;
    [cbn [snd]; repeat split; auto; apply Hok|].
  apply orb_false_iff in Hclash. destruct Hclash as [Hfree _].
  destruct Hok as [Hid [Hlt [Hun Hem]]].
  cbn [snd users set_users seq_users].
  split; [|split; [|split; [|split]]].
  - unfold users_ok. cbn [users set_users seq_users].
    split; [|split; [|split]].
    + rewrite map_map_same; [exact Hid|].
      intro u. destruct (user_id u =? id); reflexivity.
    + intros u Hu. apply in_map_iff in Hu. destruct Hu as [v [<- Hv]].
      specialize (Hlt v Hv). destruct (user_id v =? id); exact Hlt.
    + rewrite map_map_same; [exact Hun|].
      intro u. destruct (user_id u =? id); reflexivity.
    + apply (nodup_email_replaced id e
               (fun u => mkUser (user_id u) (username u) e (password_hash u) n (Some ph)
                           (Some ad) adm (must_change_password u) (user_created_at u)
                           (last_login u))); auto.
  - apply map_map_same. intro u. destruct (user_id u =? id); reflexivity.
  - intros u Hin Hne.
    apply (in_map_other (fun x => user_id x =? id)); [exact Hin|].
    now apply Z.eqb_neq.
  - intros [|]; split; reflexivity.
  - reflexivity.
Qed.

(** X16: editing users.  The profile route of either server changes nothing
    of any row but the full name, the phone and the address: the ids, login
    names, emails, password hashes, administrator flags and must-change
    flags of the table stay as they were, and the rows of other users stay
    whole.  The administrator's edit of a user changes neither the login
    name nor the password hash nor the must-change flag of any row, leaves
    the rows with another id whole, and keeps ids, names and emails
    distinct.  Neither route writes to another table. *)
Theorem user_edits_keep_login_data `{Bcrypt} `{Casing} (s : Session) (id : Z)
    (fn em ph ad : option string) (adm : option bool) (db : DB) :
  users_ok db ->
  (forall out,
     out = ServerJsAccount.updateProfile s fn ph ad db
     \/ out = CompactAccount.updateProfile s fn ph ad db ->
     map credentials (users (snd out)) = map credentials (users db)
     /\ (forall u, In u (users db) -> session_user s <> Some (user_id u) ->
                   In u (users (snd out)))
     /\ users_ok (snd out)
     /\ same_ledger db (snd out) /\ payments (snd out) = payments db)
  /\ (forall out,
        out = ServerJsAccount.updateUser s id fn em ph ad adm db
        \/ out = CompactAccount.updateUser s id fn em ph ad adm db ->
        map login_data (users (snd out)) = map login_data (users db)
        /\ (forall u, In u (users db) -> user_id u <> id -> In u (users (snd out)))
        /\ users_ok (snd out)
        /\ same_ledger db (snd out) /\ payments (snd out) = payments db).
Proof.
  intro Hok.
  assert (Hsame : same_ledger db db) by (intros [|]; split; reflexivity).
  split.
  - assert (Hcore : forall uid,
              let db' := snd (update_profile uid fn (Js.or_string ph "")
                                (Js.or_string ad "") db) in
              map credentials (users db') = map credentials (users db)
              /\ (forall u, In u (users db) -> session_user s <> Some (user_id u) ->
                            session_user s = Some uid -> In u (users db'))
              /\ users_ok db'
              /\ same_ledger db db' /\ payments db' = payments db).
    { intros uid db'.
      destruct (update_profile_outcome uid fn (Js.or_string ph "") (Js.or_string ad "") db)
        as [Hc [Hother [Hseq [Hl Hp]]]].
      fold db' in Hc, Hother, Hseq, Hl, Hp.
      split; [exact Hc|]. split.
      { intros u Hin Hne Hs. apply Hother; [exact Hin|]. congruence. }
      split; [|split; assumption].
      destruct Hok as [Hid [Hlt [Hun Hem]]].
      assert (Hids : map user_id (users db') = map user_id (users db)).
      { rewrite <- (map_map credentials (fun c => fst (fst (fst (fst (fst c)))))).
        rewrite Hc, map_map. reflexivity. }
      assert (Huns : map username (users db') = map username (users db)).
      { rewrite <- (map_map credentials (fun c => snd (fst (fst (fst (fst c)))))).
        rewrite Hc, map_map. reflexivity. }
      assert (Hems : map email (users db') = map email (users db)).
      { rewrite <- (map_map credentials (fun c => snd (fst (fst (fst c))))).
        rewrite Hc, map_map. reflexivity. }
      unfold users_ok. rewrite Hids, Huns, Hems, Hseq.
      split; [exact Hid|]. split; [|split; assumption].
      intros u Hu.
      assert (Hi : In (user_id u) (map user_id (users db'))) by now apply in_map.
      rewrite Hids in Hi. apply in_map_iff in Hi. destruct Hi as [v [<- Hv]].
      now apply Hlt. }
    intros out [-> | ->].
    + unfold ServerJsAccount.updateProfile, ServerJsAccount.requireAuth.
      destruct (session_user s) as [uid|] eqn:Hs;
        [|cbn [snd]; repeat split; auto; apply Hok].
      specialize (Hcore uid). cbv zeta in Hcore.
      unfold Account.handle, bind.
      destruct (update_profile uid fn (Js.or_string ph "") (Js.or_string ad "") db)
        as [[[]|m] db1]; cbn [snd ret] in *;
        destruct Hcore as [Hc [Ho [Hk [Hl Hp]]]];
        (split; [exact Hc|]; split; [intros u Hin Hne; now apply Ho|];
         split; [exact Hk|]; split; [exact Hl | exact Hp]).
    + unfold CompactAccount.updateProfile, CompactAccount.requireAuth.
      destruct (session_user s) as [uid|] eqn:Hs;
        [|cbn [snd]; repeat split; auto; apply Hok].
      specialize (Hcore uid). cbv zeta in Hcore.
      unfold Account.handle, bind.
      destruct (update_profile uid fn (Js.or_string ph "") (Js.or_string ad "") db)
        as [[[]|m] db1]; cbn [snd ret] in *;
        destruct Hcore as [Hc [Ho [Hk [Hl Hp]]]];
        (split; [exact Hc|]; split; [intros u Hin Hne; now apply Ho|];
         split; [exact Hk|]; split; [exact Hl | exact Hp]).
  - intros out [-> | ->].
    + unfold ServerJsAccount.updateUser, ServerJsAccount.requireAdmin.
      destruct (session_user s) as [aid|]; [destruct (isAdmin s)|];
        try (cbn [snd]; repeat split; auto; apply Hok).
      unfold Account.handle.
      destruct em as [e|]; [|cbn [snd throw]; repeat split; auto; apply Hok].
      unfold bind.
      pose proof (update_user_outcome id fn (Some (toLowerCase e)) (Js.or_string ph "")
                    (Js.or_string ad "")
                    (match adm with Some b => b | None => false end) db Hok) as Hcore.
      cbv zeta in Hcore.
      destruct (update_user id fn (Some (toLowerCase e)) (Js.or_string ph "")
                  (Js.or_string ad "") (match adm with Some b => b | None => false end) db)
        as [[[]|m] db1]; cbn [snd ret] in *;
        destruct Hcore as [Hk [Hc [Ho [Hl Hp]]]];
        (split; [exact Hc|]; split; [exact Ho|];
         split; [exact Hk|]; split; [exact Hl | exact Hp]).
    + unfold CompactAccount.updateUser, CompactAccount.requireAdmin.
      destruct (session_user s) as [aid|]; [destruct (isAdmin s)|];
        try (cbn [snd]; repeat split; auto; apply Hok).
      unfold Account.handle, bind.
      pose proof (update_user_outcome id fn (option_map LOWER em) (Js.or_string ph "")
                    (Js.or_string ad "")
                    (match adm with Some b => b | None => false end) db Hok) as Hcore.
      cbv zeta in Hcore.
      destruct (update_user id fn (option_map LOWER em) (Js.or_string ph "")
                  (Js.or_string ad "") (match adm with Some b => b | None => false end) db)
        as [[[]|m] db1]; cbn [snd ret] in *;
        destruct Hcore as [Hk [Hc [Ho [Hl Hp]]]];
        (split; [exact Hc|]; split; [exact Ho|];
         split; [exact Hk|]; split; [exact Hl | exact Hp]).
Qed.

Lemma user_edits_keep_login_data_witness :
  map login_data
    (users (snd (ServerJsAccount.updateUser alice 2 (Some "Robert") (Some "Rob@Example.org")
                   None None (Some true) db0)))
  = map login_data (users db0).
Proof.
  destruct (@user_edits_keep_login_data PlainBcrypt AsciiCasing alice 2 (Some "Robert")
              (Some "Rob@Example.org") None None (Some true) db0 db0_users_ok)
    as [_ Hedit].
  destruct (Hedit _ (or_introl eq_refl)) as [Hdata _]. exact Hdata.
Defined.

(** *** Deleting a user *)

Lemma delete_user_run (id : Z) (db : DB) :
  let db' := snd (delete_user id db) in
  users db' = filter (fun u => negb (user_id u =? id)) (users db)
  /\ (forall sd,
        parties sd db' = filter (fun p => negb (party_user_id p =? id)) (parties sd db)
        /\ items sd db'
           = filter
               (fun i => negb (existsb (Z.eqb (parent_id i))
                                 (map party_id
                                    (filter (fun p => party_user_id p =? id)
                                       (parties sd db)))))
               (items sd db))
  /\ payments db' = filter (fun p => negb (payment_user_id p =? id)) (payments db).
Proof.
  cbv zeta. unfold delete_user, exec, cascade_parties, cascade_payments. cbn [snd].
  split; [reflexivity|]. split; [|reflexivity].
  intros [|]; split; reflexivity.
Qed.

Lemma delete_user_route_run `{JsNumber} (s : Session) (aid id : Z) (db : DB)
    (out : response * DB) :
  session_user s = Some aid -> isAdmin s = true -> id <> aid ->
  out = ServerJs.deleteUser s id db \/ out = Compact.deleteUser s id db ->
  code (fst out) = 200 /\ snd out = snd (delete_user id db).
Proof.
  intros Hs Ha Hne [-> | ->].
  - unfold ServerJs.deleteUser, ServerJs.requireAdmin. rewrite Hs, Ha.
    apply Z.eqb_neq in Hne. rewrite Hne. split; reflexivity.
  - unfold Compact.deleteUser, Compact.requireAdmin. rewrite Hs, Ha.
    apply Z.eqb_neq in Hne. rewrite Hne. split; reflexivity.
Qed.

(** X17: deleting a user.  When an administrator deletes another account,
    in either server, the answer is 200 and the rows of that account go with
    it: no user row, creditor, debtor or payment with that owner is left, and
    no item that was under one of its creditors or debtors.  The rows of
    every other user (the user row, creditors and debtors, their items,
    payments) are as before, and the keys of the tables still hold. *)
Theorem deleted_user_rows_go_along `{JsNumber} (s : Session) (aid id : Z) (db : DB)
    (out : response * DB) :
  session_user s = Some aid -> isAdmin s = true -> id <> aid ->
  ledger_ok db ->
  out = ServerJs.deleteUser s id db \/ out = Compact.deleteUser s id db ->
  code (fst out) = 200
  /\ select_user id (snd out) = []
  /\ (forall sd,
        own_parties sd id (snd out) = []
        /\ (forall i, In i (items sd (snd out)) -> ~ In i (own_items sd id db)))
  /\ own_payments id (snd out) = []
  /\ (forall uid, uid <> id ->
        same_own_rows uid db (snd out)
        /\ select_user uid (snd out) = select_user uid db)
  /\ ledger_ok (snd out).
Proof.
  intros Hs Ha Hne Hok Hout.
  destruct (delete_user_route_run s aid id db out Hs Ha Hne Hout) as [Hcode Hdb].
  rewrite Hdb. clear Hout Hdb.
  destruct (delete_user_run id db) as [Hu [Hl Hp]]. cbv zeta in Hu, Hl, Hp.
  split; [exact Hcode|]. split; [|split; [|split; [|split]]].
  - unfold select_user. rewrite Hu.
    apply (filter_none_left (fun u => user_id u =? id)).
  - intro sd. destruct (Hl sd) as [Hps His]. split.
    + unfold own_parties. rewrite Hps.
      apply (filter_none_left (fun p => party_user_id p =? id)).
    + intros i Hi Hown. rewrite His in Hi. apply filter_In in Hi.
      destruct Hi as [_ Hkeep]. apply negb_true_iff in Hkeep.
      apply filter_In in Hown. destruct Hown as [_ Hex].
      apply existsb_exists in Hex. destruct Hex as [p [Hin Hp']].
      apply andb_true_iff in Hp'. destruct Hp' as [Hpid Hown].
      assert (Ht : existsb (Z.eqb (parent_id i))
                     (map party_id (filter (fun p => party_user_id p =? id)
                                      (parties sd db))) = true).
      { apply existsb_exists. exists (party_id p). split.
        - apply in_map. apply filter_In. now split.
        - apply Z.eqb_eq in Hpid. rewrite Hpid. apply Z.eqb_refl. }
      rewrite Ht in Hkeep. discriminate.
  - unfold own_payments. rewrite Hp.
    apply (filter_none_left (fun p => payment_user_id p =? id)).
  - intros uid Huid. split; [split|].
    + intro sd. destruct (Hl sd) as [Hps His].
      assert (Hparties : own_parties sd uid (snd (delete_user id db))
                         = own_parties sd uid db).
      { unfold own_parties. rewrite Hps. apply filter_filter_same.
        intros p _ Hpu. apply Z.eqb_eq in Hpu. apply negb_true_iff.
        apply Z.eqb_neq. congruence. }
      split; [now symmetry|].
      symmetry. unfold own_items. rewrite Hps, His.
      rewrite (filter_ext_in_bool
                 (fun i => existsb (fun p => (party_id p =? parent_id i)
                                             && (party_user_id p =? uid))
                             (filter (fun p => negb (party_user_id p =? id))
                                (parties sd db)))
                 (fun i => existsb (fun p => (party_id p =? parent_id i)
                                             && (party_user_id p =? uid))
                             (parties sd db))).
      * apply filter_filter_same. intros i _ Hex.
        apply existsb_exists in Hex. destruct Hex as [p [Hin Hp']].
        apply andb_true_iff in Hp'. destruct Hp' as [Hpid Hpu].
        apply Z.eqb_eq in Hpid, Hpu.
        apply negb_true_iff.
        destruct (existsb (Z.eqb (parent_id i)) _) eqn:Hgone; [|reflexivity].
        exfalso. apply existsb_exists in Hgone. destruct Hgone as [k [Hk Hki]].
        apply in_map_iff in Hk. destruct Hk as [q [Hq Hqin]].
        apply filter_In in Hqin. destruct Hqin as [Hqin Hqu].
        apply Z.eqb_eq in Hki, Hqu. subst k.
        destruct (Hok sd) as [Hnd _].
        assert (Hpq : p = q).
        { apply (nodup_key_unique party_id (parties sd db)); try assumption.
          congruence. }
        subst q. congruence.
      * intros i _. apply existsb_filter_same.
        intros p _ Hp'. apply andb_true_iff in Hp'. destruct Hp' as [_ Hpu].
        apply Z.eqb_eq in Hpu. apply negb_true_iff. apply Z.eqb_neq. congruence.
    + symmetry. unfold own_payments. rewrite Hp. apply filter_filter_same.
      intros p _ Hpu. apply Z.eqb_eq in Hpu. apply negb_true_iff.
      apply Z.eqb_neq. congruence.
    + unfold select_user. rewrite Hu. apply filter_filter_same.
      intros u _ Huu. apply Z.eqb_eq in Huu. apply negb_true_iff.
      apply Z.eqb_neq. congruence.
  - apply delete_user_keeps. exact Hok.
Qed.

Lemma deleted_user_rows_go_along_witness :
  own_payments 2 (snd (ServerJs.deleteUser (H := ExactNumber) alice 2 db0)) = []
  /\ same_own_rows 1 db0 (snd (ServerJs.deleteUser (H := ExactNumber) alice 2 db0)).
Proof.
  destruct (@deleted_user_rows_go_along ExactNumber alice 1 2 db0 _ eq_refl eq_refl
              ltac:(discriminate) db0_ledger_ok (or_introl eq_refl))
    as [_ [_ [_ [Hpay [Hothers _]]]]].
  split; [exact Hpay|]. apply (Hothers 1). discriminate.
Defined.

(** *** Start-up *)




Section StartUp.
Context `{Bcrypt}.

Lemma serverjs_initdb_run (now : Z) (salt : string) (db : DB) :
  ServerJsAccount.initDB now salt db
  = match select_admin db with
    | [] =>
        match insert_user now (Some "admin") (Some "admin@ghouenzen.com")
                (bcrypt_hash "12345" salt) (Some "Administrator") None None true db with
        | (Ok _, db1) =>
            (Ok tt, snd (delete_duplicate_items Debtor
                           (snd (delete_duplicate_items Creditor db1))))
        | (Throw m, db1) => (Throw m, db1)
        end
    | _ :: _ =>
        (Ok tt, snd (delete_duplicate_items Debtor
                       (snd (delete_duplicate_items Creditor db))))
    end.
Proof.
  unfold ServerJsAccount.initDB, ServerJsAccount.ensure_admin, bind, query.
  destruct (select_admin db) as [|row rest].
  - destruct (insert_user now (Some "admin") (Some "admin@ghouenzen.com")
                (bcrypt_hash "12345" salt) (Some "Administrator") None None true db)
      as [[id|m] db1]; reflexivity.
  - reflexivity.
Qed.





End StartUp.


(** *** The removal of duplicated items at start-up *)

Lemma duplicates_trans (a b c : ItemRow) :
  duplicates a b = true -> duplicates b c = true -> duplicates a c = true.
Proof.
  unfold duplicates. intros Hab Hbc.
  repeat (apply andb_true_iff in Hab; destruct Hab as [Hab ?]).
  repeat (apply andb_true_iff in Hbc; destruct Hbc as [Hbc ?]).
  repeat match goal with
         | E : (_ =? _) = true |- _ => apply Z.eqb_eq in E
         | E : (_ <? _) = true |- _ => apply Z.ltb_lt in E
         | E : (_ =? _)%string = true |- _ => apply String.eqb_eq in E
         end.
  repeat (apply andb_true_iff; split).
  - apply Z.ltb_lt. lia.
  - apply Z.eqb_eq. congruence.
  - apply Z.eqb_eq. congruence.
  - apply String.eqb_eq. congruence.
Qed.

Lemma duplicates_earlier (a b : ItemRow) :
  duplicates a b = true -> item_id b < item_id a.
Proof.
  unfold duplicates. intro Hab.
  repeat (apply andb_true_iff in Hab; destruct Hab as [Hab ?]).
  now apply Z.ltb_lt.
Qed.

Lemma filter_length_le {A : Type} (f g : A -> bool) (l : list A) :
  (forall x, In x l -> f x = true -> g x = true) ->
  (List.length (filter f l) <= List.length (filter g l))%nat.
Proof.
  induction l as [|x l IH]; intro Himp; [apply le_n|].
  assert (IH' : (List.length (filter f l) <= List.length (filter g l))%nat).
  { apply IH. intros y Hy. apply Himp. now right. }
  cbn [filter]. destruct (f x) eqn:Hf.
  - rewrite (Himp x (or_introl eq_refl) Hf). cbn [List.length]. lia.
  - destruct (g x); cbn [List.length]; lia.
Qed.

Lemma filter_length_lt {A : Type} (f g : A -> bool) (l : list A) (c : A) :
  (forall x, In x l -> f x = true -> g x = true) ->
  In c l -> f c = false -> g c = true ->
  (List.length (filter f l) < List.length (filter g l))%nat.
Proof.
  induction l as [|x l IH]; intros Himp Hc Hfc Hgc; [contradiction|].
  assert (Hle : (List.length (filter f l) <= List.length (filter g l))%nat).
  { apply filter_length_le. intros y Hy. apply Himp. now right. }
  cbn [filter]. destruct Hc as [-> | Hc].
  - rewrite Hfc, Hgc. cbn [List.length]. lia.
  - assert (IH' : (List.length (filter f l) < List.length (filter g l))%nat).
    { apply IH; try assumption. intros y Hy. apply Himp. now right. }
    destruct (f x) eqn:Hf.
    + rewrite (Himp x (or_introl eq_refl) Hf). cbn [List.length]. lia.
    + destruct (g x); cbn [List.length]; lia.
Qed.

(** Every row has a representative that the cleanup keeps: itself, or an
    earlier row with the same parent, amount and reason. *)
Lemma first_duplicate_kept (l : list ItemRow) (n : nat) :
  forall a : ItemRow,
    (List.length (filter (fun x => (item_id x <? item_id a)%Z) l) < n)%nat ->
    In a l ->
    exists b, In b l /\ existsb (duplicates b) l = false
              /\ (b = a \/ duplicates a b = true).
Proof.
  induction n as [|n IH]; intros a Hlen Ha; [lia|].
  destruct (existsb (duplicates a) l) eqn:Hdup.
  - apply existsb_exists in Hdup. destruct Hdup as [c [Hc Hac]].
    pose proof (duplicates_earlier a c Hac) as Hlt.
    destruct (IH c) as [b [Hb [Hkept Hcb]]]; [|exact Hc|].
    + assert (Hless : (List.length (filter (fun x => (item_id x <? item_id c)%Z) l)
                       < List.length (filter (fun x => (item_id x <? item_id a)%Z) l))%nat).
      { apply (filter_length_lt _ _ l c).
        - intros x _ Hx. apply Z.ltb_lt in Hx. apply Z.ltb_lt. lia.
        - exact Hc.
        - apply Z.ltb_irrefl.
        - now apply Z.ltb_lt. }
      lia.
    + exists b. split; [exact Hb|]. split; [exact Hkept|]. right.
      destruct Hcb as [-> | Hcb]; [exact Hac|].
      exact (duplicates_trans a c b Hac Hcb).
  - exists a. split; [exact Ha|]. split; [exact Hdup|]. now left.
Qed.

Lemma cleanup_run (sd : side) (db : DB) :
  let db' := snd (delete_duplicate_items Debtor (snd (delete_duplicate_items Creditor db))) in
  items sd db'
  = filter (fun a => negb (existsb (duplicates a) (items sd db))) (items sd db)
  /\ parties sd db' = parties sd db
  /\ seq_parties sd db' = seq_parties sd db
  /\ seq_items sd db' = seq_items sd db
  /\ payments db' = payments db.
Proof. destruct sd; repeat split; reflexivity. Qed.

Lemma insert_user_ledger (now : Z) (un em : option string) (h : string)
    (fn ph ad : option string) (adm : bool) (db : DB) (sd : side) :
  let db' := snd (insert_user now un em h fn ph ad adm db) in
  items sd db' = items sd db /\ parties sd db' = parties sd db
  /\ seq_parties sd db' = seq_parties sd db /\ seq_items sd db' = seq_items sd db
  /\ payments db' = payments db.
Proof.
  unfold insert_user.
  destruct un as [u|]; [destruct em as [e|]; [destruct fn as [n|]|]|];
    try (destruct sd; repeat split; reflexivity).
  destruct (existsb _ (users db)); destruct sd; repeat split; reflexivity.
Qed.

(** X19: the removal of duplicated items when server.js starts.  When
    start-up ends without an error, each item table holds a part of the rows
    it held, no two rows left agree on parent, amount and reason, and every
    row that was there is still there or has an earlier row with the same
    parent, amount and reason that is: of each group of duplicates the row
    with the lowest id stays.  The creditors, debtors and payments are as
    they were, and the keys of the tables still hold. *)
Theorem startup_cleanup_keeps_first `{Bcrypt} (now : Z) (salt : string) (db : DB)
    (sd : side) :
  fst (ServerJsAccount.initDB now salt db) = Ok tt ->
  let db' := snd (ServerJsAccount.initDB now salt db) in
  (forall a, In a (items sd db') -> In a (items sd db))
  /\ (forall a b, In a (items sd db') -> In b (items sd db') -> duplicates a b = false)
  /\ (forall a, In a (items sd db) ->
        exists b, In b (items sd db') /\ (b = a \/ duplicates a b = true))
  /\ parties sd db' = parties sd db
  /\ payments db' = payments db
  /\ (ledger_ok db -> ledger_ok db').
Proof.
  intros Hrun db'.
  assert (Hshape : exists db1,
            db' = snd (delete_duplicate_items Debtor
                         (snd (delete_duplicate_items Creditor db1)))
            /\ (forall sd, items sd db1 = items sd db /\ parties sd db1 = parties sd db
                           /\ seq_parties sd db1 = seq_parties sd db
                           /\ seq_items sd db1 = seq_items sd db)
            /\ payments db1 = payments db).
  { subst db'. rewrite serverjs_initdb_run in *.
    destruct (select_admin db) as [|row rest].
    - pose proof (insert_user_ledger now (Some "admin") (Some "admin@ghouenzen.com")
                    (bcrypt_hash "12345" salt) (Some "Administrator") None None true db)
        as Hins.
      destruct (insert_user now (Some "admin") (Some "admin@ghouenzen.com")
                  (bcrypt_hash "12345" salt) (Some "Administrator") None None true db)
        as [[id|m] db1]; [|discriminate].
      exists db1. split; [reflexivity|]. cbn [snd] in Hins. split.
      + intro sd'. destruct (Hins sd') as [H1 [H2 [H3 [H4 _]]]]. auto.
      + destruct (Hins Creditor) as [_ [_ [_ [_ H5]]]]. exact H5.
    - exists db. split; [reflexivity|]. split; [auto | reflexivity]. }
  destruct Hshape as [db1 [Hdb' [Hl1 Hp1]]].
  assert (Hrows : forall sd,
            items sd db'
            = filter (fun a => negb (existsb (duplicates a) (items sd db))) (items sd db)
            /\ parties sd db' = parties sd db
            /\ seq_parties sd db' = seq_parties sd db
            /\ seq_items sd db' = seq_items sd db).
  { intro sd'. destruct (cleanup_run sd' db1) as [Hi [Hp [Hsp [Hsi _]]]].
    cbv zeta in Hi, Hp, Hsp, Hsi. rewrite <- Hdb' in Hi, Hp, Hsp, Hsi.
    destruct (Hl1 sd') as [E1 [E2 [E3 E4]]].
    rewrite Hi, Hp, Hsp, Hsi, E1, E2, E3, E4. auto. }
  destruct (Hrows sd) as [Hi [Hp _]].
  split; [|split; [|split; [|split; [|split]]]].
  - intros a Ha. rewrite Hi in Ha. apply filter_In in Ha. apply Ha.
  - intros a b Ha Hb. rewrite Hi in Ha, Hb.
    apply filter_In in Ha, Hb. destruct Ha as [_ Ha]. destruct Hb as [Hb _].
    apply negb_true_iff in Ha.
    destruct (duplicates a b) eqn:Hab; [|reflexivity].
    assert (Ht : existsb (duplicates a) (items sd db) = true)
      by (apply existsb_exists; exists b; now split).
    rewrite Ht in Ha. discriminate.
  - intros a Ha.
    destruct (first_duplicate_kept (items sd db) _ a (Nat.lt_succ_diag_r _) Ha)
      as [b [Hb [Hkept Hab]]].
    exists b. split; [|exact Hab].
    rewrite Hi. apply filter_In. split; [exact Hb|]. now rewrite Hkept.
  - exact Hp.
  - destruct (cleanup_run sd db1) as [_ [_ [_ [_ Hpay]]]]. cbv zeta in Hpay.
    rewrite <- Hdb' in Hpay. now rewrite Hpay.
  - intros Hok sd'. destruct (Hrows sd') as [Hi' [Hp' [Hsp' Hsi']]].
    rewrite Hi', Hp', Hsp', Hsi'. apply tables_ok_filter_items. apply Hok.
Qed.

Lemma startup_cleanup_keeps_first_witness :
  exists b,
    In b (items Creditor (snd (ServerJsAccount.initDB 900 "salt" db0)))
    /\ (b = mkItem 2 1 "rent" 20000 None None "paid" "" 300
        \/ duplicates (mkItem 2 1 "rent" 20000 None None "paid" "" 300) b = true).
Proof.
  destruct (@startup_cleanup_keeps_first PlainBcrypt 900 "salt" db0 Creditor eq_refl)
    as [_ [_ [Hkept _]]].
  apply Hkept. right. left. reflexivity.
Defined.

(** *** Statements of listed records *)

Section StatementFacts.
Context `{JsNumber}.

Lemma statement_rows_numbers (l : list ItemView) (idx : Z) :
  map Dashboard.row_number (Dashboard.statement_rows idx l)
  = map (fun k => idx + Z.of_nat k) (seq 1 (List.length l)).
Proof.
  revert idx. induction l as [|item l IH]; intro idx; [reflexivity|].
  cbn [Dashboard.statement_rows map List.length seq Dashboard.row_number].
  f_equal.
  rewrite IH, <- (seq_shift (List.length l) 1), map_map. apply map_ext. intro k. lia.
Qed.

Lemma statement_rows_amounts (l : list ItemView) (idx : Z) :
  map Dashboard.row_amount (Dashboard.statement_rows idx l) = map iv_amount l.
Proof.
  revert idx. induction l as [|item l IH]; intro idx; [reflexivity|].
  cbn [Dashboard.statement_rows map Dashboard.row_amount]. now rewrite IH.
Qed.

Lemma statement_rows_reasons (l : list ItemView) (idx : Z) (row : Dashboard.StatementRow) :
  In row (Dashboard.statement_rows idx l) -> Dashboard.row_reason row <> "".
Proof.
  revert idx. induction l as [|item l IH]; intros idx Hin; [contradiction|].
  cbn [Dashboard.statement_rows] in Hin. destruct Hin as [<- | Hin]; [|now apply (IH (idx + 1))].
  cbn [Dashboard.row_reason]. unfold Js.or_string.
  destruct (reason (iv_row item) =? "")%string eqn:Hr; [discriminate|].
  now apply String.eqb_neq.
Qed.

Lemma statement_rows_of (cu : option string) (r : PartyView) (st : Dashboard.Statement) :
  st = Dashboard.generateCreditorStatement cu r
  \/ st = Dashboard.generateDebtorStatement cu r ->
  Dashboard.rows st = Dashboard.statement_rows 0 (pv_items r)
  /\ Dashboard.total st = total_amount r.
Proof.
  intros [-> | ->];
    unfold Dashboard.generateCreditorStatement, Dashboard.generateDebtorStatement;
    cbv zeta;
    destruct (Js.or_string (Some (language (pv_row r))) "english" =? "french")%string;
    split; reflexivity.
Qed.

End StatementFacts.

(** X20: the statement of a listed record.  For a creditor or debtor as
    either server lists it, the statement the dashboard script builds has
    one row for each item stored under the record, in the order of the item
    ids and numbered from 1 without a gap; no row has an empty reason; and
    the total it prints is the sum of the amounts of its rows (both before
    they are formatted as currency). *)
Theorem statement_of_listed_record `{JsNumber} (sd : side) (s : Session) (db db' : DB)
    (views : list PartyView) (r : PartyView) (cu : option string)
    (st : Dashboard.Statement) :
  ServerJs.listParties sd s db = (mkResp 200 (JParties views), db')
  \/ Compact.listParties sd s db = (mkResp 200 (JParties views), db') ->
  In r views ->
  st = Dashboard.generateCreditorStatement cu r
  \/ st = Dashboard.generateDebtorStatement cu r ->
  map Dashboard.row_number (Dashboard.rows st)
  = map Z.of_nat (seq 1 (List.length (select_items_of sd (party_id (pv_row r)) db)))
  /\ map Dashboard.row_amount (Dashboard.rows st)
     = map (fun i => iv_amount (item_view i))
         (select_items_of sd (party_id (pv_row r)) db)
  /\ (forall row, In row (Dashboard.rows st) -> Dashboard.row_reason row <> "")
  /\ Dashboard.total st = sum_amounts (map Dashboard.row_amount (Dashboard.rows st)).
Proof.
  intros Hlist Hin Hst.
  assert (Hviews : exists uid,
             views = map (view_of sd db) (select_parties_of_user sd uid db)).
  { destruct Hlist as [Hl|Hl];
      [unfold ServerJs.listParties, ServerJs.requireAuth in Hl
      |unfold Compact.listParties, Compact.requireAuth in Hl];
      destruct (session_user s) as [uid|]; try discriminate;
      rewrite list_parties_reads in Hl; exists uid; congruence. }
  destruct Hviews as [uid ->].
  apply in_map_iff in Hin. destruct Hin as [c [<- _]].
  destruct (statement_rows_of cu (view_of sd db c) st Hst) as [Hrows Htotal].
  rewrite Hrows, Htotal.
  cbn [view_of pv_items pv_row total_amount].
  split; [|split; [|split]].
  - rewrite statement_rows_numbers, length_map. apply map_ext. intro k. lia.
  - rewrite statement_rows_amounts, map_map. reflexivity.
  - intros row. apply statement_rows_reasons.
  - rewrite statement_rows_amounts. apply reduce_amounts.
Qed.

Lemma statement_of_listed_record_witness :
  map Dashboard.row_number
    (Dashboard.rows
       (Dashboard.generateCreditorStatement (Some "Alice")
          (view_of (H := ExactNumber) Creditor db0
             (mkParty 1 1 "Amina" "" "female" "french" 300))))
  = [1; 2].
Proof.
  destruct (@statement_of_listed_record ExactNumber Creditor alice db0 db0
              [view_of Creditor db0 (mkParty 1 1 "Amina" "" "female" "french" 300)]
              (view_of Creditor db0 (mkParty 1 1 "Amina" "" "female" "french" 300))
              (Some "Alice") _ (or_introl eq_refl) (or_introl eq_refl)
              (or_introl eq_refl)) as [Hnum _].
  exact Hnum.
Defined.

(** *** The dashboard numbers against the lists *)

Lemma fold_left_add_total (l : list decimal) (a : decimal) :
  fold_left Z.add l a = a + total_of l.
Proof.
  revert a. induction l as [|x l IH]; intro a; cbn [fold_left total_of fold_right].
  - lia.
  - rewrite IH. unfold total_of. lia.
Qed.

Lemma coalesce_sum (l : list decimal) : coalesce (sql_sum l) 0 = total_of l.
Proof.
  destruct l as [|x l]; [reflexivity|].
  unfold sql_sum, coalesce. now rewrite fold_left_add_total.
Qed.

Lemma total_of_app (l1 l2 : list decimal) :
  total_of (l1 ++ l2) = total_of l1 + total_of l2.
Proof.
  induction l1 as [|x l1 IH]; [reflexivity|].
  cbn [app]. unfold total_of in *. cbn [fold_right]. rewrite IH. lia.
Qed.

Lemma total_of_perm (l1 l2 : list decimal) :
  Permutation l1 l2 -> total_of l1 = total_of l2.
Proof.
  unfold total_of. induction 1; cbn [fold_right]; lia.
Qed.

Lemma total_of_filter {A : Type} (f : A -> bool) (g : A -> decimal) (l : list A) :
  total_of (map g (filter f l)) = total_of (map (fun x => if f x then g x else 0) l).
Proof.
  induction l as [|x l IH]; [reflexivity|].
  cbn [filter map]. destruct (f x); unfold total_of in *; cbn [map fold_right]; lia.
Qed.

Lemma total_of_zero {A : Type} (l : list A) : total_of (map (fun _ => 0) l) = 0.
Proof.
  induction l as [|x l IH]; [reflexivity|]. unfold total_of in *. cbn [map fold_right]. lia.
Qed.

Lemma total_of_ext {A : Type} (f g : A -> decimal) (l : list A) :
  (forall x, f x = g x) -> total_of (map f l) = total_of (map g l).
Proof. intro Hfg. f_equal. now apply map_ext. Qed.

Lemma total_of_plus {A : Type} (f g : A -> decimal) (l : list A) :
  total_of (map (fun x => f x + g x) l) = total_of (map f l) + total_of (map g l).
Proof.
  induction l as [|x l IH]; [reflexivity|]. unfold total_of in *. cbn [map fold_right]. lia.
Qed.

Lemma total_of_flat_map {A B : Type} (F : A -> list B) (g : B -> decimal) (l : list A) :
  total_of (map g (flat_map F l)) = total_of (map (fun x => total_of (map g (F x))) l).
Proof.
  induction l as [|x l IH]; [reflexivity|].
  cbn [flat_map map]. rewrite map_app, total_of_app, IH. reflexivity.
Qed.

(** A sum over rows of sums over columns is the sum over columns of sums
    over rows. *)
Lemma total_of_swap {A B : Type} (g : A -> B -> decimal) (la : list A) (lb : list B) :
  total_of (map (fun a => total_of (map (fun b => g a b) lb)) la)
  = total_of (map (fun b => total_of (map (fun a => g a b) la)) lb).
Proof.
  induction la as [|a la IH].
  - cbn [map]. rewrite total_of_zero. reflexivity.
  - cbn [map]. change (total_of (?x :: ?l)) with (x + total_of l).
    rewrite IH, <- total_of_plus. reflexivity.
Qed.

Section DashboardFacts.
Context `{JsNumber}.

(** The [SUM] of the join, as a sum over the parent rows of the user. *)
Lemma pending_total_by_party (sd : side) (uid : Z) (db : DB) :
  select_pending_total sd uid db
  = stored_pending (map (view_of sd db) (select_parties_of_user sd uid db)).
Proof.
  unfold select_pending_total, stored_pending. rewrite coalesce_sum.
  unfold pending_join. rewrite total_of_flat_map.
  rewrite (total_of_ext _
             (fun i => total_of
                         (map (fun c => if (parent_id i =? party_id c)
                                           && (party_user_id c =? uid)
                                           && (status i =? "pending")%string
                                        then amount i else 0)
                            (parties sd db)))).
  2:{ intro i. rewrite map_map. apply total_of_filter. }
  rewrite total_of_swap.
  rewrite map_map. unfold select_parties_of_user.
  rewrite (total_of_perm _ _
             (Permutation_map _ (order_by_perm (fun p q => String.leb (full_name p) (full_name q))
                                   (filter (fun p => party_user_id p =? uid)
                                      (parties sd db))))).
  rewrite total_of_filter. apply total_of_ext. intro c.
  cbn [view_of pv_items]. unfold select_items_of.
  assert (Hcomm : forall l,
            map (fun i => amount (iv_row i)) (filter is_pending (map item_view l))
            = map amount (filter (fun i => (status i =? "pending")%string) l)).
  { induction l as [|i l IH]; [reflexivity|].
    cbn [map filter]. unfold is_pending at 1. cbn [item_view iv_row].
    destruct (status i =? "pending")%string; cbn [map]; rewrite IH; reflexivity. }
  rewrite Hcomm. rewrite total_of_filter.
  rewrite (total_of_perm _ _
             (Permutation_map _ (order_by_perm (fun i j => item_id i <=? item_id j)
                                   (filter (fun i => parent_id i =? party_id c)
                                      (items sd db))))).
  rewrite total_of_filter.
  destruct (party_user_id c =? uid).
  - apply total_of_ext. intro i. rewrite andb_true_r.
    destruct (parent_id i =? party_id c); reflexivity.
  - transitivity (total_of (map (fun _ : ItemRow => 0) (items sd db)));
      [|apply total_of_zero].
    apply total_of_ext. intro i. rewrite andb_false_r. reflexivity.
Qed.

Lemma count_is_listing_length (sd : side) (uid : Z) (db : DB) :
  count_parties_of_user sd uid db
  = Z.of_nat (List.length (map (view_of sd db) (select_parties_of_user sd uid db))).
Proof.
  unfold count_parties_of_user, select_parties_of_user.
  rewrite length_map. f_equal. symmetry. apply Permutation_length. apply order_by_perm.
Qed.

End DashboardFacts.

(** X21: the dashboard numbers agree with the lists.  For a signed-in user,
    in both servers, the two counts of the dashboard are the lengths of the
    creditor list and of the debtor list, and each total is read from the
    stored amounts of the pending items of the listed records added up: the
    join of the statistics query and the per-record queries of the list
    routes see the same items. *)
Theorem dashboard_agrees_with_lists `{JsNumber} (s : Session) (uid : Z) (db : DB) :
  session_user s = Some uid ->
  exists creditors debtors st1 st2,
    fst (ServerJs.listParties Creditor s db) = mkResp 200 (JParties creditors)
    /\ fst (Compact.listParties Creditor s db) = mkResp 200 (JParties creditors)
    /\ fst (ServerJs.listParties Debtor s db) = mkResp 200 (JParties debtors)
    /\ fst (Compact.listParties Debtor s db) = mkResp 200 (JParties debtors)
    /\ fst (ServerJs.dashboardStats s db) = mkResp 200 (JStats st1)
    /\ fst (Compact.dashboardStats s db) = mkResp 200 (JStats st2)
    /\ (forall st, st = st1 \/ st = st2 ->
          creditor_count st = Z.of_nat (List.length creditors)
          /\ debtor_count st = Z.of_nat (List.length debtors)
          /\ total_owed_to_creditors st
             = num_or_zero (parseFloat (stored_pending creditors))
          /\ total_owed_by_debtors st
             = num_or_zero (parseFloat (stored_pending debtors))).
Proof.
  intro Hs.
  exists (map (view_of Creditor db) (select_parties_of_user Creditor uid db)),
         (map (view_of Debtor db) (select_parties_of_user Debtor uid db)).
  unfold ServerJs.dashboardStats, Compact.dashboardStats, ServerJs.listParties,
    Compact.listParties, ServerJs.requireAuth, Compact.requireAuth.
  rewrite Hs. cbv beta iota. rewrite !list_parties_reads.
  unfold Http.handle, bind, query, json, ret.
  eexists. eexists.
  do 6 (split; [reflexivity|]).
  intros st [-> | ->];
    cbn [stats_of creditor_count debtor_count total_owed_to_creditors total_owed_by_debtors];
    rewrite <- !pending_total_by_party, <- !count_is_listing_length; repeat split.
Qed.

Lemma dashboard_agrees_with_lists_witness :
  exists creditors st,
    fst (ServerJs.listParties (H := ExactNumber) Creditor alice db0)
    = mkResp 200 (JParties creditors)
    /\ fst (ServerJs.dashboardStats alice db0) = mkResp 200 (JStats st)
    /\ creditor_count st = Z.of_nat (List.length creditors).
Proof.
  destruct (@dashboard_agrees_with_lists ExactNumber alice 1 db0 eq_refl)
    as [cs [ds [st1 [st2 [Hc [_ [_ [_ [Hst [_ Hall]]]]]]]]]].
  exists cs, st1. split; [exact Hc|]. split; [exact Hst|].
  apply (Hall st1). now left.
Defined.

(** *** Pages *)


(** X23: where a login leads.  When the second server grants a login, the
    page its answer names is one the new session is sent without a further
    redirect: the change-password page for a user who must change the
    password, otherwise the administration page for an administrator and
    the dashboard page for anyone else. *)
Theorem compact_login_lands_on_a_page `{Bcrypt} `{Casing} (s : Session) (now : Z)
    (name pw : option string) (db : DB) :
  (forall u, In u (users db) -> 0 < user_id u) ->
  rcode (fst (fst (CompactAccount.login s now name pw db))) = 200 ->
  exists user target,
    In user (users db)
    /\ rbody (fst (fst (CompactAccount.login s now name pw db)))
       = ALogin (login_user user false) (Some target)
    /\ CompactAccount.pageRoute target (snd (fst (CompactAccount.login s now name pw db)))
       = Some (SendFile
                 (if must_change_password user then "change-password.html"
                  else if is_admin user then "admin.html" else "dashboard.html")).
Proof.
  intros Hpos.
  destruct name as [n|]; [|intro Hc; discriminate Hc].
  destruct pw as [p|]; [|intro Hc; discriminate Hc].
  rewrite compact_login_run.
  destruct ((n =? "")%string || (p =? "")%string); [intro Hc; discriminate Hc|].
  destruct (select_user_by_lower_name n db) as [|user rest] eqn:Hrows;
    [intro Hc; discriminate Hc|].
  destruct (bcrypt_compare p (password_hash user)); [|intro Hc; discriminate Hc].
  intros _. cbn [fst snd rbody].
  assert (Hin : In user (users db)).
  { assert (Hsel : In user (select_user_by_lower_name n db)) by (rewrite Hrows; now left).
    apply filter_In in Hsel. apply Hsel. }
  exists user, (CompactAccount.landing user).
  split; [exact Hin|]. split; [reflexivity|].
  assert (Hs : session_user (mkSession (Some (user_id user)) (Some (username user))
                               (is_admin user) (must_change_password user))
               = Some (user_id user)).
  { unfold session_user. cbn [userId]. specialize (Hpos user Hin).
    destruct (user_id user =? 0) eqn:E; [|reflexivity].
    apply Z.eqb_eq in E. lia. }
  unfold CompactAccount.landing.
  destruct (must_change_password user) eqn:Hm;
    [|destruct (is_admin user) eqn:Ha];
    unfold CompactAccount.pageRoute; cbn [String.eqb Ascii.eqb Bool.eqb];
    rewrite Hs; cbn [mustChangePassword isAdmin]; reflexivity.
Qed.

Lemma compact_login_lands_on_a_page_witness :
  exists user target,
    In user (users db0)
    /\ rbody (fst (fst (CompactAccount.login no_session 50 (Some "Alice") (Some "secret-a")
                          db0)))
       = ALogin (login_user user false) (Some target)
    /\ CompactAccount.pageRoute target
         (snd (fst (CompactAccount.login no_session 50 (Some "Alice") (Some "secret-a") db0)))
       = Some (SendFile
                 (if must_change_password user then "change-password.html"
                  else if is_admin user then "admin.html" else "dashboard.html")).
Proof.
  apply (@compact_login_lands_on_a_page PlainBcrypt AsciiCasing no_session 50
           (Some "Alice") (Some "secret-a") db0).
  - intros u Hu. cbn in Hu. repeat (destruct Hu as [<- | Hu]; [reflexivity|]). contradiction.
  - reflexivity.
Defined.

(** *** The list of users *)

(** X24: the list of users an administrator reads holds every row of the
    users table, each once and nothing else, and the store is left as it
    was; server.js gives the newest account first, the second server orders
    the accounts by id. *)
Theorem user_list_is_whole_and_ordered `{Bcrypt} `{Casing} (s : Session) (uid : Z)
    (db : DB) :
  session_user s = Some uid ->
  isAdmin s = true ->
  exists rows1 rows2,
    ServerJsAccount.listUsers s db
    = (mkReply 200 (AUsers (map (fun u => user_view u false true) rows1)), db)
    /\ CompactAccount.listUsers s db
       = (mkReply 200 (AUsers (map (fun u => user_view u false true) rows2)), db)
    /\ Permutation rows1 (users db)
    /\ Permutation rows2 (users db)
    /\ StronglySorted (fun u v => user_created_at v <= user_created_at u) rows1
    /\ StronglySorted (fun u v => user_id u <= user_id v) rows2.
Proof.
  intros Hs Ha.
  exists (order_by (fun u v => user_created_at v <=? user_created_at u) (users db)),
         (order_by (fun u v => user_id u <=? user_id v) (users db)).
  split; [|split; [|split; [|split; [|split]]]].
  - unfold ServerJsAccount.listUsers, ServerJsAccount.requireAdmin.
    rewrite Hs, Ha. reflexivity.
  - unfold CompactAccount.listUsers, CompactAccount.requireAdmin.
    rewrite Hs, Ha. reflexivity.
  - apply order_by_perm.
  - apply order_by_perm.
  - apply strongly_sorted_weaken
      with (R := fun u v => (user_created_at v <=? user_created_at u) = true).
    + intros u v. apply Z.leb_le.
    + apply order_by_sorted.
      * intros x y.
        destruct (Z.le_ge_cases (user_created_at y) (user_created_at x)) as [Hle|Hle];
          [left | right]; now apply Z.leb_le.
      * intros x y z Hxy Hyz. apply Z.leb_le in Hxy, Hyz. apply Z.leb_le. lia.
  - apply strongly_sorted_weaken with (R := fun u v => (user_id u <=? user_id v) = true).
    + intros u v. apply Z.leb_le.
    + apply order_by_sorted.
      * intros x y.
        destruct (Z.le_ge_cases (user_id x) (user_id y)) as [Hle|Hle];
          [left | right]; now apply Z.leb_le.
      * intros x y z Hxy Hyz. apply Z.leb_le in Hxy, Hyz. apply Z.leb_le. lia.
Qed.

Lemma user_list_is_whole_and_ordered_witness :
  exists rows1 rows2,
    ServerJsAccount.listUsers alice db0
    = (mkReply 200 (AUsers (map (fun u => user_view u false true) rows1)), db0)
    /\ CompactAccount.listUsers alice db0
       = (mkReply 200 (AUsers (map (fun u => user_view u false true) rows2)), db0)
    /\ Permutation rows1 (users db0)
    /\ Permutation rows2 (users db0)
    /\ StronglySorted (fun u v => user_created_at v <= user_created_at u) rows1
    /\ StronglySorted (fun u v => user_id u <= user_id v) rows2.
Proof.
  apply (@user_list_is_whole_and_ordered PlainBcrypt AsciiCasing alice 1 db0);
    reflexivity.
Defined.

(** *** The status and the profile after a login *)

Lemma filter_key_single (l : list UserRow) (u : UserRow) :
  NoDup (map user_id l) -> In u l ->
  filter (fun x => user_id x =? user_id u) l = [u].
Proof.
  induction l as [|a l IH]; intros Hnd Hin; [contradiction|].
  cbn [map] in Hnd. inversion Hnd as [|? ? Hnotin Hnd']; subst.
  cbn [filter]. destruct Hin as [-> | Hin].
  - rewrite Z.eqb_refl. f_equal. apply filter_nothing.
    intros x Hx. apply Z.eqb_neq. intro Heq. apply Hnotin. rewrite <- Heq.
    now apply in_map.
  - destruct (user_id a =? user_id u) eqn:E; [|now apply IH].
    apply Z.eqb_eq in E. exfalso. apply Hnotin. rewrite E. now apply in_map.
Qed.

Lemma select_user_after_login (now : Z) (db : DB) (user : UserRow) :
  NoDup (map user_id (users db)) -> In user (users db) ->
  select_user (user_id user) (snd (update_last_login now (user_id user) db))
  = [with_last_login now user].
Proof.
  intros Hnd Hin. unfold select_user, update_last_login, exec. cbn [snd users set_users].
  rewrite filter_map_commute.
  - rewrite (filter_key_single _ _ Hnd Hin). cbn [map]. now rewrite Z.eqb_refl.
  - intro u. destruct (user_id u =? user_id user) eqn:E; cbn [user_id]; rewrite ?E;
      reflexivity.
Qed.

Lemma session_of_positive_id (id : Z) (n : option string) (a m : bool) :
  0 < id -> session_user (mkSession (Some id) n a m) = Some id.
Proof.
  intro Hpos. unfold session_user. cbn [userId].
  destruct (id =? 0) eqn:E; [|reflexivity]. apply Z.eqb_eq in E. lia.
Qed.

(** X25: the status and the profile after a login.  When a login is
    granted, in either server, the status route then reports, for the new
    session, the id, the name, the administrator flag and the must-change
    flag of the account that logged in, and the profile route gives the row
    of that account, with the time of this login as its last login. *)
Theorem status_and_profile_after_login `{Bcrypt} `{Casing} (s : Session) (now : Z)
    (name pw : option string) (db : DB) :
  users_ok db ->
  (forall u, In u (users db) -> 0 < user_id u) ->
  (rcode (fst (fst (ServerJsAccount.login s now name pw db))) = 200 ->
   exists user,
     In user (users db)
     /\ ServerJsAccount.status (snd (fst (ServerJsAccount.login s now name pw db)))
          (snd (ServerJsAccount.login s now name pw db))
        = mkReply 200
            (AStatus (Some (mkStatusInfo (user_id user) (Some (username user))
                              (is_admin user) (must_change_password user))))
     /\ fst (ServerJsAccount.getProfile (snd (fst (ServerJsAccount.login s now name pw db)))
               (snd (ServerJsAccount.login s now name pw db)))
        = mkReply 200 (AProfile (Some (user_view (with_last_login now user) true true))))
  /\ (rcode (fst (fst (CompactAccount.login s now name pw db))) = 200 ->
      exists user,
        In user (users db)
        /\ CompactAccount.status (snd (fst (CompactAccount.login s now name pw db)))
             (snd (CompactAccount.login s now name pw db))
           = mkReply 200
               (AStatus (Some (mkStatusInfo (user_id user) (Some (username user))
                                 (is_admin user) (must_change_password user))))
        /\ fst (CompactAccount.getProfile
                  (snd (fst (CompactAccount.login s now name pw db)))
                  (snd (CompactAccount.login s now name pw db)))
           = mkReply 200
               (AProfile (Some (user_view (with_last_login now user) true false)))).
Proof.
  intros [Hnd _] Hpos. split.
  - destruct name as [n|]; [|intro Hc; discriminate Hc].
    destruct pw as [p|]; [|intro Hc; discriminate Hc].
    rewrite serverjs_login_run.
    destruct ((n =? "")%string || (p =? "")%string); [intro Hc; discriminate Hc|].
    destruct (select_user_by_name (toLowerCase n) db) as [|user rest] eqn:Hrows;
      [intro Hc; discriminate Hc|].
    destruct (bcrypt_compare p (password_hash user)); [|intro Hc; discriminate Hc].
    intros _. cbn [fst snd].
    assert (Hin : In user (users db)).
    { assert (Hsel : In user (select_user_by_name (toLowerCase n) db))
        by (rewrite Hrows; now left).
      apply filter_In in Hsel. apply Hsel. }
    exists user. split; [exact Hin|].
    unfold ServerJsAccount.status, ServerJsAccount.getProfile, ServerJsAccount.requireAuth,
      Account.handle, bind, query.
    rewrite (session_of_positive_id _ _ _ _ (Hpos user Hin)).
    rewrite (select_user_after_login now db user Hnd Hin).
    split; reflexivity.
  - destruct name as [n|]; [|intro Hc; discriminate Hc].
    destruct pw as [p|]; [|intro Hc; discriminate Hc].
    rewrite compact_login_run.
    destruct ((n =? "")%string || (p =? "")%string); [intro Hc; discriminate Hc|].
    destruct (select_user_by_lower_name n db) as [|user rest] eqn:Hrows;
      [intro Hc; discriminate Hc|].
    destruct (bcrypt_compare p (password_hash user)); [|intro Hc; discriminate Hc].
    intros _. cbn [fst snd].
    assert (Hin : In user (users db)).
    { assert (Hsel : In user (select_user_by_lower_name n db))
        by (rewrite Hrows; now left).
      apply filter_In in Hsel. apply Hsel. }
    exists user. split; [exact Hin|].
    unfold CompactAccount.status, CompactAccount.getProfile, CompactAccount.requireAuth,
      Account.handle, bind, query.
    rewrite (session_of_positive_id _ _ _ _ (Hpos user Hin)).
    rewrite (select_user_after_login now db user Hnd Hin).
    split; reflexivity.
Qed.

Lemma db0_ids_positive : forall u, In u (users db0) -> 0 < user_id u.
Proof.
  intros u Hu. cbn in Hu. repeat (destruct Hu as [<- | Hu]; [reflexivity|]). contradiction.
Qed.

Lemma status_and_profile_after_login_witness :
  exists user,
    In user (users db0)
    /\ ServerJsAccount.status
         (snd (fst (ServerJsAccount.login no_session 50 (Some "Bob") (Some "secret-b") db0)))
         (snd (ServerJsAccount.login no_session 50 (Some "Bob") (Some "secret-b") db0))
       = mkReply 200
           (AStatus (Some (mkStatusInfo (user_id user) (Some (username user))
                             (is_admin user) (must_change_password user)))).
Proof.
  destruct (@status_and_profile_after_login PlainBcrypt AsciiCasing no_session 50
              (Some "Bob") (Some "secret-b") db0 db0_users_ok db0_ids_positive)
    as [Hjs _].
  destruct (Hjs eq_refl) as [user [Hin [Hstatus _]]].
  exists user. split; assumption.
Defined.

(** *** Recording and deleting a payment *)

Section PaymentFacts.
Context `{JsNumber}.



End PaymentFacts.


